(** * The Tank engine for Maya: scene-event coordination and the engine queue

    A shallow embedding of [engine.py]: the [SceneEventWatcher] class, the
    module functions [refresh_engine], [on_scene_event_callback] and
    [create_tank_disabled_menu], the life-cycle hooks of [MayaEngine]
    ([init_engine], [post_app_init], [destroy_engine]) and its deprecated
    job queue ([add_to_queue], [report_progress], [execute_queue]).

    Python statements become computations in a state-and-exception monad
    over an explicit picture of the Maya session (the [World]); the calls
    into the Tank core and into Maya whose outcome the module cannot know
    are answered by a record of oracles (the [Host]). *)

From Stdlib Require Import String ZArith List Bool Lia.
From stdpp Require Import base gmap sets list strings.
Import ListNotations.
Local Open Scope string_scope.
Local Open Scope list_scope.

(** ** Exceptions and results *)

(** The exception classes the module distinguishes.  [tank.TankError] derives
    from [Exception] and [tank.TankEngineInitError] derives from
    [tank.TankError]; [PyException] stands for every other subclass of
    [Exception], [PyBaseException] for what only derives from
    [BaseException] ([KeyboardInterrupt], [SystemExit]). *)
Inductive exn : Type :=
| TankError (msg : string)
| TankEngineInitError (msg : string)
| PyException (msg : string)
| PyBaseException (msg : string).

Definition isinstance_TankError (e : exn) : bool :=
  match e with
  | TankError _ | TankEngineInitError _ => true
  | _ => false
  end.

Definition isinstance_TankEngineInitError (e : exn) : bool :=
  match e with
  | TankEngineInitError _ => true
  | _ => false
  end.

Definition isinstance_Exception (e : exn) : bool :=
  match e with
  | PyBaseException _ => false
  | _ => true
  end.

(** A bare [except:] clause. *)
Definition isinstance_anything (e : exn) : bool := true.

Inductive result (A : Type) : Type :=
| Ok (a : A)
| Raise (e : exn).
Arguments Ok {A} a.
Arguments Raise {A} e.

(** ** Data model *)

(** A Tank context; the module only compares contexts with [==] and reads
    [context.project]. *)
Record Context : Type := mkContext {
  project : option string;
  entity : option string;
  task : option string
}.

Global Instance Context_eq_dec : EqDecision Context.
Proof. solve_decision. Defined.

(** A Tank API instance, identified by the project root it was made for. *)
Definition Tk : Type := string.

Inductive EventKind : Type := kAfterOpen | kAfterSave | kAfterNew | kMayaExiting.

Global Instance EventKind_eq_dec : EqDecision EventKind.
Proof. solve_decision. Defined.

(** The two static methods a watcher hands to [MSceneMessage.addCallback]. *)
Inductive CallbackFn : Type := scene_event_cb | maya_exiting_cb.

Global Instance CallbackFn_eq_dec : EqDecision CallbackFn.
Proof. solve_decision. Defined.

(** One entry of Maya's callback table: the event, the function and the
    client data (a reference to the watcher object). *)
Record Registration : Type := mkRegistration {
  reg_event : EventKind;
  reg_fn : CallbackFn;
  reg_watcher : nat
}.

Global Instance Registration_eq_dec : EqDecision Registration.
Proof. solve_decision. Defined.

(** Every [cb_fn] in the module is the closure
    [lambda en=..., pc=...: on_scene_event_callback(en, pc)]; it is kept as
    the pair of its two captured values. *)
Definition CbFn : Type := (string * option Context)%type.

(** A [SceneEventWatcher] object. *)
Record Watcher : Type := mkWatcher {
  message_ids : list nat;
  cb_fn : CbFn;
  scene_events : list EventKind;
  run_once : bool
}.

(** A [MayaEngine] object: what the module reads of it.  [menu_handle] is
    the attribute [_menu_handle], which [post_app_init] only sets when Maya
    has a user interface. *)
Record Engine : Type := mkEngine {
  instance_name : string;
  engine_tank : Tk;
  context : Context;
  debug_logging : bool;
  menu_handle : option string;
  engine_watcher : nat
}.

Global Instance Engine_eq_dec : EqDecision Engine.
Proof. solve_decision. Defined.

Inductive LogMsg : Type :=
| Initializing
| RunningMayaVersion (version : string)
| RegisteredCallbacks
| Destroying
| ReadyToSwitch
| PrevContext (c : option Context)
| NewContext (c : Context)
| LaunchedNewEngine.

Inductive Msg : Type :=
| CannotBeStarted (e : exn)
| ProblemStarting (e : exn)
| Debug (m : LogMsg).

(** What the session shows to an observer, in order. *)
Inductive Obs : Type :=
| ODisplayInfo (m : Msg)
| ODisplayError (m : Msg)
| OTankFromPath (path : string)
| OContextFromPath (tk : Tk) (path : string) (prev : option Context)
| OStartEngine (name : string) (tk : Tk) (ctx : Context)
| ODestroyBegin (e : Engine)
| ODestroyEnd (e : Engine)
| ORemoveCallback (id : nat).

(** The Maya session as the module sees it. *)
Record World : Type := mkWorld {
  scene_name : string;                  (* pm.sceneName() *)
  current_engine : option Engine;       (* tank.platform.current_engine() *)
  menus : gset string;                  (* the menus that exist *)
  callbacks : gmap nat Registration;    (* MSceneMessage callbacks by id *)
  next_msg_id : nat;
  watchers : gmap nat Watcher;          (* the SceneEventWatcher objects *)
  next_watcher : nat;
  trace : list Obs
}.

(** The collaborators whose answers the module takes as given. *)
Record Host : Type := mkHost {
  abspath : string -> string;
  tank_from_path : string -> result Tk;
  context_from_path : Tk -> string -> option Context -> result Context;
  (* tank.platform.start_engine, up to the call of init_engine *)
  start_engine_core : string -> Tk -> Context -> option exn;
  (* Engine.destroy, up to the call of destroy_engine *)
  destroy_core : Engine -> option exn;
  addCallback_result : EventKind -> option exn;
  set_project_result : Context -> option exn;
  setting_debug_logging : string -> bool;
  operating_system : string;            (* cmds.about(operatingSystem=True) *)
  maya_version : string;                (* cmds.about(version=True) *)
  batch : bool                          (* cmds.about(batch=True) *)
}.

(** ** The monad *)

Definition M (A : Type) : Type := World -> result A * World.

Definition ret {A} (a : A) : M A := fun w => (Ok a, w).

Definition raise {A} (e : exn) : M A := fun w => (Raise e, w).

Definition bind {A B} (m : M A) (k : A -> M B) : M B :=
  fun w =>
    match m w with
    | (Ok a, w') => k a w'
    | (Raise e, w') => (Raise e, w')
    end.

Declare Scope py_scope.
Delimit Scope py_scope with py.
Notation "'let!' x ':=' m 'in' k" := (bind m (fun x => k))
  (at level 10, x name, m at level 100, k at level 200) : py_scope.
Notation "m '>>' k" := (bind m (fun _ => k))
  (at level 90, right associativity) : py_scope.
Local Open Scope py_scope.

(** [try: x = m  except cls, e: return handler e] followed by [k x]; an
    exception outside [cls] keeps propagating, and neither [handler] nor
    the continuation [k] is guarded. *)
Definition try_except {A B} (m : M A) (cls : exn -> bool)
    (handler : exn -> M B) (k : A -> M B) : M B :=
  fun w =>
    match m w with
    | (Ok a, w') => k a w'
    | (Raise e, w') => if cls e then handler e w' else (Raise e, w')
    end.

Fixpoint for_each {A} (l : list A) (body : A -> M unit) : M unit :=
  match l with
  | [] => ret tt
  | x :: rest => body x >> for_each rest body
  end.

Definition is_Some_bool {A} (o : option A) : bool :=
  match o with
  | Some _ => true
  | None => false
  end.

(** ** State accessors *)

Definition set_current_engine (e : option Engine) : M unit :=
  fun w => (Ok tt,
    mkWorld (scene_name w) e (menus w) (callbacks w) (next_msg_id w)
            (watchers w) (next_watcher w) (trace w)).

Definition set_menus (f : gset string -> gset string) : M unit :=
  fun w => (Ok tt,
    mkWorld (scene_name w) (current_engine w) (f (menus w)) (callbacks w)
            (next_msg_id w) (watchers w) (next_watcher w) (trace w)).

Definition set_watchers (f : gmap nat Watcher -> gmap nat Watcher) : M unit :=
  fun w => (Ok tt,
    mkWorld (scene_name w) (current_engine w) (menus w) (callbacks w)
            (next_msg_id w) (f (watchers w)) (next_watcher w) (trace w)).

Definition observe (o : Obs) : M unit :=
  fun w => (Ok tt,
    mkWorld (scene_name w) (current_engine w) (menus w) (callbacks w)
            (next_msg_id w) (watchers w) (next_watcher w) (trace w ++ [o])).

Definition get_current_engine : M (option Engine) :=
  fun w => (Ok (current_engine w), w).

Definition sceneName : M string := fun w => (Ok (scene_name w), w).

(** [pm.menu(name, exists=True)] *)
Definition menu_exists (name : string) : M bool :=
  fun w => (Ok (bool_decide (name ∈ menus w)), w).

(** [pm.deleteUI(name)] *)
Definition deleteUI (name : string) : M unit :=
  set_menus (fun s => s ∖ {[name]}).

(** [pm.menu(name, label="Tank", parent=...)] *)
Definition create_menu (name : string) : M unit :=
  set_menus (fun s => {[name]} ∪ s).

Definition displayInfo (m : Msg) : M unit := observe (ODisplayInfo m).
Definition displayError (m : Msg) : M unit := observe (ODisplayError m).

(** [Engine.log_debug] of the source, with the setting already read. *)
Definition log_debug (debug : bool) (m : LogMsg) : M unit :=
  if debug then displayInfo (Debug m) else ret tt.

(** ** SceneEventWatcher *)

Definition default_scene_events : list EventKind :=
  [kAfterOpen; kAfterSave; kAfterNew].

(** Reading through a reference to a watcher object.  A reference that
    points at nothing has no counterpart in Python; it raises here. *)
Definition get_watcher (wid : nat) : M Watcher :=
  fun w =>
    match watchers w !! wid with
    | Some x => (Ok x, w)
    | None => (Raise (PyException "ReferenceError"), w)
    end.

Definition set_message_ids (wid : nat) (f : list nat -> list nat) : M unit :=
  set_watchers (fun ws =>
    match ws !! wid with
    | Some x => <[wid := mkWatcher (f (message_ids x)) (cb_fn x)
                                  (scene_events x) (run_once x)]> ws
    | None => ws
    end).

(** [OpenMaya.MMessage.removeCallback(msg_id)] *)
Definition removeCallback (id : nat) : M unit :=
  fun w => (Ok tt,
    mkWorld (scene_name w) (current_engine w) (menus w)
            (delete id (callbacks w)) (next_msg_id w) (watchers w)
            (next_watcher w) (trace w ++ [ORemoveCallback id])).

(** [OpenMaya.MSceneMessage.addCallback(ev, fn, watcher)] *)
Definition addCallback (h : Host) (ev : EventKind) (fn : CallbackFn)
    (wid : nat) : M nat :=
  fun w =>
    match addCallback_result h ev with
    | Some e => (Raise e, w)
    | None =>
        (Ok (next_msg_id w),
         mkWorld (scene_name w) (current_engine w) (menus w)
                 (<[next_msg_id w := mkRegistration ev fn wid]> (callbacks w))
                 (S (next_msg_id w)) (watchers w) (next_watcher w) (trace w))
    end.

Definition stop_watching (wid : nat) : M unit :=
  let! self := get_watcher wid in
  for_each (message_ids self) removeCallback >>
  set_message_ids wid (fun _ => []).

(** One turn of the loop of [start_watching]: a subscription that fails
    with an [Exception] is skipped. *)
Definition subscribe_scene_event (h : Host) (wid : nat) (ev : EventKind)
    : M unit :=
  try_except (addCallback h ev scene_event_cb wid) isinstance_Exception
    (fun _ => ret tt)
    (fun msg_id => set_message_ids wid (fun ids => ids ++ [msg_id])).

Definition start_watching (h : Host) (wid : nat) : M unit :=
  (* if currently watching then stop *)
  stop_watching wid >>
  let! self := get_watcher wid in
  (* now add callbacks to watch for some scene events *)
  for_each (scene_events self) (subscribe_scene_event h wid) >>
  (* a callback that will be run when Maya exits *)
  let! msg_id := addCallback h kMayaExiting maya_exiting_cb wid in
  set_message_ids wid (fun ids => ids ++ [msg_id]).

(** [SceneEventWatcher(cb_fn, scene_events, run_once)]: the constructor. *)
Definition SceneEventWatcher (h : Host) (cb : CbFn) (evs : list EventKind)
    (once : bool) : M nat :=
  fun w =>
    let wid := next_watcher w in
    let w1 :=
      mkWorld (scene_name w) (current_engine w) (menus w) (callbacks w)
              (next_msg_id w) (<[wid := mkWatcher [] cb evs once]> (watchers w))
              (S wid) (trace w) in
    (start_watching h wid >> ret wid) w1.

(** [SceneEventWatcher.__maya_exiting_callback] *)
Definition maya_exiting_callback (wid : nat) : M unit := stop_watching wid.

(** ** The disabled menu *)

Definition create_tank_disabled_menu : M unit :=
  let! ex := menu_exists "TankMenu" in
  (if ex then deleteUI "TankMenu" else ret tt) >>
  create_menu "TankMenuDisabled".

(** ** MayaEngine: life-cycle hooks *)

Definition supported_maya (version : string) : bool :=
  String.prefix "2012" version || String.prefix "2013" version.

Definition supported_os (os : string) : bool :=
  bool_decide (os ∈ ["mac"; "win64"; "linux64"]).

(** [MayaEngine.init_engine]; yields the reference kept in [__watcher].
    [_init_pyside] only edits the import path and swallows its own errors. *)
Definition init_engine (h : Host) (name : string) (ctx : Context) : M nat :=
  log_debug (setting_debug_logging h name) Initializing >>
  (if supported_os (operating_system h) then ret tt
   else raise (TankError "The current platform is not supported!")) >>
  (if supported_maya (maya_version h)
   then log_debug (setting_debug_logging h name)
                  (RunningMayaVersion (maya_version h))
   else raise (TankError "Your version of Maya is not supported.")) >>
  (match project ctx with
   | None => raise (TankError "The Tank engine needs at least a project")
   | Some _ => ret tt
   end) >>
  (* _set_project *)
  (match set_project_result h ctx with
   | Some e => raise e
   | None => ret tt
   end) >>
  let! wid := SceneEventWatcher h (name, Some ctx) default_scene_events false in
  log_debug (setting_debug_logging h name) RegisteredCallbacks >>
  ret wid.

(** [MayaEngine.post_app_init]; yields the value of [_menu_handle]. *)
Definition post_app_init (h : Host) : M (option string) :=
  if negb (batch h)
  then create_menu "TankMenu" >> ret (Some "TankMenu")
  else ret None.

(** [MayaEngine.destroy_engine] *)
Definition destroy_engine (e : Engine) : M unit :=
  log_debug (debug_logging e) Destroying >>
  stop_watching (engine_watcher e) >>
  match menu_handle e with
  | None => raise (PyException "AttributeError: _menu_handle")
  | Some m =>
      let! ex := menu_exists m in
      if ex then deleteUI m else ret tt
  end.

(** ** The Tank core around the hooks *)

(** [tank.platform.start_engine(engine_name, tk, ctx)]: the core builds the
    engine object, which runs [init_engine] and [post_app_init], and makes
    it the current engine. *)
Definition start_engine (h : Host) (name : string) (tk : Tk) (ctx : Context)
    : M Engine :=
  observe (OStartEngine name tk ctx) >>
  (match start_engine_core h name tk ctx with
   | Some e => raise e
   | None => ret tt
   end) >>
  let! wid := init_engine h name ctx in
  let! mh := post_app_init h in
  let e := mkEngine name tk ctx (setting_debug_logging h name) mh wid in
  set_current_engine (Some e) >>
  ret e.

(** [Engine.destroy()]: the core tears the apps down, runs
    [destroy_engine], and clears the current engine. *)
Definition destroy (h : Host) (e : Engine) : M unit :=
  observe (ODestroyBegin e) >>
  (match destroy_core h e with
   | Some x => raise x
   | None => ret tt
   end) >>
  destroy_engine e >>
  set_current_engine None >>
  observe (ODestroyEnd e).

Definition call_tank_from_path (h : Host) (path : string) : M Tk :=
  observe (OTankFromPath path) >>
  match tank_from_path h path with
  | Ok tk => ret tk
  | Raise e => raise e
  end.

Definition call_context_from_path (h : Host) (tk : Tk) (path : string)
    (prev : option Context) : M Context :=
  observe (OContextFromPath tk path prev) >>
  match context_from_path h tk path prev with
  | Ok c => ret c
  | Raise e => raise e
  end.

(** ** refresh_engine and the scene-event callback *)

(** [refresh_engine], "tear down existing engine": the [if current_engine:]
    block. *)
Definition tear_down_existing (h : Host) (prev_context : option Context)
    (current : option Engine) (ctx : Context) : M unit :=
  match current with
  | Some eng =>
      log_debug (debug_logging eng) ReadyToSwitch >>
      log_debug (debug_logging eng) (PrevContext prev_context) >>
      log_debug (debug_logging eng) (NewContext ctx) >>
      destroy h eng
  | None => ret tt
  end.

(** [refresh_engine], "create new engine": the [try]/[except]/[else] block
    and the final [return]. *)
Definition create_new_engine (h : Host) (engine_name : string) (tk : Tk)
    (ctx : Context) : M (option Engine) :=
  try_except (start_engine h engine_name tk ctx)
    isinstance_TankEngineInitError
    (fun e =>
       displayInfo (CannotBeStarted e) >>
       (* render menu *)
       create_tank_disabled_menu >>
       ret None)
    (fun new_engine =>
       log_debug (debug_logging new_engine) LaunchedNewEngine >>
       ret (Some new_engine)).

(** The last part of [refresh_engine]: the engine that is active, if any,
    is torn down and a new one is created. *)
Definition switch_engine (h : Host) (engine_name : string)
    (prev_context : option Context) (current : option Engine) (tk : Tk)
    (ctx : Context) : M (option Engine) :=
  tear_down_existing h prev_context current ctx >>
  create_new_engine h engine_name tk ctx.

(** The first statements of [refresh_engine]: the disabled menu is reset,
    if it exists. *)
Definition reset_disabled_menu : M unit :=
  let! ex := menu_exists "TankMenuDisabled" in
  if ex then deleteUI "TankMenuDisabled" else ret tt.

Definition refresh_engine (h : Host) (engine_name : string)
    (prev_context : option Context) : M (option Engine) :=
  let! current := get_current_engine in
  (* first make sure that the disabled menu is reset, if it exists *)
  reset_disabled_menu >>
  (* a file->new keeps the current context and engine *)
  let! name := sceneName in
  if bool_decide (name = "") then ret current else
  let new_path := abspath h name in
  (* this file could be in another project altogether *)
  try_except (call_tank_from_path h new_path) isinstance_TankError
    (fun e =>
       displayInfo (CannotBeStarted e) >>
       (* render menu *)
       create_tank_disabled_menu >>
       (* this leaves the engine running *)
       ret current)
    (fun tk =>
       let! ctx := call_context_from_path h tk new_path prev_context in
       (* an engine is active and the context is unchanged: no rebuild *)
       if is_Some_bool current && bool_decide (Some ctx = prev_context)
       then ret current
       else switch_engine h engine_name prev_context current tk ctx).

Definition on_scene_event_callback (h : Host) (engine_name : string)
    (prev_context : option Context) : M unit :=
  let! new_engine :=
    try_except (refresh_engine h engine_name prev_context)
      isinstance_Exception
      (fun e => displayError (ProblemStarting e) >> ret None)
      ret in
  match new_engine with
  | None =>
      (* no engine, but still watch for future scene events *)
      SceneEventWatcher h (engine_name, prev_context) default_scene_events true
      >> ret tt
  | Some _ => ret tt
  end.

(** [SceneEventWatcher.__scene_event_callback]: what Maya calls, with the
    watcher as client data, when one of the watched events happens. *)
Definition scene_event_callback (h : Host) (wid : nat) : M unit :=
  let! watcher := get_watcher wid in
  (if run_once watcher then stop_watching wid else ret tt) >>
  on_scene_event_callback h (fst (cb_fn watcher)) (snd (cb_fn watcher)).

(** ** MayaEngine: the deprecated engine queue *)

Module Queue.

(** Python values as far as the queue handles them: a mapping is a
    reference into the heap of dict objects, so that two holders of one
    reference see each other's updates. *)
Inductive Value : Type :=
| VNone
| VInt (z : Z)
| VStr (s : string)
| VDict (ref : nat)
| VReportProgress.              (* the bound method self.report_progress *)

(** What calling a queued method with keyword arguments does, as far as the
    engine can tell: the percentages it passes to [progress_callback], in
    order, and then the exception it raises, if any. *)
Definition Callable : Type := gmap string Value -> list Z * option exn.

(** A queue item, the dict [qi] of [add_to_queue]. *)
Record Job : Type := mkJob {
  name : string;
  method : Callable;
  args : Value
}.

Inductive QObs : Type :=
| QDeprecated                         (* log_warning: the queue is deprecated *)
| QBeginProgress (status : string)    (* progressBar(beginProgress=True) *)
| QStep (delta : Z)                   (* progressBar(step=delta) *)
| QEndProgress                        (* progressBar(endProgress=True) *)
| QCall (j : Job) (kwargs : gmap string Value)
| QLogException (j : Job).

Record State : Type := mkState {
  queue : list Job;                   (* self._queue *)
  current_progress : Z;               (* self._current_progress *)
  heap : gmap nat (gmap string Value);
  qtrace : list QObs
}.

Definition emit (o : QObs) (s : State) : State :=
  mkState (queue s) (current_progress s) (heap s) (qtrace s ++ [o]).

Definition set_queue (q : list Job) (s : State) : State :=
  mkState q (current_progress s) (heap s) (qtrace s).

Definition set_progress (p : Z) (s : State) : State :=
  mkState (queue s) p (heap s) (qtrace s).

Definition set_heap (hp : gmap nat (gmap string Value)) (s : State) : State :=
  mkState (queue s) (current_progress s) hp (qtrace s).

Definition add_to_queue (nm : string) (m : Callable) (a : Value)
    (s : State) : State :=
  let s1 := emit QDeprecated s in
  let qi := mkJob nm m a in
  set_queue (queue s1 ++ [qi]) s1.

Definition report_progress (percent : Z) (s : State) : State :=
  (* convert to delta value before passing to maya *)
  let delta := (percent - current_progress s)%Z in
  set_progress percent (emit (QStep delta) s).

(** [kwargs[key] = v]: item assignment through a reference. *)
Definition setitem (kwargs : Value) (key : string) (v : Value) (s : State)
    : result unit * State :=
  match kwargs with
  | VDict l =>
      match heap s !! l with
      | Some d => (Ok tt, set_heap (<[l := <[key := v]> d]> (heap s)) s)
      | None => (Raise (PyException "TypeError"), s)
      end
  | _ => (Raise (PyException "TypeError"), s)
  end.

(** The call of the method with the mapping unpacked into keyword
    arguments: the callee receives a copy of the mapping. *)
Definition call (j : Job) (kwargs : Value) (s : State)
    : result unit * State :=
  match kwargs with
  | VDict l =>
      match heap s !! l with
      | Some d =>
          let s1 := emit (QCall j d) s in
          let s2 := fold_left (fun st p => report_progress p st)
                              (fst (method j d)) s1 in
          match snd (method j d) with
          | Some e => (Raise e, s2)
          | None => (Ok tt, s2)
          end
      | None => (Raise (PyException "TypeError"), s)
      end
  | _ => (Raise (PyException "TypeError"), s)
  end.

(** The body of the [try] block of [execute_queue]. *)
Definition process (item : Job) (s : State) : result unit * State :=
  let kwargs := args item in
  (* force add a progress_callback arg *)
  match setitem kwargs "progress_callback" VReportProgress s with
  | (Ok _, s1) => call item kwargs s1
  | (Raise e, s1) => (Raise e, s1)
  end.

(** One turn of the [while] loop, the head item already taken off. *)
Definition run_item (item : Job) (s : State) : State :=
  let s1 := set_progress 0 (emit (QBeginProgress (name item)) s) in
  let s2 :=
    match process item s1 with
    | (Ok _, s') => s'
    | (Raise _, s') => emit (QLogException item) s'   (* bare except *)
    end in
  emit QEndProgress s2.                               (* finally *)

(** The [while len(self._queue) > 0] loop, with a bound on its turns. *)
Fixpoint drain (fuel : nat) (s : State) : State :=
  match fuel with
  | O => s
  | S n =>
      match queue s with
      | [] => s
      | item :: rest => drain n (run_item item (set_queue rest s))
      end
  end.

Definition execute_queue (s : State) : State :=
  drain (length (queue s)) (emit QDeprecated s).

(** *** Reading a drain off the queue it started from *)

(** The mapping with the reserved key added. *)
Definition with_progress_callback (d : gmap string Value) : gmap string Value :=
  <["progress_callback" := VReportProgress]> d.

(** The keyword arguments job [j] is called with, from heap [hp]; none
    when its [args] is not a mapping. *)
Definition kwargs_of (hp : gmap nat (gmap string Value)) (j : Job)
    : option (gmap string Value) :=
  match args j with
  | VDict l => with_progress_callback <$> hp !! l
  | _ => None
  end.

(** The steps the progress bar is given for the reported percentages. *)
Fixpoint deltas (current : Z) (percents : list Z) : list Z :=
  match percents with
  | [] => []
  | p :: rest => (p - current)%Z :: deltas p rest
  end.

(** What one job contributes to the trace. *)
Definition job_block (hp : gmap nat (gmap string Value)) (j : Job)
    : list QObs :=
  QBeginProgress (name j) ::
  match kwargs_of hp j with
  | Some d =>
      QCall j d :: map QStep (deltas 0 (fst (method j d))) ++
      match snd (method j d) with
      | Some _ => [QLogException j; QEndProgress]
      | None => [QEndProgress]
      end
  | None => [QLogException j; QEndProgress]
  end.

(** The heap after the reserved key was added to the mapping of [j]. *)
Definition inject (hp : gmap nat (gmap string Value)) (j : Job)
    : gmap nat (gmap string Value) :=
  match args j with
  | VDict l =>
      match hp !! l with
      | Some d => <[l := with_progress_callback d]> hp
      | None => hp
      end
  | _ => hp
  end.

Definition is_begin (o : QObs) : bool :=
  match o with QBeginProgress _ => true | _ => false end.

Definition is_end (o : QObs) : bool :=
  match o with QEndProgress => true | _ => false end.

(** The jobs whose method was called, in the order of the calls. *)
Definition calls (t : list QObs) : list Job :=
  omap (fun o => match o with QCall j _ => Some j | _ => None end) t.

Definition count (p : QObs -> bool) (t : list QObs) : nat :=
  length (List.filter p t).

(** [add_to_queue] for each of [js] in turn. *)
Definition enqueue_all (js : list Job) (s : State) : State :=
  fold_left (fun st j => add_to_queue (name j) (method j) (args j) st) js s.

(** Every job carries a mapping of heap [hp] as its [args]. *)
Definition all_mappings (hp : gmap nat (gmap string Value)) (js : list Job)
    : bool :=
  forallb (fun j => is_Some_bool (kwargs_of hp j)) js.

(** Two heaps that give every job the same keyword arguments. *)
Definition same_kwargs (hp0 hp : gmap nat (gmap string Value)) : Prop :=
  forall l, with_progress_callback <$> hp !! l
            = with_progress_callback <$> hp0 !! l.

(** The steps given to the progress bar, the jobs whose failure was
    logged, and the sum of a list of steps. *)
Definition steps (t : list QObs) : list Z :=
  omap (fun o => match o with QStep d => Some d | _ => None end) t.

Definition logged (t : list QObs) : list Job :=
  omap (fun o => match o with QLogException j => Some j | _ => None end) t.

Definition total (ds : list Z) : Z := fold_right Z.add 0%Z ds.

(** What a computation added to the trace of the queue. *)
Definition qnew (s s' : State) : list QObs :=
  drop (length (qtrace s)) (qtrace s').

(** The job is called, that is, its [args] is a mapping of the heap. *)
Definition is_called (hp : gmap nat (gmap string Value)) (j : Job) : bool :=
  is_Some_bool (kwargs_of hp j).

(** The job fails: it is not called, or its call raises. *)
Definition fails (hp : gmap nat (gmap string Value)) (j : Job) : bool :=
  match kwargs_of hp j with
  | Some d => is_Some_bool (snd (method j d))
  | None => true
  end.

(** *** A sample queue: three jobs, the second of which raises; the first
    and the third share one mapping. *)

Definition sample_heap : gmap nat (gmap string Value) :=
  <[0 := <["path" := VStr "/proj/a.ma"]> ∅]>
    (<[1 := <["frames" := VInt 10]> ∅]> ∅).

Definition sample_jobs : list Job :=
  [mkJob "publish" (fun _ => ([25%Z; 100%Z], None)) (VDict 0);
   mkJob "render" (fun _ => ([50%Z], Some (PyException "boom"))) (VDict 1);
   mkJob "notify" (fun _ => ([], None)) (VDict 0)].

Definition sample_state : State := mkState [] 0 sample_heap [].

End Queue.

(** ** Observations on a session *)

Definition engine_running (w : World) : bool :=
  is_Some_bool (current_engine w).

Definition disabled_indicator_shown (w : World) : bool :=
  bool_decide ("TankMenuDisabled" ∈ menus w).

Definition exactly_one (w : World) : bool :=
  xorb (engine_running w) (disabled_indicator_shown w).

(** The function a watcher registers for an event. *)
Definition callback_for (ev : EventKind) : CallbackFn :=
  match ev with
  | kMayaExiting => maya_exiting_cb
  | _ => scene_event_cb
  end.

(** Watcher [wid] holds a message id under which Maya's callback table
    calls [fn] with that watcher when [ev] happens. *)
Definition subscribed (w : World) (wid : nat) (ev : EventKind)
    (fn : CallbackFn) : bool :=
  match watchers w !! wid with
  | Some x =>
      existsb (fun id =>
                 bool_decide (callbacks w !! id
                              = Some (mkRegistration ev fn wid)))
              (message_ids x)
  | None => false
  end.

Definition accepted (h : Host) (ev : EventKind) : bool :=
  negb (is_Some_bool (addCallback_result h ev)).

(** Watcher [wid] is armed: it is subscribed to the exit event and to each
    of the three scene events for which Maya accepts a subscription. *)
Definition armed (h : Host) (w : World) (wid : nat) : bool :=
  subscribed w wid kMayaExiting maya_exiting_cb &&
  forallb (fun ev => negb (accepted h ev) || subscribed w wid ev scene_event_cb)
          default_scene_events.

(** Every message id the watcher holds was handed out already. *)
Definition ids_below (w : World) (wid : nat) : Prop :=
  match watchers w !! wid with
  | Some x => Forall (fun id => id < next_msg_id w) (message_ids x)
  | None => False
  end.

(** The session after a successful [addCallback] whose id the watcher
    appended to its list. *)
Definition after_subscribe (ev : EventKind) (fn : CallbackFn) (wid : nat)
    (x : Watcher) (w : World) : World :=
  mkWorld (scene_name w) (current_engine w) (menus w)
          (<[next_msg_id w := mkRegistration ev fn wid]> (callbacks w))
          (S (next_msg_id w))
          (<[wid := mkWatcher (message_ids x ++ [next_msg_id w]) (cb_fn x)
                              (scene_events x) (run_once x)]> (watchers w))
          (next_watcher w) (trace w).

(** Maya takes the exit subscription, and a scene-event subscription it
    refuses fails with an [Exception]. *)
Definition subscriptions_safe (h : Host) : bool :=
  accepted h kMayaExiting &&
  forallb (fun ev => match addCallback_result h ev with
                     | Some e => isinstance_Exception e
                     | None => true
                     end)
          default_scene_events.

(** Observations other than the teardown and the start of an engine. *)
Definition is_quiet (o : Obs) : bool :=
  match o with
  | ODestroyBegin _ | ODestroyEnd _ | OStartEngine _ _ _ => false
  | _ => true
  end.

(** Along a trace, every start of an engine comes after the teardown of
    [eng] has completed ([torn_down] tells whether it had before). *)
Fixpoint destroy_before_start (eng : Engine) (torn_down : bool)
    (t : list Obs) : bool :=
  match t with
  | [] => true
  | ODestroyEnd e :: t' =>
      destroy_before_start eng (torn_down || bool_decide (e = eng)) t'
  | OStartEngine _ _ _ :: t' =>
      torn_down && destroy_before_start eng torn_down t'
  | _ :: t' => destroy_before_start eng torn_down t'
  end.

(** The engine that is active can be torn down: neither the core nor
    [destroy_engine] fails on it. *)
Definition teardown_ok (h : Host) (w : World) : bool :=
  match current_engine w with
  | Some eng =>
      negb (is_Some_bool (destroy_core h eng)) &&
      is_Some_bool (watchers w !! engine_watcher eng) &&
      is_Some_bool (menu_handle eng)
  | None => true
  end.

(** [w'] continues [w] by the observations [t]. *)
Definition extends_by (t : list Obs) (w w' : World) : Prop :=
  scene_name w' = scene_name w /\ trace w' = trace w ++ t.

(** The session holds an armed one-shot watcher whose callback is
    [on_scene_event_callback(en, pc)]. *)
Definition one_shot_armed (h : Host) (en : string) (pc : option Context)
    (w : World) : Prop :=
  exists wid x, watchers w !! wid = Some x /\ cb_fn x = (en, pc) /\
                run_once x = true /\ armed h w wid = true.

(** The user opens, saves under, or creates the scene called [name]. *)
Definition open_scene (name : string) (w : World) : World :=
  mkWorld name (current_engine w) (menus w) (callbacks w) (next_msg_id w)
          (watchers w) (next_watcher w) (trace w).

(** What a computation added to the trace. *)
Definition new_events (w w' : World) : list Obs :=
  drop (length (trace w)) (trace w').

(** The table after [removeCallback] of each id in turn. *)
Definition remove_all (ids : list nat) (cbs : gmap nat Registration)
    : gmap nat Registration :=
  fold_left (fun m id => delete id m) ids cbs.

(** ** Sample sessions *)

Definition shot_a : Context := mkContext (Some "proj") (Some "shot_a") None.
Definition shot_b : Context := mkContext (Some "proj") (Some "shot_b") None.

(** A host in which scenes under [/proj/] belong to a Tank project, the
    scene [/proj/a.ma] to [shot_a] and the others to [shot_b]; [start] and
    [resolve] are the failures, if any, of [start_engine] and of
    [context_from_path]. *)
Definition sample_host (start resolve : option exn) : Host :=
  mkHost (fun p => p)
         (fun p => if String.prefix "/proj/" p then Ok "/proj"
                   else Raise (TankError "not in a Tank project"))
         (fun _ p _ => match resolve with
                       | Some e => Raise e
                       | None => if String.eqb p "/proj/a.ma" then Ok shot_a
                                 else Ok shot_b
                       end)
         (fun _ _ _ => start) (fun _ => None) (fun _ => None) (fun _ => None)
         (fun _ => true) "linux64" "2013 x64" false.

Definition good_host : Host := sample_host None None.

(** Maya right after start-up, with the given scene open. *)
Definition fresh_session (name : string) : World :=
  mkWorld name None ∅ ∅ 0 ∅ 0 [].

(** No engine, the disabled menu shown, and a new empty scene. *)
Definition disabled_session : World :=
  mkWorld "" None {["TankMenuDisabled"]} ∅ 0 ∅ 0 [].

(** An engine for [shot_a] is running and the user has opened [name]. *)
Definition running_session (name : string) : World :=
  open_scene name
    (snd (start_engine good_host "tk-maya" "/proj" shot_a
            (fresh_session "/proj/a.ma"))).

Definition running_engine : Engine :=
  mkEngine "tk-maya" "/proj" shot_a true (Some "TankMenu") 0.

(** A host like [good_host] in which Maya refuses the exit callback. *)
Definition refusing_host : Host :=
  mkHost (abspath good_host) (tank_from_path good_host)
         (context_from_path good_host) (start_engine_core good_host)
         (destroy_core good_host)
         (fun ev => match ev with
                    | kMayaExiting => Some (PyException "RuntimeError")
                    | _ => None
                    end)
         (set_project_result good_host) (setting_debug_logging good_host)
         (operating_system good_host) (maya_version good_host)
         (batch good_host).

(** A host in which [context_from_path] fails with a [KeyError]. *)
Definition broken_host : Host :=
  sample_host None (Some (PyException "KeyError")).

(** A host in which [start_engine] fails with [TankEngineInitError]. *)
Definition no_environment_host : Host :=
  sample_host (Some (TankEngineInitError "no environment")) None.

(** No engine, a one-shot watcher waiting, and the user has opened [name]. *)
Definition waiting_session (name : string) : World :=
  open_scene name
    (snd (on_scene_event_callback good_host "tk-maya" None disabled_session)).

(** A host like [good_host] with Maya 2011. *)
Definition old_maya_host : Host :=
  mkHost (abspath good_host) (tank_from_path good_host)
         (context_from_path good_host) (start_engine_core good_host)
         (destroy_core good_host) (addCallback_result good_host)
         (set_project_result good_host) (setting_debug_logging good_host)
         (operating_system good_host) "2011 x64" (batch good_host).

(** The engine of [running_session], had it been started without a user
    interface. *)
Definition batch_engine : Engine :=
  mkEngine "tk-maya" "/proj" shot_a true None 0.

(** The engine [running_session] switches to when a scene of [shot_b] is
    opened. *)
Definition switched_engine : Engine :=
  mkEngine "tk-maya" "/proj" shot_b true (Some "TankMenu") 1.

(** The watcher of the engine of [running_session]. *)
Definition running_watcher : Watcher :=
  mkWatcher [0; 1; 2; 3] ("tk-maya", Some shot_a) default_scene_events false.

(** ** MayaEngine: the PySide set-up *)

Module PySide.

(** What [_init_pyside] reads of its surroundings: [sys.platform], the
    engine's [disk_location], [os.path.join], whether debug messages are
    shown, and what [from PySide import QtGui] does for a given [sys.path]
    and [PATH] (nothing, or the exception it raises). *)
Record Env : Type := mkEnv {
  sys_platform : string;
  disk_location : string;
  join : list string -> string;
  debug : bool;
  import_QtGui : list string -> option string -> option exn
}.

Inductive Log : Type :=
| LDebug (msg : string)
| LError (msg : string) (e : option exn).

(** What it writes: [sys.path], [os.environ["PATH"]] and the log. *)
Record Py : Type := mkPy {
  sys_path : list string;
  environ_PATH : option string;
  log : list Log
}.

Definition log_debug (env : Env) (msg : string) (s : Py) : Py :=
  if debug env
  then mkPy (sys_path s) (environ_PATH s) (log s ++ [LDebug msg])
  else s.








(** A Windows machine on which PySide only imports once its directory is
    on [sys.path]. *)
Definition windows_env : Env :=
  mkEnv "win32" "C:/tank/tk-maya"
        (fun parts => String.concat "/" parts) true
        (fun path _ =>
           if existsb (String.eqb
                "C:/tank/tk-maya/resources/pyside111_py26_qt471_win64/python")
                path
           then None else Some (PyException "ImportError")).

Definition bare_python : Py := mkPy ["C:/maya/scripts"] None [].

End PySide.

(** ** Well-formed sessions *)

(** Every id in Maya's callback table and every id a watcher holds was
    handed out already, and so was every watcher reference. *)
Definition session_ok (w : World) : bool :=
  forallb (fun p => Nat.ltb (fst p) (next_msg_id w))
          (map_to_list (callbacks w)) &&
  forallb (fun p => Nat.ltb (fst p) (next_watcher w) &&
                    forallb (fun id => Nat.ltb id (next_msg_id w))
                            (message_ids (snd p)))
          (map_to_list (watchers w)).

(** How many of the events Maya accepts a subscription for. *)
Definition count_accepted (h : Host) (evs : list EventKind) : nat :=
  length (List.filter (accepted h) evs).

(** A scene-event subscription that Maya refuses is refused with an
    [Exception]. *)
Definition refusals_are_exceptions (h : Host) (evs : list EventKind) : bool :=
  forallb (fun ev => match addCallback_result h ev with
                     | Some e => isinstance_Exception e
                     | None => true
                     end) evs.

(** ** How a session may evolve *)

(** From [w] to [w']: the scene is the same, the trace was only added to,
    the counters did not go back, a well-formed session stayed well-formed,
    no id handed out before [w] has since got a callback it did not have,
    and a watcher that existed in [w] still exists with the same callback
    and events, holding the ids it held or none at all. *)
Definition evolves (w w' : World) : Prop :=
  scene_name w' = scene_name w /\
  (exists t, trace w' = trace w ++ t) /\
  next_msg_id w <= next_msg_id w' /\
  next_watcher w <= next_watcher w' /\
  (session_ok w = true -> session_ok w' = true) /\
  (forall id r, id < next_msg_id w -> callbacks w' !! id = Some r ->
                callbacks w !! id = Some r) /\
  (forall wid x, wid < next_watcher w -> watchers w !! wid = Some x ->
     exists x', watchers w' !! wid = Some x' /\
       cb_fn x' = cb_fn x /\ run_once x' = run_once x /\
       scene_events x' = scene_events x /\
       (message_ids x' = message_ids x \/ message_ids x' = [])).

(** Every run of [m] makes the session evolve. *)
Definition keeps {A} (m : M A) : Prop :=
  forall w r w', m w = (r, w') -> evolves w w'.

(** * Properties *)

(** ** SceneEventWatcher *)

Lemma for_each_removeCallback (ids : list nat) (w : World) :
  for_each ids removeCallback w =
  (Ok tt,
   mkWorld (scene_name w) (current_engine w) (menus w)
           (remove_all ids (callbacks w)) (next_msg_id w) (watchers w)
           (next_watcher w) (trace w ++ map ORemoveCallback ids)).
Proof.
  revert w. induction ids as [|id ids IH]; intros w.
  - destruct w; cbn. by rewrite app_nil_r.
  - cbn [for_each]. unfold bind at 1. cbn [removeCallback].
    rewrite IH. cbn. by rewrite <- app_assoc.
Qed.

Lemma remove_all_lookup (ids : list nat) (cbs : gmap nat Registration) (id : nat) :
  remove_all ids cbs !! id = if bool_decide (id ∈ ids) then None else cbs !! id.
Proof.
  revert cbs. induction ids as [|i ids IH]; intros cbs; cbn.
  - done.
  - rewrite IH. destruct (decide (i = id)) as [->|Hne].
    + rewrite lookup_delete_eq. rewrite (bool_decide_eq_true_2 (id ∈ id :: ids)).
      * by case_bool_decide.
      * apply elem_of_cons. by left.
    + rewrite lookup_delete_ne by done.
      destruct (decide (id ∈ ids)) as [Hin|Hin].
      * rewrite !bool_decide_eq_true_2; [done | by apply elem_of_cons; right | done].
      * rewrite !bool_decide_eq_false_2; [done | | done].
        by intros [?|?]%elem_of_cons.
Qed.

Lemma stop_watching_spec (wid : nat) (w : World) (x : Watcher) :
  watchers w !! wid = Some x ->
  stop_watching wid w =
  (Ok tt,
   mkWorld (scene_name w) (current_engine w) (menus w)
           (remove_all (message_ids x) (callbacks w)) (next_msg_id w)
           (<[wid := mkWatcher [] (cb_fn x) (scene_events x) (run_once x)]>
              (watchers w))
           (next_watcher w) (trace w ++ map ORemoveCallback (message_ids x))).
Proof.
  intros Hx. unfold stop_watching, bind, get_watcher. rewrite Hx.
  rewrite for_each_removeCallback.
  unfold set_message_ids, set_watchers. cbn. by rewrite Hx.
Qed.

(** C8: stopping a watcher twice in a row raises nothing, the watcher then
    holds no message id, none of the ids it held is left in Maya's callback
    table (so no entry of the table refers to the watcher, when the ids it
    held were all its entries), and the second call changes nothing. *)
Theorem stop_watching_twice (wid : nat) (w : World) (x : Watcher) :
  watchers w !! wid = Some x ->
  exists w1,
    stop_watching wid w = (Ok tt, w1) /\
    stop_watching wid w1 = (Ok tt, w1) /\
    (message_ids <$> watchers w1 !! wid) = Some [] /\
    (forall id, id ∈ message_ids x -> callbacks w1 !! id = None) /\
    ((forall id r, callbacks w !! id = Some r -> reg_watcher r = wid ->
                   id ∈ message_ids x) ->
     forall id r, callbacks w1 !! id = Some r -> reg_watcher r <> wid).
Proof.
  intros Hx. eexists. split; [by apply stop_watching_spec|].
  split; [|split; [|split]].
  - erewrite stop_watching_spec by (cbn; apply lookup_insert_eq).
    cbn. rewrite insert_insert_eq. by rewrite app_nil_r.
  - cbn. by rewrite lookup_insert_eq.
  - intros id Hid. cbn. rewrite remove_all_lookup.
    by rewrite bool_decide_eq_true_2.
  - intros Hall id r. cbn. rewrite remove_all_lookup.
    case_bool_decide as Hin; [done|]. intros Hr Hw.
    apply Hin. by eapply Hall.
Qed.

Lemma subscribed_true (w : World) (wid : nat) (ev : EventKind) (fn : CallbackFn) :
  subscribed w wid ev fn = true <->
  exists x id, watchers w !! wid = Some x /\ id ∈ message_ids x /\
               callbacks w !! id = Some (mkRegistration ev fn wid).
Proof.
  unfold subscribed. split.
  - destruct (watchers w !! wid) as [x|]; [|done].
    intros (id & Hin & Hb)%existsb_exists.
    apply bool_decide_eq_true_1 in Hb. exists x, id.
    by rewrite list_elem_of_In.
  - intros (x & id & -> & Hin & Hcb). apply existsb_exists.
    exists id. split; [by apply list_elem_of_In|].
    by apply bool_decide_eq_true_2.
Qed.

Section Subscribing.
Variable h : Host.
Variable wid : nat.

Lemma subscribe_scene_event_spec (ev : EventKind) (w : World) (x : Watcher) :
  watchers w !! wid = Some x ->
  subscribe_scene_event h wid ev w =
  match addCallback_result h ev with
  | None => (Ok tt, after_subscribe ev scene_event_cb wid x w)
  | Some e => if isinstance_Exception e then (Ok tt, w) else (Raise e, w)
  end.
Proof.
  intros Hx. unfold subscribe_scene_event, try_except, addCallback.
  destruct (addCallback_result h ev) as [e|]; [done|].
  unfold set_message_ids, set_watchers, after_subscribe. cbn. by rewrite Hx.
Qed.

Lemma after_subscribe_ids_below ev fn (w : World) (x : Watcher) :
  watchers w !! wid = Some x -> ids_below w wid ->
  ids_below (after_subscribe ev fn wid x w) wid.
Proof.
  unfold ids_below. intros Hx. rewrite Hx. cbn. rewrite lookup_insert_eq. cbn.
  intros Hall. apply Forall_app. split.
  - eapply Forall_impl; [exact Hall|]. cbn. lia.
  - repeat constructor.
Qed.

Lemma after_subscribe_new ev fn (w : World) (x : Watcher) :
  subscribed (after_subscribe ev fn wid x w) wid ev fn = true.
Proof.
  apply subscribed_true. eexists _, (next_msg_id w). cbn.
  rewrite !lookup_insert_eq. cbn. split; [done|]. split; [|done].
  apply elem_of_app. right. by apply list_elem_of_singleton.
Qed.

Lemma after_subscribe_keeps ev fn ev' fn' (w : World) (x : Watcher) :
  watchers w !! wid = Some x -> ids_below w wid ->
  subscribed w wid ev' fn' = true ->
  subscribed (after_subscribe ev fn wid x w) wid ev' fn' = true.
Proof.
  intros Hx Hbelow (x' & id & Hx' & Hin & Hcb)%subscribed_true.
  assert (x' = x) as -> by congruence.
  unfold ids_below in Hbelow. rewrite Hx in Hbelow.
  apply subscribed_true. eexists _, id. cbn. rewrite lookup_insert_eq.
  split; [done|]. cbn. split.
  - apply elem_of_app. by left.
  - rewrite lookup_insert_ne; [done|].
    rewrite Forall_forall in Hbelow. specialize (Hbelow id Hin). lia.
Qed.

(** What the loop over the scene events leaves behind. *)
Lemma subscribe_loop (evs : list EventKind) (w : World) (r : result unit)
    (w' : World) (x : Watcher) :
  for_each evs (subscribe_scene_event h wid) w = (r, w') ->
  watchers w !! wid = Some x -> ids_below w wid ->
  scene_name w' = scene_name w /\ current_engine w' = current_engine w /\
  menus w' = menus w /\ trace w' = trace w /\
  next_watcher w' = next_watcher w /\
  (exists x', watchers w' !! wid = Some x' /\ cb_fn x' = cb_fn x /\
              run_once x' = run_once x) /\
  ids_below w' wid /\
  (forall ev fn, subscribed w wid ev fn = true ->
                 subscribed w' wid ev fn = true) /\
  (r = Ok tt -> forall ev, ev ∈ evs -> accepted h ev = true ->
                subscribed w' wid ev scene_event_cb = true).
Proof.
  revert w x. induction evs as [|ev evs IH]; intros w x Hrun Hx Hbelow.
  - cbn in Hrun. injection Hrun as <- <-.
    repeat split; eauto. intros _ ev Hev. by apply elem_of_nil in Hev.
  - cbn [for_each] in Hrun. unfold bind in Hrun.
    rewrite (subscribe_scene_event_spec ev w x Hx) in Hrun.
    destruct (addCallback_result h ev) as [e|] eqn:Hres.
    + destruct (isinstance_Exception e).
      * destruct (IH w x Hrun Hx Hbelow)
          as (?&?&?&?&?&?&?&Hkeep&Hnew).
        repeat split; try done.
        intros Hr ev' [->|Hin]%elem_of_cons Hacc; [|by apply Hnew].
        unfold accepted in Hacc. by rewrite Hres in Hacc.
      * injection Hrun as <- <-. repeat split; eauto. done.
    + pose proof (after_subscribe_ids_below ev scene_event_cb w x Hx Hbelow)
        as Hbelow'.
      assert (watchers (after_subscribe ev scene_event_cb wid x w) !! wid
              = Some (mkWatcher (message_ids x ++ [next_msg_id w]) (cb_fn x)
                                (scene_events x) (run_once x))) as Hx'
        by (cbn; apply lookup_insert_eq).
      destruct (IH _ _ Hrun Hx' Hbelow')
        as (?&?&?&?&?&?&?&Hkeep&Hnew).
      repeat split; try done.
      * intros ev' fn' Hsub. apply Hkeep.
        by apply after_subscribe_keeps.
      * intros Hr ev' [->|Hin]%elem_of_cons Hacc; [|by apply Hnew].
        apply Hkeep, after_subscribe_new.
Qed.
End Subscribing.

Lemma subscribe_loop_returns (h : Host) (wid : nat) (evs : list EventKind)
    (w : World) (x : Watcher) :
  watchers w !! wid = Some x ->
  forallb (fun ev => match addCallback_result h ev with
                     | Some e => isinstance_Exception e
                     | None => true
                     end) evs = true ->
  exists w', for_each evs (subscribe_scene_event h wid) w = (Ok tt, w').
Proof.
  revert w x. induction evs as [|ev evs IH]; intros w x Hx Hsafe.
  - by eexists.
  - cbn in Hsafe. apply andb_prop in Hsafe as [Hev Hevs].
    cbn [for_each]. unfold bind.
    rewrite (subscribe_scene_event_spec h wid ev w x Hx).
    destruct (addCallback_result h ev) as [e|].
    + rewrite Hev. by eapply IH.
    + eapply IH; [|done]. cbn. apply lookup_insert_eq.
Qed.

(** What constructing a watcher does to the session. *)
Lemma SceneEventWatcher_spec (h : Host) (cb : CbFn) (evs : list EventKind)
    (once : bool) (w : World) (r : result nat) (w' : World) :
  SceneEventWatcher h cb evs once w = (r, w') ->
  scene_name w' = scene_name w /\ current_engine w' = current_engine w /\
  menus w' = menus w /\ trace w' = trace w /\
  (forall wid, r = Ok wid ->
     wid = next_watcher w /\
     (exists x, watchers w' !! wid = Some x /\ cb_fn x = cb /\
                run_once x = once) /\
     subscribed w' wid kMayaExiting maya_exiting_cb = true /\
     (forall ev, ev ∈ evs -> accepted h ev = true ->
                 subscribed w' wid ev scene_event_cb = true)).
Proof.
  unfold SceneEventWatcher. set (wid := next_watcher w).
  set (x0 := mkWatcher [] cb evs once).
  unfold start_watching. unfold bind at 1 2.
  erewrite stop_watching_spec by (cbn; apply lookup_insert_eq). cbn.
  rewrite insert_insert_eq, app_nil_r.
  unfold bind at 1. unfold get_watcher at 1. cbn. rewrite lookup_insert_eq.
  unfold bind at 1. cbn [scene_events].
  match goal with
  | |- context [for_each evs _ ?w1] =>
      set (w1' := w1); destruct (for_each evs (subscribe_scene_event h wid) w1')
        as [r1 w2] eqn:Hloop
  end.
  assert (watchers w1' !! wid = Some x0) as Hx0 by (cbn; apply lookup_insert_eq).
  assert (ids_below w1' wid) as Hbelow.
  { unfold ids_below. rewrite Hx0. constructor. }
  destruct (subscribe_loop h wid evs w1' r1 w2 x0 Hloop Hx0 Hbelow)
    as (Hs & He & Hm & Ht & Hn & (x2 & Hx2 & Hcb & Hon) & Hbelow2 & Hkeep & Hnew).
  destruct r1 as [[]|e]; cbn in *.
  - unfold bind, addCallback.
    destruct (addCallback_result h kMayaExiting) as [e|].
    + intros [= <- <-]. split_and!; try done.
    + unfold set_message_ids, set_watchers. cbn. rewrite Hx2.
      intros [= <- <-]. cbn. split_and!; try done.
      intros ? [= <-].
      change (mkWorld _ _ _ _ _ _ _ _)
        with (after_subscribe kMayaExiting maya_exiting_cb wid x2 w2).
      split; [done|]. split.
      * cbn. rewrite lookup_insert_eq. eexists. split; [done|]. by cbn.
      * split; [apply after_subscribe_new|].
        intros ev Hev Hacc. apply after_subscribe_keeps; [done..|].
        by apply Hnew.
  - intros [= <- <-]. split_and!; try done.
Qed.

Lemma SceneEventWatcher_returns (h : Host) (cb : CbFn) (once : bool) (w : World) :
  subscriptions_safe h = true ->
  exists w', SceneEventWatcher h cb default_scene_events once w
             = (Ok (next_watcher w), w').
Proof.
  intros [Hexit Hsafe]%andb_prop.
  unfold SceneEventWatcher. set (wid := next_watcher w).
  set (x0 := mkWatcher [] cb default_scene_events once).
  unfold start_watching. unfold bind at 1 2.
  erewrite stop_watching_spec by (cbn; apply lookup_insert_eq). cbn -[for_each default_scene_events].
  rewrite insert_insert_eq, app_nil_r.
  unfold bind at 1. unfold get_watcher at 1. cbn -[for_each default_scene_events].
  rewrite lookup_insert_eq.
  unfold bind at 1. cbn [scene_events].
  match goal with
  | |- context [for_each _ _ ?w1] => set (w1' := w1)
  end.
  assert (watchers w1' !! wid = Some x0) as Hx0 by (cbn; apply lookup_insert_eq).
  destruct (subscribe_loop_returns h wid _ w1' x0 Hx0 Hsafe) as [w2 Hloop].
  rewrite Hloop.
  assert (ids_below w1' wid) as Hbelow.
  { unfold ids_below. rewrite Hx0. constructor. }
  destruct (subscribe_loop h wid _ w1' _ w2 x0 Hloop Hx0 Hbelow)
    as (_ & _ & _ & _ & _ & (x2 & Hx2 & _) & _).
  unfold bind, addCallback. unfold accepted in Hexit.
  destruct (addCallback_result h kMayaExiting); [done|].
  unfold set_message_ids, set_watchers. cbn. by eexists.
Qed.

Lemma SceneEventWatcher_armed (h : Host) (cb : CbFn) (once : bool)
    (w : World) (wid : nat) (w' : World) :
  SceneEventWatcher h cb default_scene_events once w = (Ok wid, w') ->
  armed h w' wid = true.
Proof.
  intros Hrun. apply SceneEventWatcher_spec in Hrun as (_ & _ & _ & _ & Hok).
  destruct (Hok wid eq_refl) as (_ & _ & Hexit & Hevs).
  unfold armed. rewrite Hexit. cbn [andb]. apply forallb_forall.
  intros ev Hev%list_elem_of_In.
  destruct (accepted h ev) eqn:Hacc; [|done].
  cbn. by apply Hevs.
Qed.

(** ** The life-cycle hooks and the Tank core *)

Lemma extends_by_refl (w : World) : extends_by [] w w.
Proof. split; [done|]. by rewrite app_nil_r. Qed.

Lemma extends_by_trans (t1 t2 : list Obs) (w1 w2 w3 : World) :
  extends_by t1 w1 w2 -> extends_by t2 w2 w3 -> extends_by (t1 ++ t2) w1 w3.
Proof.
  intros [Hs1 Ht1] [Hs2 Ht2]. split; [congruence|].
  by rewrite Ht2, Ht1, app_assoc.
Qed.

Lemma log_debug_spec (b : bool) (m : LogMsg) (w : World) :
  exists w', log_debug b m w = (Ok tt, w') /\
    current_engine w' = current_engine w /\ menus w' = menus w /\
    callbacks w' = callbacks w /\ watchers w' = watchers w /\
    next_watcher w' = next_watcher w /\ next_msg_id w' = next_msg_id w /\
    exists t, extends_by t w w' /\ forallb is_quiet t = true.
Proof.
  destruct b; cbn.
  - eexists. split; [done|]. cbn. split_and!; try done.
    eexists. by split.
  - eexists. split; [done|]. split_and!; try done.
    exists []. split; [apply extends_by_refl | done].
Qed.

Lemma stop_watching_inv (wid : nat) (w : World) (r : result unit) (w' : World) :
  stop_watching wid w = (r, w') ->
  current_engine w' = current_engine w /\ menus w' = menus w /\
  exists t, extends_by t w w' /\ forallb is_quiet t = true.
Proof.
  destruct (watchers w !! wid) as [x|] eqn:Hx.
  - rewrite (stop_watching_spec wid w x Hx). intros [= <- <-]. cbn.
    split_and!; try done. eexists. split; [by split|].
    apply forallb_forall. by intros o (id & <- & _)%in_map_iff.
  - unfold stop_watching, bind, get_watcher. rewrite Hx. intros [= <- <-].
    split_and!; try done. exists []. split; [apply extends_by_refl | done].
Qed.

Lemma init_engine_inv (h : Host) (n : string) (c : Context) (w : World)
    (r : result nat) (w' : World) :
  init_engine h n c w = (r, w') ->
  current_engine w' = current_engine w /\ menus w' = menus w /\
  (exists t, extends_by t w w' /\ forallb is_quiet t = true) /\
  (forall wid, r = Ok wid ->
     armed h w' wid = true /\
     exists x, watchers w' !! wid = Some x /\ cb_fn x = (n, Some c) /\
               run_once x = false).
Proof.
  unfold init_engine. set (dbg := setting_debug_logging h n).
  unfold bind at 1.
  destruct (log_debug_spec dbg Initializing w)
    as (w1 & -> & He1 & Hm1 & _ & _ & _ & _ & t1 & Hx1 & Hq1).
  unfold bind at 1.
  destruct (supported_os (operating_system h)); cbn [ret raise];
    [|intros [= <- <-]; split_and!; eauto; done].
  unfold bind at 1.
  destruct (supported_maya (maya_version h)); cbn [raise];
    [|intros [= <- <-]; split_and!; eauto; done].
  destruct (log_debug_spec dbg (RunningMayaVersion (maya_version h)) w1)
    as (w2 & -> & He2 & Hm2 & _ & _ & _ & _ & t2 & Hx2 & Hq2).
  pose proof (extends_by_trans _ _ _ _ _ Hx1 Hx2) as Hx12.
  assert (forallb is_quiet (t1 ++ t2) = true) as Hq12
    by (rewrite forallb_app, Hq1, Hq2; done).
  unfold bind at 1.
  destruct (project c); cbn [ret raise];
    [|intros [= <- <-]; split_and!; eauto; congruence].
  unfold bind at 1.
  destruct (set_project_result h c); cbn [ret raise];
    [intros [= <- <-]; split_and!; eauto; congruence|].
  unfold bind at 1.
  destruct (SceneEventWatcher h (n, Some c) default_scene_events false w2)
    as [[wid|e] w3] eqn:Hsew.
  - pose proof (SceneEventWatcher_armed _ _ _ _ _ _ Hsew) as Harmed.
    apply SceneEventWatcher_spec in Hsew as (Hs3 & He3 & Hm3 & Ht3 & Hok).
    destruct (Hok wid eq_refl) as (_ & (x & Hx & Hcb & Hon) & _).
    unfold bind.
    destruct (log_debug_spec dbg RegisteredCallbacks w3)
      as (w4 & -> & He4 & Hm4 & Hc4 & Hw4 & _ & _ & t4 & Hx4 & Hq4).
    intros [= <- <-]. split_and!; try congruence.
    + exists ((t1 ++ t2) ++ t4). split.
      * eapply extends_by_trans; [|exact Hx4].
        destruct Hx12 as [? ?]. split; congruence.
      * by rewrite forallb_app, Hq12, Hq4.
    + intros ? [= <-]. split.
      * unfold armed, subscribed in *. by rewrite Hc4, Hw4.
      * exists x. by rewrite Hw4.
  - apply SceneEventWatcher_spec in Hsew as (Hs3 & He3 & Hm3 & Ht3 & _).
    intros [= <- <-]. split_and!; try congruence.
    exists (t1 ++ t2). split; [|done].
    destruct Hx12 as [? ?]. split; congruence.
Qed.

Lemma start_engine_inv (h : Host) (n : string) (tk : Tk) (c : Context)
    (w : World) (r : result Engine) (w' : World) :
  start_engine h n tk c w = (r, w') ->
  exists t, extends_by (OStartEngine n tk c :: t) w w' /\
    forallb is_quiet t = true /\
    match r with
    | Ok e =>
        current_engine w' = Some e /\ instance_name e = n /\ context e = c /\
        engine_tank e = tk /\
        menus w' = (if batch h then menus w else {["TankMenu"]} ∪ menus w) /\
        armed h w' (engine_watcher e) = true /\
        exists x, watchers w' !! engine_watcher e = Some x /\
                  cb_fn x = (n, Some c) /\ run_once x = false
    | Raise _ => current_engine w' = current_engine w /\ menus w' = menus w
    end.
Proof.
  unfold start_engine. unfold bind at 1. cbn [observe].
  set (w0 := mkWorld _ _ _ _ _ _ _ _).
  assert (extends_by [OStartEngine n tk c] w w0) as Hx0 by done.
  unfold bind at 1.
  destruct (start_engine_core h n tk c); cbn [ret raise].
  { intros [= <- <-]. exists []. by split_and!. }
  unfold bind at 1.
  destruct (init_engine h n c w0) as [[wid|e] w1] eqn:Hinit;
    apply init_engine_inv in Hinit as (He1 & Hm1 & (t1 & Hx1 & Hq1) & Hok).
  - destruct (Hok wid eq_refl) as (Harmed & x & Hx & Hcb & Hon).
    pose proof (extends_by_trans _ _ _ _ _ Hx0 Hx1) as Hx01.
    unfold post_app_init.
    destruct (batch h); cbn; intros [= <- <-]; exists t1; cbn;
      destruct Hx01 as [? ?]; split_and!;
      try done; try (by split); try (by rewrite Hm1); eauto.
  - intros [= <- <-]. exists t1. split_and!; try done.
    apply (extends_by_trans _ _ _ _ _ Hx0 Hx1).
Qed.

Lemma destroy_engine_inv (e : Engine) (w : World) (r : result unit) (w' : World) :
  destroy_engine e w = (r, w') ->
  current_engine w' = current_engine w /\ menus w' ⊆ menus w /\
  exists t, extends_by t w w' /\ forallb is_quiet t = true.
Proof.
  unfold destroy_engine. unfold bind at 1.
  destruct (log_debug_spec (debug_logging e) Destroying w)
    as (w1 & -> & He1 & Hm1 & _ & _ & _ & _ & t1 & Hx1 & Hq1).
  unfold bind at 1.
  destruct (stop_watching (engine_watcher e) w1) as [[[]|x] w2] eqn:Hstop;
    apply stop_watching_inv in Hstop as (He2 & Hm2 & t2 & Hx2 & Hq2).
  - pose proof (extends_by_trans _ _ _ _ _ Hx1 Hx2) as Hx12.
    assert (forallb is_quiet (t1 ++ t2) = true) as Hq12
      by (rewrite forallb_app, Hq1, Hq2; done).
    destruct (menu_handle e) as [m|]; cbn.
    + unfold bind, menu_exists. case_bool_decide; cbn; intros [= <- <-]; cbn.
      * split_and!; [congruence| |].
        -- rewrite Hm2, Hm1. by apply subseteq_difference_l.
        -- exists (t1 ++ t2). split; [|done].
           destruct Hx12. by split.
      * split_and!; [congruence| |eauto]. by rewrite Hm2, Hm1.
    + intros [= <- <-]. split_and!; [congruence| |eauto]. by rewrite Hm2, Hm1.
  - intros [= <- <-]. split_and!; [congruence| |]. 
    + by rewrite Hm2, Hm1.
    + exists (t1 ++ t2). split; [by eapply extends_by_trans|].
      by rewrite forallb_app, Hq1, Hq2.
Qed.

Lemma destroy_inv (h : Host) (e : Engine) (w : World) (r : result unit)
    (w' : World) :
  destroy h e w = (r, w') ->
  menus w' ⊆ menus w /\
  exists t, forallb is_quiet t = true /\
    match r with
    | Ok _ => current_engine w' = None /\
              extends_by (ODestroyBegin e :: t ++ [ODestroyEnd e]) w w'
    | Raise _ => current_engine w' = current_engine w /\
                 extends_by (ODestroyBegin e :: t) w w'
    end.
Proof.
  unfold destroy. unfold bind at 1. cbn [observe].
  set (w0 := mkWorld _ _ _ _ _ _ _ _).
  assert (extends_by [ODestroyBegin e] w w0) as Hx0 by done.
  unfold bind at 1.
  destruct (destroy_core h e); cbn [ret raise].
  { intros [= <- <-]. split; [done|]. exists []. by split_and!. }
  unfold bind at 1.
  destruct (destroy_engine e w0) as [[[]|x] w1] eqn:Hde;
    apply destroy_engine_inv in Hde as (He1 & Hm1 & t1 & Hx1 & Hq1).
  - cbn. intros [= <- <-]. cbn. split; [done|]. exists t1.
    split_and!; try done.
    destruct (extends_by_trans _ _ _ _ _ Hx0 Hx1) as [Hs Ht].
    split; [done|]. cbn. rewrite Ht. cbn. by rewrite <- app_assoc.
  - intros [= <- <-]. split; [done|]. exists t1. split_and!; try done.
    apply (extends_by_trans _ _ _ _ _ Hx0 Hx1).
Qed.

Lemma destroy_returns (h : Host) (w : World) (eng : Engine) :
  current_engine w = Some eng -> teardown_ok h w = true ->
  exists w', destroy h eng w = (Ok tt, w').
Proof.
  unfold teardown_ok. intros -> Hok.
  apply andb_prop in Hok as [Hok Hmenu]. apply andb_prop in Hok as [Hcore Hw].
  unfold destroy. unfold bind at 1. cbn [observe]. unfold bind at 1.
  destruct (destroy_core h eng); [done|]. cbn [ret].
  unfold bind at 1. unfold destroy_engine. unfold bind at 1.
  match goal with |- context [log_debug ?b ?m ?w0] =>
    destruct (log_debug_spec b m w0) as (w1 & -> & _ & _ & _ & Hw1 & _)
  end.
  cbn in Hw1. unfold bind at 1.
  destruct (watchers w !! engine_watcher eng) as [x|] eqn:Hx; [|done].
  erewrite stop_watching_spec by (rewrite Hw1; exact Hx).
  destruct (menu_handle eng) as [m|]; [|done].
  unfold bind, menu_exists. cbn. case_bool_decide; cbn; by eexists.
Qed.

Lemma reset_disabled_menu_spec (w : World) :
  exists w1, reset_disabled_menu w = (Ok tt, w1) /\
    scene_name w1 = scene_name w /\ current_engine w1 = current_engine w /\
    callbacks w1 = callbacks w /\ watchers w1 = watchers w /\
    next_msg_id w1 = next_msg_id w /\ next_watcher w1 = next_watcher w /\
    trace w1 = trace w /\
    menus w1 = menus w ∖ {["TankMenuDisabled"]} /\
    disabled_indicator_shown w1 = false.
Proof.
  unfold reset_disabled_menu, bind, menu_exists, disabled_indicator_shown.
  case_bool_decide as Hin; cbn.
  - eexists. split; [done|]. cbn. split_and!; try done.
    apply bool_decide_eq_false_2. intros [_ Hne]%elem_of_difference.
    apply Hne. by apply elem_of_singleton.
  - exists w. split_and!; try done.
    + symmetry. apply difference_disjoint_L. by apply disjoint_singleton_r.
    + by apply bool_decide_eq_false_2.
Qed.

Lemma create_tank_disabled_menu_spec (w : World) :
  exists w1, create_tank_disabled_menu w = (Ok tt, w1) /\
    scene_name w1 = scene_name w /\ current_engine w1 = current_engine w /\
    callbacks w1 = callbacks w /\ watchers w1 = watchers w /\
    next_msg_id w1 = next_msg_id w /\ next_watcher w1 = next_watcher w /\
    trace w1 = trace w /\
    menus w1 = {["TankMenuDisabled"]} ∪ (menus w ∖ {["TankMenu"]}) /\
    disabled_indicator_shown w1 = true.
Proof.
  unfold create_tank_disabled_menu, bind, menu_exists, disabled_indicator_shown.
  case_bool_decide as Hin; cbn.
  - eexists. split; [done|]. cbn. split_and!; try done.
    apply bool_decide_eq_true_2, elem_of_union. left. by apply elem_of_singleton.
  - eexists. split; [done|]. cbn. split_and!; try done.
    + f_equal. symmetry. apply difference_disjoint_L.
      by apply disjoint_singleton_r.
    + apply bool_decide_eq_true_2, elem_of_union. left.
      by apply elem_of_singleton.
Qed.

Lemma not_shown_subseteq (w w' : World) :
  menus w' ⊆ menus w -> disabled_indicator_shown w = false ->
  disabled_indicator_shown w' = false.
Proof.
  unfold disabled_indicator_shown. intros Hsub Hw.
  apply bool_decide_eq_false_1 in Hw. apply bool_decide_eq_false_2.
  intros Hin. by apply Hw, Hsub.
Qed.

Lemma not_shown_tank_menu (w w' : World) :
  menus w' = {["TankMenu"]} ∪ menus w -> disabled_indicator_shown w = false ->
  disabled_indicator_shown w' = false.
Proof.
  unfold disabled_indicator_shown. intros -> Hw.
  apply bool_decide_eq_false_1 in Hw. apply bool_decide_eq_false_2.
  intros [Hin%elem_of_singleton|Hin]%elem_of_union; [done|by apply Hw].
Qed.

(** ** refresh_engine, block by block *)

Lemma tear_down_existing_inv (h : Host) (pc : option Context)
    (cur : option Engine) (ctx : Context) (w : World) (r : result unit)
    (w' : World) :
  tear_down_existing h pc cur ctx w = (r, w') ->
  menus w' ⊆ menus w /\
  match cur with
  | Some eng =>
      exists logs t1, forallb is_quiet logs = true /\
        forallb is_quiet t1 = true /\
        match r with
        | Ok _ => current_engine w' = None /\
                  extends_by (logs ++ ODestroyBegin eng :: t1 ++ [ODestroyEnd eng])
                             w w'
        | Raise _ => current_engine w' = current_engine w /\
                     extends_by (logs ++ ODestroyBegin eng :: t1) w w'
        end
  | None => r = Ok tt /\ w' = w
  end.
Proof.
  unfold tear_down_existing. destruct cur as [eng|].
  - unfold bind at 1.
    destruct (log_debug_spec (debug_logging eng) ReadyToSwitch w)
      as (w1 & -> & He1 & Hm1 & _ & _ & _ & _ & l1 & Hx1 & Hq1).
    unfold bind at 1.
    destruct (log_debug_spec (debug_logging eng) (PrevContext pc) w1)
      as (w2 & -> & He2 & Hm2 & _ & _ & _ & _ & l2 & Hx2 & Hq2).
    unfold bind at 1.
    destruct (log_debug_spec (debug_logging eng) (NewContext ctx) w2)
      as (w3 & -> & He3 & Hm3 & _ & _ & _ & _ & l3 & Hx3 & Hq3).
    pose proof (extends_by_trans _ _ _ _ _
                  (extends_by_trans _ _ _ _ _ Hx1 Hx2) Hx3) as Hlogs.
    intros (Hm & t1 & Hq & Hr)%destroy_inv. split.
    + by rewrite <- Hm1, <- Hm2, <- Hm3.
    + exists ((l1 ++ l2) ++ l3), t1. split_and!; [|done|].
      * by rewrite !forallb_app, Hq1, Hq2, Hq3.
      * destruct r as [[]|x]; destruct Hr as [He Hx]; (split; [congruence|]);
          by apply (extends_by_trans _ _ _ _ _ Hlogs Hx).
  - intros [= <- <-]. by split_and!.
Qed.

Lemma create_new_engine_inv (h : Host) (en : string) (tk : Tk) (ctx : Context)
    (w : World) (r : result (option Engine)) (w' : World) :
  create_new_engine h en tk ctx w = (r, w') ->
  exists t2, forallb is_quiet t2 = true /\
    extends_by (OStartEngine en tk ctx :: t2) w w' /\
    match r with
    | Ok (Some e) =>
        current_engine w' = Some e /\ instance_name e = en /\
        context e = ctx /\ engine_tank e = tk /\
        menus w' = (if batch h then menus w else {["TankMenu"]} ∪ menus w) /\
        armed h w' (engine_watcher e) = true
    | Ok None =>
        current_engine w' = current_engine w /\
        disabled_indicator_shown w' = true /\
        exists e, isinstance_TankEngineInitError e = true /\
                  ODisplayInfo (CannotBeStarted e) ∈ t2
    | Raise x =>
        current_engine w' = current_engine w /\ menus w' = menus w /\
        isinstance_TankEngineInitError x = false
    end.
Proof.
  unfold create_new_engine, try_except.
  destruct (start_engine h en tk ctx w) as [[e|x] w1] eqn:Hstart;
    apply start_engine_inv in Hstart as (t & Hx & Hq & Hr).
  - destruct Hr as (He & Hn & Hc & Htk & Hm & Harmed & _).
    unfold bind.
    destruct (log_debug_spec (debug_logging e) LaunchedNewEngine w1)
      as (w2 & -> & He2 & Hm2 & Hc2 & Hw2 & _ & _ & l & Hxl & Hql).
    intros [= <- <-]. exists (t ++ l). split_and!; try congruence.
    + by rewrite forallb_app, Hq, Hql.
    + apply (extends_by_trans _ _ _ _ _ Hx Hxl).
    + unfold armed, subscribed in *. by rewrite Hc2, Hw2.
  - destruct Hr as (He & Hm).
    destruct (isinstance_TankEngineInitError x) eqn:Hcls.
    + unfold bind at 1. cbn [displayInfo observe]. unfold bind.
      match goal with |- context [create_tank_disabled_menu ?w0] =>
        destruct (create_tank_disabled_menu_spec w0)
          as (w2 & -> & Hs2 & He2 & _ & _ & _ & _ & Ht2 & _ & Hshown)
      end.
      cbn in *. intros [= <- <-].
      exists (t ++ [ODisplayInfo (CannotBeStarted x)]).
      split_and!; try congruence.
      * by rewrite forallb_app, Hq.
      * destruct Hx as [Hs Ht]. split; [congruence|].
        rewrite Ht2, Ht. cbn. by rewrite <- app_assoc.
      * exists x. split; [done|]. apply elem_of_app. right.
        by apply list_elem_of_singleton.
    + intros [= <- <-]. exists t. by split_and!.
Qed.

Lemma new_events_extends (t : list Obs) (w w' : World) :
  trace w' = trace w ++ t -> new_events w w' = t.
Proof. unfold new_events. intros ->. apply drop_app_length. Qed.

(** The statements of [refresh_engine] up to the test of the scene name. *)
Ltac refresh_prelude w w1 :=
  unfold refresh_engine; unfold bind at 1; cbn [get_current_engine];
  unfold bind at 1;
  destruct (reset_disabled_menu_spec w)
    as (w1 & -> & Hs1 & He1 & Hc1 & Hw1 & Hn1 & Hnw1 & Ht1 & Hm1 & Hshown1);
  unfold bind at 1; cbn [sceneName]; rewrite Hs1.

Lemma refresh_engine_empty (h : Host) (en : string) (pc : option Context)
    (w : World) :
  scene_name w = "" ->
  exists w',
    refresh_engine h en pc w = (Ok (current_engine w), w') /\
    scene_name w' = scene_name w /\ current_engine w' = current_engine w /\
    callbacks w' = callbacks w /\ watchers w' = watchers w /\
    trace w' = trace w /\
    menus w' = menus w ∖ {["TankMenuDisabled"]} /\
    disabled_indicator_shown w' = false.
Proof.
  intros Hname. refresh_prelude w w1.
  rewrite bool_decide_eq_true_2 by done.
  exists w1. by split_and!.
Qed.

(** C5: on an event with an empty scene name, whatever the previous
    context, [refresh_engine] returns the current engine (possibly none) and
    keeps it current; it observes nothing (no call to the Tank API, no
    teardown, no start of an engine) and touches neither the callbacks nor
    the watchers; the one thing it changes is that the disabled menu, if it
    was there, is gone. *)
Theorem refresh_engine_empty_scene (h : Host) (en : string)
    (pc : option Context) (w : World) :
  scene_name w = "" ->
  exists w',
    refresh_engine h en pc w = (Ok (current_engine w), w') /\
    current_engine w' = current_engine w /\
    new_events w w' = [] /\ trace w' = trace w /\
    callbacks w' = callbacks w /\ watchers w' = watchers w /\
    scene_name w' = scene_name w /\
    menus w' = menus w ∖ {["TankMenuDisabled"]}.
Proof.
  intros Hname.
  destruct (refresh_engine_empty h en pc w Hname)
    as (w' & Hrun & Hs & He & Hc & Hw & Ht & Hm & _).
  exists w'. split_and!; try done.
  apply new_events_extends. by rewrite app_nil_r.
Qed.

Lemma refresh_engine_unresolvable (h : Host) (en : string)
    (pc : option Context) (w : World) (e : exn) :
  scene_name w <> "" ->
  tank_from_path h (abspath h (scene_name w)) = Raise e ->
  isinstance_TankError e = true ->
  exists w1,
    refresh_engine h en pc w = (Ok (current_engine w), w1) /\
    scene_name w1 = scene_name w /\
    current_engine w1 = current_engine w /\
    disabled_indicator_shown w1 = true /\
    callbacks w1 = callbacks w /\ watchers w1 = watchers w /\
    trace w1 = trace w ++ [OTankFromPath (abspath h (scene_name w));
                           ODisplayInfo (CannotBeStarted e)].
Proof.
  intros Hname Htank Hcls. refresh_prelude w w1.
  rewrite bool_decide_eq_false_2 by done.
  unfold try_except, call_tank_from_path. unfold bind at 1. cbn [observe].
  rewrite Htank. cbn [raise]. rewrite Hcls.
  unfold bind at 1. cbn [displayInfo observe]. unfold bind.
  match goal with |- context [create_tank_disabled_menu ?w0] =>
    destruct (create_tank_disabled_menu_spec w0)
      as (w2 & -> & Hs2 & He2 & Hc2 & Hw2 & _ & _ & Ht2 & _ & Hshown)
  end.
  cbn in *. exists w2. split_and!; try congruence; [done|].
  rewrite Ht2, Ht1. by rewrite <- app_assoc.
Qed.

(** C4: when the scene path is not empty and [tank_from_path] raises a
    [TankError], the callback leaves the current engine as it was (an
    engine that was running stays current, with the callbacks and watchers
    untouched; no teardown and no start is observed) and the disabled menu
    is shown; with no engine running the session has no engine and shows
    the disabled menu, and when the callback returns a one-shot watcher is
    armed. *)
Theorem unresolvable_scene_keeps_engine (h : Host) (en : string)
    (pc : option Context) (w : World) (e : exn) (r : result unit) (w' : World) :
  scene_name w <> "" ->
  tank_from_path h (abspath h (scene_name w)) = Raise e ->
  isinstance_TankError e = true ->
  on_scene_event_callback h en pc w = (r, w') ->
  current_engine w' = current_engine w /\
  disabled_indicator_shown w' = true /\
  new_events w w' = [OTankFromPath (abspath h (scene_name w));
                     ODisplayInfo (CannotBeStarted e)] /\
  (forall eng, ODestroyBegin eng ∉ new_events w w') /\
  (forall eng, current_engine w = Some eng ->
     r = Ok tt /\ callbacks w' = callbacks w /\ watchers w' = watchers w) /\
  (current_engine w = None -> r = Ok tt ->
     exists wid x, watchers w' !! wid = Some x /\ cb_fn x = (en, pc) /\
                   run_once x = true /\ armed h w' wid = true).
Proof.
  intros Hname Htank Hcls.
  destruct (refresh_engine_unresolvable h en pc w e Hname Htank Hcls)
    as (w1 & Hrefresh & Hs1 & He1 & Hshown & Hc1 & Hw1 & Ht1).
  unfold on_scene_event_callback. unfold bind at 1. unfold try_except.
  rewrite Hrefresh. cbn [ret].
  assert (forall w2, trace w2 = trace w1 ->
            new_events w w2 = [OTankFromPath (abspath h (scene_name w));
                               ODisplayInfo (CannotBeStarted e)]) as Hnew.
  { intros w2 Hw2. apply new_events_extends. by rewrite Hw2. }
  assert (forall w2 eng, trace w2 = trace w1 ->
            ODestroyBegin eng ∉ new_events w w2) as Hno.
  { intros w2 eng Hw2. rewrite (Hnew w2 Hw2).
    intros [?|[?|?%elem_of_nil]%elem_of_cons]%elem_of_cons; done. }
  destruct (current_engine w) as [eng|] eqn:Hcur.
  - intros [= <- <-]. split_and!; eauto. done.
  - unfold bind.
    destruct (SceneEventWatcher h (en, pc) default_scene_events true w1)
      as [[wid|x] w2] eqn:Hsew;
      pose proof (SceneEventWatcher_spec _ _ _ _ _ _ _ Hsew)
        as (Hs2 & He2 & Hm2 & Ht2 & Hok);
      intros [= <- <-].
    + split_and!; eauto; try congruence.
      * unfold disabled_indicator_shown in *. by rewrite Hm2.
      * intros _ _. destruct (Hok wid eq_refl) as (_ & (x & Hx & Hcb & Hon) & _).
        exists wid, x. split_and!; try done.
        by eapply SceneEventWatcher_armed.
    + split_and!; eauto; try congruence.
      unfold disabled_indicator_shown in *. by rewrite Hm2.
Qed.

(** [refresh_engine] once the scene path resolved to a Tank instance. *)
Lemma refresh_engine_resolved (h : Host) (en : string) (pc : option Context)
    (w : World) (tk : Tk) :
  scene_name w <> "" ->
  tank_from_path h (abspath h (scene_name w)) = Ok tk ->
  let p := abspath h (scene_name w) in
  exists w1,
    (scene_name w1 = scene_name w /\ current_engine w1 = current_engine w /\
     callbacks w1 = callbacks w /\ watchers w1 = watchers w /\
     next_watcher w1 = next_watcher w /\
     menus w1 = menus w ∖ {["TankMenuDisabled"]} /\
     disabled_indicator_shown w1 = false /\
     trace w1 = trace w ++ [OTankFromPath p; OContextFromPath tk p pc]) /\
    refresh_engine h en pc w =
    match context_from_path h tk p pc with
    | Raise e => (Raise e, w1)
    | Ok ctx =>
        if is_Some_bool (current_engine w) && bool_decide (Some ctx = pc)
        then (Ok (current_engine w), w1)
        else switch_engine h en pc (current_engine w) tk ctx w1
    end.
Proof.
  intros Hname Htank p. refresh_prelude w w0.
  rewrite bool_decide_eq_false_2 by done.
  unfold try_except, call_tank_from_path. unfold bind at 1. cbn [observe].
  rewrite Htank. cbn [ret]. unfold bind at 1.
  unfold call_context_from_path. unfold bind at 1. cbn [observe].
  eexists. split;
    [|destruct (context_from_path h tk _ pc); cbn;
      [destruct (_ && _)|]; reflexivity].
  cbn. split_and!; try done.
  rewrite Ht1. by rewrite <- app_assoc.
Qed.

(** C9: with no engine running and a scene that resolves to the previous
    context, [refresh_engine] does not return early: it goes on exactly as
    [create_new_engine] does for that context, tearing nothing down, so the
    start of an engine for the context is observed right after the two
    calls to the Tank API; when the start succeeds the new engine is
    current and returned. *)
Theorem retry_without_engine (h : Host) (en : string) (ctx : Context)
    (w : World) (tk : Tk) :
  current_engine w = None ->
  scene_name w <> "" ->
  tank_from_path h (abspath h (scene_name w)) = Ok tk ->
  context_from_path h tk (abspath h (scene_name w)) (Some ctx) = Ok ctx ->
  let p := abspath h (scene_name w) in
  exists w1,
    trace w1 = trace w ++ [OTankFromPath p; OContextFromPath tk p (Some ctx)] /\
    refresh_engine h en (Some ctx) w = create_new_engine h en tk ctx w1 /\
    forall r w', refresh_engine h en (Some ctx) w = (r, w') ->
      (exists t2, forallb is_quiet t2 = true /\
         new_events w w' = [OTankFromPath p; OContextFromPath tk p (Some ctx);
                            OStartEngine en tk ctx] ++ t2) /\
      (forall eng w2, start_engine h en tk ctx w1 = (Ok eng, w2) ->
         r = Ok (Some eng) /\ current_engine w' = Some eng /\
         context eng = ctx).
Proof.
  intros Hcur Hname Htank Hctx p.
  destruct (refresh_engine_resolved h en (Some ctx) w tk Hname Htank)
    as (w1 & (Hs1 & He1 & Hc1 & Hw1 & Hnw1 & Hm1 & Hshown1 & Ht1) & Heq).
  rewrite Hctx, Hcur in Heq. cbn [is_Some_bool andb] in Heq.
  change (switch_engine h en (Some ctx) None tk ctx w1)
    with (create_new_engine h en tk ctx w1) in Heq.
  exists w1. split; [done|]. split; [done|].
  intros r w' Hrun. rewrite Heq in Hrun. split.
  - apply create_new_engine_inv in Hrun as (t2 & Hq & [_ Hx] & _).
    exists t2. split; [done|]. apply new_events_extends.
    rewrite Hx, Ht1. by rewrite <- app_assoc.
  - intros eng w2 Hstart.
    pose proof (create_new_engine_inv _ _ _ _ _ _ _ Hrun) as (t2 & _ & _ & Hr).
    unfold create_new_engine, try_except in Hrun.
    rewrite Hstart in Hrun. unfold bind in Hrun.
    destruct (log_debug_spec (debug_logging eng) LaunchedNewEngine w2)
      as (w3 & Hlog & _).
    rewrite Hlog in Hrun. cbn in Hrun. injection Hrun as Hr1 Hr2.
    subst r. by destruct Hr as (? & _ & ? & _).
Qed.

Lemma tear_down_existing_returns (h : Host) (pc : option Context)
    (eng : Engine) (ctx : Context) (w : World) :
  current_engine w = Some eng -> teardown_ok h w = true ->
  exists w', tear_down_existing h pc (Some eng) ctx w = (Ok tt, w').
Proof.
  intros Hcur Hok. unfold tear_down_existing. unfold bind at 1.
  destruct (log_debug_spec (debug_logging eng) ReadyToSwitch w)
    as (w1 & -> & He1 & _ & _ & Hw1 & _).
  unfold bind at 1.
  destruct (log_debug_spec (debug_logging eng) (PrevContext pc) w1)
    as (w2 & -> & He2 & _ & _ & Hw2 & _).
  unfold bind at 1.
  destruct (log_debug_spec (debug_logging eng) (NewContext ctx) w2)
    as (w3 & -> & He3 & _ & _ & Hw3 & _).
  apply destroy_returns; [congruence|].
  unfold teardown_ok in *. by rewrite He3, He2, He1, Hw3, Hw2, Hw1.
Qed.

Lemma destroy_before_start_quiet (eng : Engine) (d : bool) (t1 t2 : list Obs) :
  forallb is_quiet t1 = true ->
  destroy_before_start eng d (t1 ++ t2) = destroy_before_start eng d t2.
Proof.
  induction t1 as [|o t1 IH]; [done|].
  cbn [forallb]. intros [Ho Ht1]%andb_prop.
  destruct o; try discriminate Ho; cbn; by apply IH.
Qed.

Lemma destroy_before_start_all_quiet (eng : Engine) (d : bool) (t : list Obs) :
  forallb is_quiet t = true -> destroy_before_start eng d t = true.
Proof.
  intros Hq. rewrite <- (app_nil_r t). by rewrite destroy_before_start_quiet.
Qed.

(** C3: when an engine is running and the scene resolves to a context that
    differs from the previous one, [refresh_engine] begins the teardown of
    the running engine; either the teardown raises and no engine is
    started, or it completes and the start of the engine for the new
    context is the next thing that happens; so along the observations
    every start comes after the completed teardown.  The teardown
    completes whenever neither the core nor [destroy_engine] fails. *)
Theorem teardown_completes_before_start (h : Host) (en : string)
    (pc : option Context) (w : World) (eng : Engine) (tk : Tk) (ctx : Context)
    (r : result (option Engine)) (w' : World) :
  current_engine w = Some eng ->
  scene_name w <> "" ->
  tank_from_path h (abspath h (scene_name w)) = Ok tk ->
  context_from_path h tk (abspath h (scene_name w)) pc = Ok ctx ->
  Some ctx <> pc ->
  refresh_engine h en pc w = (r, w') ->
  let p := abspath h (scene_name w) in
  (exists logs t1, forallb is_quiet logs = true /\ forallb is_quiet t1 = true /\
     ((exists x, r = Raise x /\
         new_events w w' = [OTankFromPath p; OContextFromPath tk p pc] ++ logs
                           ++ ODestroyBegin eng :: t1) \/
      (exists t2, forallb is_quiet t2 = true /\
         new_events w w' = [OTankFromPath p; OContextFromPath tk p pc] ++ logs
                           ++ ODestroyBegin eng :: t1
                           ++ ODestroyEnd eng :: OStartEngine en tk ctx :: t2))) /\
  ODestroyBegin eng ∈ new_events w w' /\
  destroy_before_start eng false (new_events w w') = true /\
  (teardown_ok h w = true ->
   ODestroyEnd eng ∈ new_events w w' /\
   OStartEngine en tk ctx ∈ new_events w w').
Proof.
  intros Hcur Hname Htank Hctx Hchanged Hrun p.
  destruct (refresh_engine_resolved h en pc w tk Hname Htank)
    as (w1 & (Hs1 & He1 & Hc1 & Hw1 & Hnw1 & Hm1 & Hshown1 & Ht1) & Heq).
  rewrite Hctx, Hcur in Heq.
  rewrite (bool_decide_eq_false_2 _ Hchanged), andb_false_r in Heq.
  rewrite Heq in Hrun. unfold switch_engine in Hrun. unfold bind in Hrun.
  destruct (tear_down_existing h pc (Some eng) ctx w1) as [[[]|x] w2] eqn:Htear.
  - pose proof (tear_down_existing_inv _ _ _ _ _ _ _ Htear)
      as (_ & logs & t1 & Hql & Hq1 & _ & [_ Hx2]).
    apply create_new_engine_inv in Hrun as (t2 & Hq2 & [_ Hx3] & _).
    assert (new_events w w' =
            [OTankFromPath p; OContextFromPath tk p pc] ++ logs
            ++ ODestroyBegin eng :: t1
            ++ ODestroyEnd eng :: OStartEngine en tk ctx :: t2) as Hnew.
    { apply new_events_extends. rewrite Hx3, Hx2, Ht1.
      rewrite <- !app_assoc. cbn. by rewrite <- !app_assoc. }
    split_and!.
    + exists logs, t1. split_and!; [done..|]. right. by exists t2.
    + rewrite Hnew. apply elem_of_app. right. apply elem_of_app. right.
      apply elem_of_cons. by left.
    + rewrite Hnew. cbn. rewrite destroy_before_start_quiet by done. cbn.
      rewrite destroy_before_start_quiet by done. cbn.
      rewrite bool_decide_eq_true_2 by done. cbn.
      by apply destroy_before_start_all_quiet.
    + intros _. rewrite Hnew. split.
      * do 2 (apply elem_of_app; right). apply elem_of_cons. right.
        apply elem_of_app. right. apply elem_of_cons. by left.
      * do 2 (apply elem_of_app; right). apply elem_of_cons. right.
        apply elem_of_app. right. apply elem_of_cons. right.
        apply elem_of_cons. by left.
  - pose proof (tear_down_existing_inv _ _ _ _ _ _ _ Htear)
      as (_ & logs & t1 & Hql & Hq1 & _ & [_ Hx2]).
    injection Hrun as <- <-.
    assert (new_events w w2 =
            [OTankFromPath p; OContextFromPath tk p pc] ++ logs
            ++ ODestroyBegin eng :: t1) as Hnew.
    { apply new_events_extends. rewrite Hx2, Ht1. by rewrite <- !app_assoc. }
    split_and!.
    + exists logs, t1. split_and!; [done..|]. left. by exists x.
    + rewrite Hnew. apply elem_of_app. right. apply elem_of_app. right.
      apply elem_of_cons. by left.
    + rewrite Hnew. cbn. rewrite destroy_before_start_quiet by done. cbn.
      by apply destroy_before_start_all_quiet.
    + intros Hok. exfalso.
      destruct (tear_down_existing_returns h pc eng ctx w1) as [w3 Hret].
      * congruence.
      * unfold teardown_ok in *. by rewrite He1, Hw1.
      * congruence.
Qed.

Lemma start_engine_core_raises (h : Host) (en : string) (tk : Tk)
    (ctx : Context) (w : World) (e : exn) :
  start_engine_core h en tk ctx = Some e ->
  start_engine h en tk ctx w
  = (Raise e, snd (observe (OStartEngine en tk ctx) w)).
Proof.
  intros Hcore. unfold start_engine. unfold bind at 1. cbn [observe].
  unfold bind at 1. by rewrite Hcore.
Qed.

Lemma create_new_engine_init_error (h : Host) (en : string) (tk : Tk)
    (ctx : Context) (w : World) (e : exn) :
  start_engine_core h en tk ctx = Some e ->
  isinstance_TankEngineInitError e = true ->
  exists w',
    create_new_engine h en tk ctx w = (Ok None, w') /\
    current_engine w' = current_engine w /\
    disabled_indicator_shown w' = true /\
    trace w' = trace w ++ [OStartEngine en tk ctx;
                           ODisplayInfo (CannotBeStarted e)].
Proof.
  intros Hcore Hcls. unfold create_new_engine, try_except.
  rewrite (start_engine_core_raises h en tk ctx w e Hcore). rewrite Hcls.
  unfold bind at 1. cbn [displayInfo observe]. unfold bind.
  match goal with |- context [create_tank_disabled_menu ?w0] =>
    destruct (create_tank_disabled_menu_spec w0)
      as (w2 & -> & _ & He2 & _ & _ & _ & _ & Ht2 & _ & Hshown)
  end.
  cbn in *. exists w2. split_and!; try done.
  rewrite Ht2. by rewrite <- app_assoc.
Qed.

(** What Maya does with a one-shot watcher on the next scene event. *)
Lemma one_shot_fires (h : Host) (wid : nat) (x : Watcher) (w : World) :
  watchers w !! wid = Some x -> run_once x = true ->
  scene_event_callback h wid w =
  (stop_watching wid >>
   on_scene_event_callback h (fst (cb_fn x)) (snd (cb_fn x))) w.
Proof.
  intros Hx Hon. unfold scene_event_callback. unfold bind at 1 2.
  unfold get_watcher. rewrite Hx, Hon. reflexivity.
Qed.

(** C2: when the scene resolves to a context other than the previous one
    and [start_engine] raises [TankEngineInitError], the callback returns
    with no engine current and the disabled menu shown, having displayed
    the message; it has created a one-shot watcher that is armed, whose
    callback, on the next scene event, stops the watcher and runs
    [on_scene_event_callback] (hence the resolution) again with the same
    arguments.  An engine that was running is assumed to tear down without
    failure, and Maya to take the subscriptions. *)
Theorem init_error_disables_and_rearms (h : Host) (en : string)
    (pc : option Context) (w : World) (tk : Tk) (ctx : Context) (e : exn) :
  scene_name w <> "" ->
  tank_from_path h (abspath h (scene_name w)) = Ok tk ->
  context_from_path h tk (abspath h (scene_name w)) pc = Ok ctx ->
  Some ctx <> pc ->
  teardown_ok h w = true ->
  start_engine_core h en tk ctx = Some e ->
  isinstance_TankEngineInitError e = true ->
  subscriptions_safe h = true ->
  exists w' wid x,
    on_scene_event_callback h en pc w = (Ok tt, w') /\
    current_engine w' = None /\
    disabled_indicator_shown w' = true /\
    ODisplayInfo (CannotBeStarted e) ∈ new_events w w' /\
    watchers w' !! wid = Some x /\ cb_fn x = (en, pc) /\ run_once x = true /\
    armed h w' wid = true /\
    forall name,
      scene_event_callback h wid (open_scene name w') =
      (stop_watching wid >> on_scene_event_callback h en pc)
        (open_scene name w').
Proof.
  intros Hname Htank Hctx Hchanged Hok Hcore Hcls Hsafe.
  destruct (refresh_engine_resolved h en pc w tk Hname Htank)
    as (w1 & (Hs1 & He1 & Hc1 & Hw1 & Hnw1 & Hm1 & Hshown1 & Ht1) & Heq).
  rewrite Hctx in Heq.
  rewrite (bool_decide_eq_false_2 _ Hchanged), andb_false_r in Heq.
  assert (exists w2 t, tear_down_existing h pc (current_engine w) ctx w1
                       = (Ok tt, w2) /\
                       current_engine w2 = None /\
                       trace w2 = trace w1 ++ t) as (w2 & t & Htear & He2 & Ht2).
  { destruct (current_engine w) as [eng|] eqn:Hcur.
    - destruct (tear_down_existing_returns h pc eng ctx w1) as [w2 Hret].
      + congruence.
      + unfold teardown_ok in *. rewrite Hcur in Hok. by rewrite He1, Hw1.
      + pose proof (tear_down_existing_inv _ _ _ _ _ _ _ Hret)
          as (_ & logs & t1 & _ & _ & He2 & [_ Hx2]).
        by exists w2, (logs ++ ODestroyBegin eng :: t1 ++ [ODestroyEnd eng]).
    - exists w1, []. cbn. rewrite app_nil_r. split_and!; [done|congruence|done]. }
  destruct (create_new_engine_init_error h en tk ctx w2 e Hcore Hcls)
    as (w3 & Hcreate & He3 & Hshown3 & Ht3).
  assert (refresh_engine h en pc w = (Ok None, w3)) as Hrefresh.
  { rewrite Heq. unfold switch_engine, bind. by rewrite Htear. }
  destruct (SceneEventWatcher_returns h (en, pc) true w3 Hsafe) as [w4 Hsew].
  pose proof (SceneEventWatcher_armed _ _ _ _ _ _ Hsew) as Harmed.
  pose proof (SceneEventWatcher_spec _ _ _ _ _ _ _ Hsew)
    as (Hs4 & He4 & Hm4 & Ht4 & Hw4).
  destruct (Hw4 _ eq_refl) as (_ & (x & Hx & Hcb & Hon) & _).
  exists w4, (next_watcher w3), x. split_and!; try done.
  - unfold on_scene_event_callback. unfold bind at 1. unfold try_except.
    rewrite Hrefresh. cbn [ret]. unfold bind. by rewrite Hsew.
  - congruence.
  - unfold disabled_indicator_shown in *. by rewrite Hm4.
  - rewrite (new_events_extends
               (([OTankFromPath (abspath h (scene_name w));
                  OContextFromPath tk (abspath h (scene_name w)) pc] ++ t)
                ++ [OStartEngine en tk ctx; ODisplayInfo (CannotBeStarted e)])).
    + apply elem_of_app. right. apply elem_of_cons. right.
      apply elem_of_cons. by left.
    + rewrite Ht4, Ht3, Ht2, Ht1. by rewrite <- !app_assoc.
  - intros name.
    rewrite (one_shot_fires h _ x) by done. by rewrite Hcb.
Qed.

(** ** The callback as a whole *)

Lemma exactly_one_engine (w : World) (e : Engine) :
  current_engine w = Some e -> disabled_indicator_shown w = false ->
  exactly_one w = true.
Proof. unfold exactly_one, engine_running. by intros -> ->. Qed.

Lemma exactly_one_disabled (w : World) :
  current_engine w = None -> disabled_indicator_shown w = true ->
  exactly_one w = true.
Proof. unfold exactly_one, engine_running. by intros -> ->. Qed.

(** What [refresh_engine] guarantees on each of its exits. *)
Lemma refresh_engine_post (h : Host) (en : string) (pc : option Context)
    (w : World) (r : result (option Engine)) (w' : World) :
  refresh_engine h en pc w = (r, w') ->
  match r with
  | Ok ro =>
      current_engine w' = ro /\
      (forall e, ro = Some e ->
         (current_engine w = Some e /\ callbacks w' = callbacks w /\
          watchers w' = watchers w) \/
         armed h w' (engine_watcher e) = true) /\
      (scene_name w <> "" ->
       forall tk, tank_from_path h (abspath h (scene_name w)) = Ok tk ->
                  exactly_one w' = true)
  | Raise x => disabled_indicator_shown w' = false /\ scene_name w <> ""
  end.
Proof.
  intros Hrun.
  destruct (decide (scene_name w = "")) as [Hname|Hname].
  { destruct (refresh_engine_empty h en pc w Hname)
      as (w1 & Heq & _ & He & Hc & Hw & _).
    rewrite Heq in Hrun. injection Hrun as <- <-.
    split_and!; [done| |done]. intros e He'. left. by rewrite <- He'. }
  destruct (tank_from_path h (abspath h (scene_name w))) as [tk|x] eqn:Htank.
  2:{ destruct (isinstance_TankError x) eqn:Hcls.
      - destruct (refresh_engine_unresolvable h en pc w x Hname Htank Hcls)
          as (w1 & Heq & _ & He & _ & Hc & Hw & _).
        rewrite Heq in Hrun. injection Hrun as <- <-.
        split_and!; [done| |done]. intros e He'. left. by rewrite <- He'.
      - revert Hrun. refresh_prelude w w1.
        rewrite bool_decide_eq_false_2 by done.
        unfold try_except, call_tank_from_path. unfold bind at 1.
        cbn [observe]. rewrite Htank. cbn [raise]. rewrite Hcls.
        by intros [= <- <-]. }
  destruct (refresh_engine_resolved h en pc w tk Hname Htank)
    as (w1 & (Hs1 & He1 & Hc1 & Hw1 & Hnw1 & Hm1 & Hshown1 & Ht1) & Heq).
  rewrite Heq in Hrun. clear Heq.
  destruct (context_from_path h tk _ pc) as [ctx|x];
    [|by injection Hrun as <- <-].
  destruct (is_Some_bool (current_engine w) && bool_decide (Some ctx = pc))
    eqn:Hshort.
  { injection Hrun as <- <-. apply andb_prop in Hshort as [Hsome _].
    split_and!; [done| |].
    - intros e He'. left. by rewrite <- He'.
    - intros _ tk' _. destruct (current_engine w) as [e|] eqn:Hcur; [|done].
      by apply (exactly_one_engine w1 e). }
  clear Hshort. unfold switch_engine, bind in Hrun.
  destruct (tear_down_existing h pc (current_engine w) ctx w1)
    as [[[]|x] w2] eqn:Htear;
    pose proof (tear_down_existing_inv _ _ _ _ _ _ _ Htear) as (Hm2 & Hcase).
  2:{ injection Hrun as <- <-. split; [|done].
      by apply (not_shown_subseteq w1). }
  assert (current_engine w2 = None) as He2.
  { destruct (current_engine w) as [eng|].
    - by destruct Hcase as (? & ? & _ & _ & ? & _).
    - destruct Hcase as [_ ->]. congruence. }
  pose proof (not_shown_subseteq w1 w2 Hm2 Hshown1) as Hshown2.
  apply create_new_engine_inv in Hrun as (t2 & _ & _ & Hr).
  destruct r as [[e|]|x].
  - destruct Hr as (He & _ & _ & _ & Hm & Harmed).
    assert (disabled_indicator_shown w' = false) as Hshown'.
    { destruct (batch h).
      - apply (not_shown_subseteq w2); [by rewrite Hm | done].
      - by apply (not_shown_tank_menu w2). }
    split_and!; [done| |].
    + intros ? [= <-]. by right.
    + intros _ ? _. by apply (exactly_one_engine w' e).
  - destruct Hr as (He & Hshown & _). split_and!; [congruence|done|].
    intros _ ? _. apply exactly_one_disabled; congruence.
  - destruct Hr as (_ & Hm & _). split; [|done].
    apply (not_shown_subseteq w2); [by rewrite Hm | done].
Qed.

(** The callback after [refresh_engine] has come back. *)
Lemma on_scene_event_callback_inv (h : Host) (en : string)
    (pc : option Context) (w : World) (r : result unit) (w' : World) :
  on_scene_event_callback h en pc w = (r, w') ->
  exists rr w1,
    refresh_engine h en pc w = (rr, w1) /\
    current_engine w' = current_engine w1 /\ menus w' = menus w1 /\
    match rr with
    | Ok (Some e) => r = Ok tt /\ w' = w1
    | Ok None =>
        trace w' = trace w1 /\
        (r = Ok tt -> one_shot_armed h en pc w') /\
        (subscriptions_safe h = true -> r = Ok tt)
    | Raise x =>
        if isinstance_Exception x
        then trace w' = trace w1 ++ [ODisplayError (ProblemStarting x)] /\
             (r = Ok tt -> one_shot_armed h en pc w') /\
             (subscriptions_safe h = true -> r = Ok tt)
        else r = Raise x /\ w' = w1
    end.
Proof.
  assert (forall w1 r w',
            (SceneEventWatcher h (en, pc) default_scene_events true >> ret tt) w1
            = (r, w') ->
            current_engine w' = current_engine w1 /\ menus w' = menus w1 /\
            trace w' = trace w1 /\
            (r = Ok tt -> one_shot_armed h en pc w') /\
            (subscriptions_safe h = true -> r = Ok tt)) as Hrearm.
  { intros w1 r0 w0. unfold bind.
    destruct (SceneEventWatcher h (en, pc) default_scene_events true w1)
      as [[wid|x] w2] eqn:Hsew;
      pose proof (SceneEventWatcher_spec _ _ _ _ _ _ _ Hsew)
        as (_ & He & Hm & Ht & Hok);
      intros [= <- <-]; split_and!; try done.
    - intros _. destruct (Hok wid eq_refl) as (_ & (x & Hx & Hcb & Hon) & _).
      exists wid, x. split_and!; try done.
      by eapply SceneEventWatcher_armed.
    - intros Hsafe.
      destruct (SceneEventWatcher_returns h (en, pc) true w1 Hsafe) as [? Hret].
      congruence. }
  unfold on_scene_event_callback. unfold bind at 1. unfold try_except.
  destruct (refresh_engine h en pc w) as [[[e|]|x] w1] eqn:Hrefresh;
    cbn [ret]; intros Hrun.
  - exists (Ok (Some e)), w1. by injection Hrun as <- <-.
  - exists (Ok None), w1.
    apply Hrearm in Hrun as (? & ? & ? & ? & ?). by split_and!.
  - exists (Raise x), w1. destruct (isinstance_Exception x).
    + unfold bind at 1 in Hrun. cbn [displayError observe ret] in Hrun.
      apply Hrearm in Hrun as (? & ? & ? & ? & ?). by split_and!.
    + by injection Hrun as <- <-.
Qed.

(** C1, as the code has it: after the callback has returned, (1) with no
    engine current, an armed one-shot watcher for the same engine name and
    previous context exists; (2) with an engine current, either it is the
    engine that was running and the callbacks and watchers are untouched,
    or its own watcher is armed, or an armed one-shot watcher exists;
    (3) exactly one of "an engine is running" and "the disabled menu is
    shown" holds whenever the scene path is not empty, resolves to a Tank
    instance, and [refresh_engine] returns; (4) for an empty scene path the
    engine is kept and the disabled menu is not shown; (5) for a path that
    does not resolve the engine is kept and the disabled menu is shown. *)
Theorem event_postcondition (h : Host) (en : string) (pc : option Context)
    (w w' : World) :
  on_scene_event_callback h en pc w = (Ok tt, w') ->
  (current_engine w' = None -> one_shot_armed h en pc w') /\
  (forall e, current_engine w' = Some e ->
     (current_engine w = Some e /\ callbacks w' = callbacks w /\
      watchers w' = watchers w) \/
     armed h w' (engine_watcher e) = true \/
     one_shot_armed h en pc w') /\
  (forall ro w1 tk,
     refresh_engine h en pc w = (Ok ro, w1) ->
     scene_name w <> "" ->
     tank_from_path h (abspath h (scene_name w)) = Ok tk ->
     exactly_one w' = true) /\
  (scene_name w = "" ->
   current_engine w' = current_engine w /\
   disabled_indicator_shown w' = false) /\
  (forall e,
     scene_name w <> "" ->
     tank_from_path h (abspath h (scene_name w)) = Raise e ->
     isinstance_TankError e = true ->
     current_engine w' = current_engine w /\
     disabled_indicator_shown w' = true).
Proof.
  intros Hrun.
  destruct (on_scene_event_callback_inv h en pc w _ _ Hrun)
    as (rr & w1 & Hrefresh & He & Hm & Hcase).
  pose proof (refresh_engine_post h en pc w rr w1 Hrefresh) as Hpost.
  assert (forall b, disabled_indicator_shown w1 = b ->
                    disabled_indicator_shown w' = b) as Hshown.
  { intros b. unfold disabled_indicator_shown. by rewrite Hm. }
  assert (exactly_one w' = exactly_one w1) as Hone.
  { unfold exactly_one, engine_running, disabled_indicator_shown.
    by rewrite He, Hm. }
  split_and!.
  - intros Hnone. destruct rr as [[e|]|x].
    + destruct Hpost as (Hcur & _). congruence.
    + destruct Hcase as (_ & Harmed & _). by apply Harmed.
    + destruct (isinstance_Exception x).
      * destruct Hcase as (_ & Harmed & _). by apply Harmed.
      * by destruct Hcase.
  - intros e Hcur. destruct rr as [[e'|]|x].
    + destruct Hpost as (Hcur1 & Hkept & _). destruct Hcase as [_ ->].
      assert (e' = e) as -> by congruence.
      destruct (Hkept e eq_refl) as [?|?]; [by left | right; by left].
    + destruct Hcase as (_ & Harmed & _). right. right. by apply Harmed.
    + destruct (isinstance_Exception x).
      * destruct Hcase as (_ & Harmed & _). right. right. by apply Harmed.
      * by destruct Hcase.
  - intros ro w2 tk Hrefresh' Hname Htank.
    rewrite Hrefresh in Hrefresh'. injection Hrefresh' as -> ->.
    destruct Hpost as (_ & _ & Hex). rewrite Hone. by eapply Hex.
  - intros Hname.
    destruct (refresh_engine_empty h en pc w Hname)
      as (w2 & Heq & _ & He2 & _ & _ & _ & _ & Hshown2).
    rewrite Hrefresh in Heq. injection Heq as -> ->.
    split; [congruence | by apply Hshown].
  - intros e Hname Htank Hcls.
    destruct (refresh_engine_unresolvable h en pc w e Hname Htank Hcls)
      as (w2 & Heq & _ & He2 & Hshown2 & _).
    rewrite Hrefresh in Heq. injection Heq as -> ->.
    split; [congruence | by apply Hshown].
Qed.

(** C6, as the code has it: an exception that derives from [Exception] and
    comes out of [refresh_engine] is caught by the callback, which displays
    the error, leaves the engine and the menus as [refresh_engine] left
    them (the disabled menu is not shown) and, Maya taking the
    subscriptions, returns with an armed one-shot watcher. *)
Theorem unexpected_error_is_caught (h : Host) (en : string)
    (pc : option Context) (w : World) (e : exn) (w1 : World) :
  refresh_engine h en pc w = (Raise e, w1) ->
  isinstance_Exception e = true ->
  subscriptions_safe h = true ->
  exists w',
    on_scene_event_callback h en pc w = (Ok tt, w') /\
    new_events w1 w' = [ODisplayError (ProblemStarting e)] /\
    current_engine w' = current_engine w1 /\ menus w' = menus w1 /\
    disabled_indicator_shown w' = false /\
    one_shot_armed h en pc w'.
Proof.
  intros Hrefresh Hcls Hsafe.
  destruct (on_scene_event_callback h en pc w) as [r w'] eqn:Hrun.
  destruct (on_scene_event_callback_inv h en pc w r w' Hrun)
    as (rr & w2 & Hrefresh' & He & Hm & Hcase).
  rewrite Hrefresh in Hrefresh'. injection Hrefresh' as <- <-.
  rewrite Hcls in Hcase. destruct Hcase as (Ht & Harmed & Hret).
  rewrite (Hret Hsafe) in *. exists w'. split_and!; try done.
  - by apply new_events_extends.
  - pose proof (refresh_engine_post h en pc w _ _ Hrefresh) as [Hshown _].
    unfold disabled_indicator_shown in *. by rewrite Hm.
  - by apply Harmed.
Qed.

(** An exception that does not derive from [Exception] leaves the
    callback. *)
Lemma base_exception_escapes (h : Host) (en : string) (pc : option Context)
    (w : World) (e : exn) (w1 : World) :
  refresh_engine h en pc w = (Raise e, w1) ->
  isinstance_Exception e = false ->
  on_scene_event_callback h en pc w = (Raise e, w1).
Proof.
  intros Hrefresh Hcls.
  unfold on_scene_event_callback, bind, try_except.
  by rewrite Hrefresh, Hcls.
Qed.

(** ** The engine queue *)

Module QueueFacts.
Import Queue.

Lemma report_progress_fold (percents : list Z) (s : State) :
  fold_left (fun st p => report_progress p st) percents s =
  mkState (queue s) (List.last percents (current_progress s)) (heap s)
          (qtrace s ++ map QStep (deltas (current_progress s) percents)).
Proof.
  revert s. induction percents as [|p rest IH]; intros s.
  - destruct s; cbn. by rewrite app_nil_r.
  - cbn [fold_left]. rewrite IH. cbn. rewrite <- app_assoc. cbn.
    f_equal. clear IH. revert p. induction rest as [|q rest IH]; intros p.
    + done.
    + destruct rest; [done|]. apply IH.
Qed.

Lemma kwargs_of_inject (hp : gmap nat (gmap string Value)) (j : Job) :
  same_kwargs hp (inject hp j).
Proof.
  unfold same_kwargs, inject. intros l'.
  destruct (args j) as [| | |l|]; try done.
  destruct (hp !! l) as [d|] eqn:Hd; [|done].
  destruct (decide (l = l')) as [<-|Hne].
  - rewrite lookup_insert_eq, Hd. cbn. unfold with_progress_callback.
    by rewrite insert_insert_eq.
  - by rewrite lookup_insert_ne.
Qed.

Lemma same_kwargs_trans (hp0 hp1 hp2 : gmap nat (gmap string Value)) :
  same_kwargs hp0 hp1 -> same_kwargs hp1 hp2 -> same_kwargs hp0 hp2.
Proof. intros H1 H2 l. by rewrite H2, H1. Qed.

Lemma job_block_same_kwargs (hp0 hp : gmap nat (gmap string Value)) (j : Job) :
  same_kwargs hp0 hp -> job_block hp j = job_block hp0 j.
Proof.
  intros Hsame. unfold job_block, kwargs_of.
  destruct (args j); try done. by rewrite (Hsame ref).
Qed.

(** One turn of the loop. *)
Lemma run_item_spec (j : Job) (s : State) :
  queue (run_item j s) = queue s /\
  heap (run_item j s) = inject (heap s) j /\
  qtrace (run_item j s) = qtrace s ++ job_block (heap s) j.
Proof.
  unfold run_item, process, setitem, call, job_block, kwargs_of, inject.
  destruct (args j) as [| | |l|]; cbn;
    try (split_and!; [done|done|by rewrite <- !app_assoc]).
  destruct (heap s !! l) as [d|] eqn:Hd; cbn;
    [|split_and!; [done|done|by rewrite <- !app_assoc]].
  rewrite lookup_insert_eq. rewrite report_progress_fold. cbn.
  fold (with_progress_callback d).
  destruct (snd (method j (with_progress_callback d))); cbn;
    (split_and!; [done|done|]); rewrite <- !app_assoc; cbn;
    by rewrite <- ?app_assoc.
Qed.

(** The loop, from any state whose heap gives the jobs the keyword
    arguments of [hp0]. *)
Lemma drain_spec (fuel : nat) (s : State) (hp0 : gmap nat (gmap string Value)) :
  length (queue s) <= fuel -> same_kwargs hp0 (heap s) ->
  queue (drain fuel s) = [] /\
  heap (drain fuel s) = fold_left inject (queue s) (heap s) /\
  qtrace (drain fuel s)
  = qtrace s ++ concat (map (job_block hp0) (queue s)).
Proof.
  revert s. induction fuel as [|fuel IH]; intros s Hlen Hsame.
  - destruct (queue s) eqn:Hq; [|cbn in Hlen; lia].
    cbn. rewrite Hq. cbn. by rewrite app_nil_r.
  - cbn [drain]. destruct (queue s) as [|j rest] eqn:Hq.
    + cbn. rewrite Hq. by rewrite app_nil_r.
    + destruct (run_item_spec j (set_queue rest s)) as (Hq1 & Hh1 & Ht1).
      change (queue (set_queue rest s)) with rest in Hq1.
      change (heap (set_queue rest s)) with (heap s) in Hh1, Ht1.
      change (qtrace (set_queue rest s)) with (qtrace s) in Ht1.
      cbn in Hlen.
      destruct (IH (run_item j (set_queue rest s))) as (Hq2 & Hh2 & Ht2).
      * rewrite Hq1. lia.
      * rewrite Hh1. eapply same_kwargs_trans; [exact Hsame|].
        apply kwargs_of_inject.
      * rewrite Hq1, Hh1 in *. split_and!; [done|done|].
        rewrite Ht2, Ht1. cbn. rewrite <- app_assoc.
        by rewrite (job_block_same_kwargs hp0 (heap s) j Hsame).
Qed.

Lemma execute_queue_spec (s : State) :
  queue (execute_queue s) = [] /\
  heap (execute_queue s) = fold_left inject (queue s) (heap s) /\
  qtrace (execute_queue s)
  = qtrace s ++ QDeprecated :: concat (map (job_block (heap s)) (queue s)).
Proof.
  unfold execute_queue.
  destruct (drain_spec (length (queue s)) (emit QDeprecated s) (heap s))
    as (Hq & Hh & Ht); [done|done|].
  cbn in Hh, Ht. split_and!; [done|done|].
  rewrite Ht. by rewrite <- app_assoc.
Qed.

Lemma filter_steps (p : QObs -> bool) (ds : list Z) :
  (forall d, p (QStep d) = false) -> List.filter p (map QStep ds) = [].
Proof.
  intros Hp. induction ds as [|d ds IH]; [done|]. cbn. by rewrite Hp.
Qed.

Lemma calls_steps (ds : list Z) : calls (map QStep ds) = [].
Proof. by induction ds. Qed.

(** The shape of the block of a job whose [args] is a mapping. *)
Lemma job_block_shape (hp : gmap nat (gmap string Value)) (j : Job) :
  is_Some (kwargs_of hp j) ->
  let b := job_block hp j in
  head b = Some (QBeginProgress (name j)) /\
  last b = Some QEndProgress /\
  count is_begin b = 1 /\ count is_end b = 1 /\
  calls b = [j] /\
  (forall kw e, QCall j kw ∈ b -> snd (method j kw) = Some e ->
                QLogException j ∈ b).
Proof.
  intros [d Hd]. unfold job_block. rewrite Hd. cbn zeta.
  assert (forall tl, count is_begin tl = 0 -> count is_end tl = 1 ->
            calls tl = [] -> last tl = Some QEndProgress ->
            let b := QBeginProgress (name j) :: QCall j d
                     :: map QStep (deltas 0 (fst (method j d))) ++ tl in
            last b = Some QEndProgress /\ count is_begin b = 1 /\
            count is_end b = 1 /\ calls b = [j]) as Hshape.
  { intros tl Hb He Hc Hl. cbn zeta. unfold count, calls in *. cbn.
    rewrite !List.filter_app, !length_app, omap_app.
    rewrite !filter_steps by done.
    fold (calls (map QStep (deltas 0 (fst (method j d))))).
    rewrite calls_steps. cbn. rewrite Hb, He, Hc. split_and!; try done.
    by rewrite last_cons, last_app, Hl. }
  split; [done|].
  destruct (snd (method j d)) as [e|] eqn:Hout.
  - destruct (Hshape [QLogException j; QEndProgress])
      as (? & ? & ? & ?); try done.
    split_and!; try done. intros _ _ _ _.
    do 2 (apply elem_of_cons; right). apply elem_of_app. right.
    apply elem_of_cons. by left.
  - destruct (Hshape [QEndProgress]) as (? & ? & ? & ?); try done.
    split_and!; try done. intros kw e.
    intros [?|[Heq|Hin]%elem_of_cons]%elem_of_cons; [done| |].
    + injection Heq as <-. congruence.
    + apply elem_of_app in Hin as [(d' & ? & _)%list_elem_of_fmap
                                  |[?|?%elem_of_nil]%elem_of_cons]; done.
Qed.

Lemma calls_blocks (hp : gmap nat (gmap string Value)) (q : list Job) :
  Forall (fun j => is_Some (kwargs_of hp j)) q ->
  calls (concat (map (job_block hp) q)) = q.
Proof.
  induction 1 as [|j q Hj _ IH]; [done|].
  cbn [map concat]. unfold calls in *. rewrite omap_app, IH.
  destruct (job_block_shape hp j Hj) as (_ & _ & _ & _ & Hc & _).
  unfold calls in Hc. by rewrite Hc.
Qed.

Lemma enqueue_all_spec (js : list Job) (s : State) :
  queue (enqueue_all js s) = queue s ++ js /\
  heap (enqueue_all js s) = heap s.
Proof.
  revert s. induction js as [|j js IH]; intros s.
  - cbn. by rewrite app_nil_r.
  - cbn [enqueue_all fold_left].
    destruct (IH (add_to_queue (name j) (method j) (args j) s)) as [Hq Hh].
    unfold enqueue_all in Hq, Hh. rewrite Hq, Hh. cbn.
    rewrite <- app_assoc. by destruct j.
Qed.

Lemma all_mappings_Forall (hp : gmap nat (gmap string Value)) (js : list Job) :
  all_mappings hp js = true ->
  Forall (fun j => is_Some (kwargs_of hp j)) js.
Proof.
  unfold all_mappings. rewrite forallb_forall, Forall_forall.
  intros Hall j Hj%list_elem_of_In. specialize (Hall j Hj).
  destruct (kwargs_of hp j); [by eexists | done].
Qed.

(** C7: jobs queued one after the other on an empty queue, each with a
    mapping as [args], are in the queue in that order, and draining the
    queue empties it; the trace the drain adds is the deprecation warning
    followed by one block per job, in the order the jobs were queued; each
    block opens with the begin-progress of its job and closes with the
    end-progress, holds exactly one of each and exactly one call, that of
    its job; and when the call raises, the exception is logged inside the
    block, the blocks of the later jobs being there all the same. *)
Theorem execute_queue_fifo_isolated (s0 : State) (js : list Job) :
  queue s0 = [] ->
  all_mappings (heap s0) js = true ->
  let s := enqueue_all js s0 in
  let s' := execute_queue s in
  let blocks := map (job_block (heap s0)) js in
  queue s = js /\
  queue s' = [] /\
  qtrace s' = qtrace s ++ QDeprecated :: concat blocks /\
  calls (concat blocks) = js /\
  Forall2 (fun j b =>
             head b = Some (QBeginProgress (name j)) /\
             last b = Some QEndProgress /\
             count is_begin b = 1 /\ count is_end b = 1 /\
             calls b = [j] /\
             (forall kw e, QCall j kw ∈ b -> snd (method j kw) = Some e ->
                           QLogException j ∈ b))
          js blocks.
Proof.
  intros Hempty Hargs%all_mappings_Forall. cbn zeta.
  destruct (enqueue_all_spec js s0) as [Hq Hh]. rewrite Hempty in Hq.
  cbn in Hq.
  destruct (execute_queue_spec (enqueue_all js s0)) as (Hq' & _ & Ht).
  rewrite Hq, Hh in Ht.
  split_and!; [done|done|done|by apply calls_blocks|].
  apply Forall2_fmap_r, Forall_Forall2_diag.
  eapply Forall_impl; [exact Hargs|]. intros j Hj.
  by apply job_block_shape.
Qed.

Lemma inject_lookup (hp : gmap nat (gmap string Value)) (j : Job) (l : nat) :
  inject hp j !! l = hp !! l \/
  (args j = VDict l /\ inject hp j !! l = with_progress_callback <$> hp !! l).
Proof.
  unfold inject. destruct (args j) as [| | |l'|]; try by left.
  destruct (hp !! l') as [d|] eqn:Hd; [|by left].
  destruct (decide (l' = l)) as [->|Hne].
  - right. by rewrite lookup_insert_eq, Hd.
  - left. by rewrite lookup_insert_ne.
Qed.

Lemma inject_hit (hp : gmap nat (gmap string Value)) (j : Job) (l : nat) :
  args j = VDict l ->
  inject hp j !! l = with_progress_callback <$> hp !! l.
Proof.
  intros Hargs. unfold inject. rewrite Hargs.
  destruct (hp !! l) as [d|] eqn:Hd; [|by rewrite Hd].
  by rewrite lookup_insert_eq.
Qed.

Lemma with_progress_callback_twice (o : option (gmap string Value)) :
  with_progress_callback <$> (with_progress_callback <$> o)
  = with_progress_callback <$> o.
Proof.
  destruct o as [d|]; [|done]. cbn. unfold with_progress_callback.
  by rewrite insert_insert_eq.
Qed.

Lemma inject_fold_lookup (q : list Job) (hp : gmap nat (gmap string Value))
    (l : nat) :
  fold_left inject q hp !! l = hp !! l \/
  fold_left inject q hp !! l = with_progress_callback <$> hp !! l.
Proof.
  revert hp. induction q as [|j q IH]; intros hp; [by left|].
  cbn [fold_left].
  destruct (IH (inject hp j)) as [->| ->];
    destruct (inject_lookup hp j l) as [->|[_ ->]]; auto.
  right. apply with_progress_callback_twice.
Qed.

Lemma inject_fold_other (q : list Job) (hp : gmap nat (gmap string Value))
    (l : nat) :
  (forall j, j ∈ q -> args j <> VDict l) ->
  fold_left inject q hp !! l = hp !! l.
Proof.
  revert hp. induction q as [|j q IH]; intros hp Hq; [done|].
  cbn [fold_left]. rewrite IH.
  - destruct (inject_lookup hp j l) as [->|[Hargs _]]; [done|].
    exfalso. apply (Hq j); [apply elem_of_cons; by left | done].
  - intros j' Hj'. apply Hq. apply elem_of_cons. by right.
Qed.

Lemma inject_fold_hit (q : list Job) (hp : gmap nat (gmap string Value))
    (j : Job) (l : nat) :
  j ∈ q -> args j = VDict l ->
  fold_left inject q hp !! l = with_progress_callback <$> hp !! l.
Proof.
  revert hp. induction q as [|j0 q IH]; intros hp Hin Hargs.
  - by apply elem_of_nil in Hin.
  - cbn [fold_left]. apply elem_of_cons in Hin as [<-|Hin].
    + destruct (inject_fold_lookup q (inject hp j) l) as [->| ->];
        rewrite (inject_hit hp j l Hargs); [done|].
      apply with_progress_callback_twice.
    + rewrite (IH _ Hin Hargs).
      destruct (inject_lookup hp j0 l) as [->|[_ ->]]; [done|].
      apply with_progress_callback_twice.
Qed.

(** C10: [add_to_queue] stores the reference it is given, without copying
    the mapping; after [execute_queue] the mapping behind that reference
    holds [progress_callback], bound to [report_progress], and agrees with
    the mapping the caller passed on every other key; a mapping no queued
    job refers to is as it was. *)
Theorem progress_callback_injected_in_place (s : State) (nm : string)
    (m : Callable) (l : nat) (d : gmap string Value) :
  heap s !! l = Some d ->
  let s1 := add_to_queue nm m (VDict l) s in
  let s2 := execute_queue s1 in
  heap s1 = heap s /\
  queue s1 = queue s ++ [mkJob nm m (VDict l)] /\
  (exists d', heap s2 !! l = Some d' /\
     d' !! "progress_callback" = Some VReportProgress /\
     forall k, k <> "progress_callback" -> d' !! k = d !! k) /\
  (forall l', (forall j, j ∈ queue s1 -> args j <> VDict l') ->
              heap s2 !! l' = heap s !! l').
Proof.
  intros Hd. cbn zeta.
  destruct (execute_queue_spec (add_to_queue nm m (VDict l) s))
    as (_ & Hheap & _).
  change (heap (add_to_queue nm m (VDict l) s)) with (heap s) in *.
  change (queue (add_to_queue nm m (VDict l) s))
    with (queue s ++ [mkJob nm m (VDict l)]) in *.
  split_and!; [done|done| |].
  - exists (with_progress_callback d). rewrite Hheap.
    rewrite (inject_fold_hit _ _ (mkJob nm m (VDict l)) l), Hd.
    + split_and!; [done| |].
      * apply lookup_insert_eq.
      * intros k Hk. unfold with_progress_callback.
        by rewrite lookup_insert_ne.
    + apply elem_of_app. right. by apply list_elem_of_singleton.
    + done.
  - intros l' Hl'. rewrite Hheap. by apply inject_fold_other.
Qed.

End QueueFacts.

(** * The properties on the sample sessions *)

(** The checker of C3 tells the orders apart. *)
Example destroy_before_start_rejects :
  destroy_before_start running_engine false
    [OStartEngine "tk-maya" "/proj" shot_b; ODestroyEnd running_engine] = false
  /\ destroy_before_start running_engine false
       [ODestroyEnd running_engine; OStartEngine "tk-maya" "/proj" shot_b] = true.
Proof. split; reflexivity. Qed.

(** C1 fails as stated: in a session with no engine and the disabled menu
    shown, an event for a new, empty scene makes the callback return with
    no engine running and the disabled menu gone. *)
Lemma new_scene_while_disabled_leaves_neither :
  let run := on_scene_event_callback good_host "tk-maya" None disabled_session in
  exactly_one disabled_session = true /\
  fst run = Ok tt /\
  engine_running (snd run) = false /\
  disabled_indicator_shown (snd run) = false /\
  exactly_one (snd run) = false.
Proof. vm_compute. by split_and!. Qed.

(** The other way round: an engine is running, the scene is outside every
    project, and after the event the engine runs and the disabled menu is
    shown. *)
Example unresolvable_while_running_leaves_both :
  let run := on_scene_event_callback good_host "tk-maya" (Some shot_a)
               (running_session "/elsewhere/x.ma") in
  fst run = Ok tt /\
  engine_running (snd run) = true /\
  disabled_indicator_shown (snd run) = true /\
  exactly_one (snd run) = false.
Proof. vm_compute. by split_and!. Qed.

(** C6 fails as stated: [context_from_path] raises a [KeyError], which is
    neither of the anticipated errors; the callback catches it and returns,
    but the disabled menu is not shown. *)
Lemma unexpected_error_shows_no_indicator :
  let w := fresh_session "/proj/a.ma" in
  let run := on_scene_event_callback broken_host "tk-maya" None w in
  fst (refresh_engine broken_host "tk-maya" None w)
  = Raise (PyException "KeyError") /\
  isinstance_TankError (PyException "KeyError") = false /\
  fst run = Ok tt /\
  disabled_indicator_shown (snd run) = false.
Proof. vm_compute. by split_and!. Qed.

(** With an engine running, the unexpected error leaves it running. *)
Example unexpected_error_keeps_engine :
  let run := on_scene_event_callback broken_host "tk-maya" (Some shot_a)
               (running_session "/proj/b.ma") in
  fst run = Ok tt /\
  current_engine (snd run) = Some running_engine /\
  disabled_indicator_shown (snd run) = false.
Proof. vm_compute. by split_and!. Qed.

(** The constructor of the one-shot watcher is outside the [try] block:
    when Maya refuses the exit callback, the error leaves the callback. *)
Example refused_exit_callback_escapes :
  fst (on_scene_event_callback refusing_host "tk-maya" None disabled_session)
  = Raise (PyException "RuntimeError").
Proof. vm_compute. reflexivity. Qed.

Lemma event_postcondition_witness :
  let w := running_session "/proj/b.ma" in
  let w' := snd (on_scene_event_callback good_host "tk-maya" (Some shot_a) w) in
  on_scene_event_callback good_host "tk-maya" (Some shot_a) w = (Ok tt, w') /\
  exactly_one w' = true.
Proof.
  cbn zeta.
  assert (on_scene_event_callback good_host "tk-maya" (Some shot_a)
            (running_session "/proj/b.ma")
          = (Ok tt, snd (on_scene_event_callback good_host "tk-maya"
                           (Some shot_a) (running_session "/proj/b.ma"))))
    as Hrun by (vm_compute; reflexivity).
  split; [exact Hrun|].
  destruct (event_postcondition _ _ _ _ _ Hrun) as (_ & _ & Hone & _).
  eapply (Hone _ _ "/proj"); [vm_compute; reflexivity | discriminate | reflexivity].
Defined.

Lemma init_error_disables_and_rearms_witness :
  exists w',
    on_scene_event_callback no_environment_host "tk-maya" (Some shot_a)
      (running_session "/proj/b.ma") = (Ok tt, w') /\
    current_engine w' = None /\
    disabled_indicator_shown w' = true.
Proof.
  destruct (init_error_disables_and_rearms no_environment_host "tk-maya"
              (Some shot_a) (running_session "/proj/b.ma") "/proj" shot_b
              (TankEngineInitError "no environment"))
    as (w' & _ & _ & Hrun & Hnone & Hshown & _);
    [discriminate | reflexivity | reflexivity | discriminate
    | vm_compute; reflexivity | reflexivity | reflexivity | reflexivity |].
  exists w'. split; [exact Hrun|]. split; [exact Hnone | exact Hshown].
Defined.

Lemma teardown_completes_before_start_witness :
  let w := running_session "/proj/b.ma" in
  let run := refresh_engine good_host "tk-maya" (Some shot_a) w in
  ODestroyBegin running_engine ∈ new_events w (snd run) /\
  destroy_before_start running_engine false (new_events w (snd run)) = true.
Proof.
  cbn zeta.
  destruct (teardown_completes_before_start good_host "tk-maya" (Some shot_a)
              (running_session "/proj/b.ma") running_engine "/proj" shot_b
              (fst (refresh_engine good_host "tk-maya" (Some shot_a)
                      (running_session "/proj/b.ma")))
              (snd (refresh_engine good_host "tk-maya" (Some shot_a)
                      (running_session "/proj/b.ma"))))
    as (_ & Hbegin & Horder & _);
    [vm_compute; reflexivity | discriminate | reflexivity | reflexivity
    | discriminate | vm_compute; reflexivity |].
  split; [exact Hbegin | exact Horder].
Defined.

Lemma unresolvable_scene_keeps_engine_witness :
  let w := running_session "/elsewhere/x.ma" in
  let run := on_scene_event_callback good_host "tk-maya" (Some shot_a) w in
  current_engine (snd run) = Some running_engine /\
  disabled_indicator_shown (snd run) = true.
Proof.
  cbn zeta.
  destruct (unresolvable_scene_keeps_engine good_host "tk-maya" (Some shot_a)
              (running_session "/elsewhere/x.ma")
              (TankError "not in a Tank project")
              (fst (on_scene_event_callback good_host "tk-maya" (Some shot_a)
                      (running_session "/elsewhere/x.ma")))
              (snd (on_scene_event_callback good_host "tk-maya" (Some shot_a)
                      (running_session "/elsewhere/x.ma"))))
    as (Hkept & Hshown & _);
    [discriminate | reflexivity | reflexivity | vm_compute; reflexivity |].
  split; [|exact Hshown].
  rewrite Hkept. vm_compute. reflexivity.
Defined.

Lemma refresh_engine_empty_scene_witness :
  exists w',
    refresh_engine good_host "tk-maya" (Some shot_a) disabled_session
    = (Ok None, w') /\
    new_events disabled_session w' = [].
Proof.
  destruct (refresh_engine_empty_scene good_host "tk-maya" (Some shot_a)
              disabled_session)
    as (w' & Hrun & _ & Hnew & _); [reflexivity|].
  exists w'. split; [exact Hrun | exact Hnew].
Defined.

Lemma unexpected_error_is_caught_witness :
  exists w',
    on_scene_event_callback broken_host "tk-maya" None
      (fresh_session "/proj/a.ma") = (Ok tt, w') /\
    disabled_indicator_shown w' = false.
Proof.
  destruct (unexpected_error_is_caught broken_host "tk-maya" None
              (fresh_session "/proj/a.ma") (PyException "KeyError")
              (snd (refresh_engine broken_host "tk-maya" None
                      (fresh_session "/proj/a.ma"))))
    as (w' & Hrun & _ & _ & _ & Hshown & _);
    [vm_compute; reflexivity | reflexivity | reflexivity |].
  exists w'. split; [exact Hrun | exact Hshown].
Defined.

Lemma execute_queue_fifo_isolated_witness :
  let s := Queue.enqueue_all Queue.sample_jobs Queue.sample_state in
  Queue.queue s = Queue.sample_jobs /\
  Queue.queue (Queue.execute_queue s) = [] /\
  Queue.calls (concat (map (Queue.job_block Queue.sample_heap)
                           Queue.sample_jobs))
  = Queue.sample_jobs.
Proof.
  cbn zeta.
  destruct (QueueFacts.execute_queue_fifo_isolated Queue.sample_state
              Queue.sample_jobs)
    as (Hq & Hempty & _ & Hcalls & _); [reflexivity | reflexivity |].
  split; [exact Hq|]. split; [exact Hempty | exact Hcalls].
Defined.

Lemma stop_watching_twice_witness :
  exists w1,
    stop_watching 0 (running_session "/proj/a.ma") = (Ok tt, w1) /\
    stop_watching 0 w1 = (Ok tt, w1).
Proof.
  destruct (stop_watching_twice 0 (running_session "/proj/a.ma")
              (mkWatcher [0; 1; 2; 3] ("tk-maya", Some shot_a)
                         default_scene_events false))
    as (w1 & Hfirst & Hsecond & _); [vm_compute; reflexivity|].
  exists w1. split; [exact Hfirst | exact Hsecond].
Defined.

Lemma retry_without_engine_witness :
  exists w1,
    refresh_engine good_host "tk-maya" (Some shot_a)
      (fresh_session "/proj/a.ma")
    = create_new_engine good_host "tk-maya" "/proj" shot_a w1.
Proof.
  destruct (retry_without_engine good_host "tk-maya" shot_a
              (fresh_session "/proj/a.ma") "/proj")
    as (w1 & _ & Heq & _);
    [reflexivity | discriminate | reflexivity | reflexivity |].
  exists w1. exact Heq.
Defined.

Lemma progress_callback_injected_in_place_witness :
  exists d',
    Queue.heap (Queue.execute_queue
                  (Queue.add_to_queue "publish" (fun _ => ([], None))
                     (Queue.VDict 0) Queue.sample_state)) !! 0 = Some d' /\
    d' !! "progress_callback" = Some Queue.VReportProgress /\
    d' !! "path" = Some (Queue.VStr "/proj/a.ma").
Proof.
  destruct (QueueFacts.progress_callback_injected_in_place Queue.sample_state
              "publish" (fun _ => ([], None)) 0
              (<["path" := Queue.VStr "/proj/a.ma"]> ∅))
    as (_ & _ & (d' & Hd' & Hkey & Hrest) & _); [vm_compute; reflexivity|].
  exists d'. split; [exact Hd'|]. split; [exact Hkey|].
  rewrite Hrest; [vm_compute; reflexivity | discriminate].
Defined.

(** * Further properties *)

(** ** Well-formed sessions *)

Lemma session_ok_spec (w : World) :
  session_ok w = true <->
  (forall id r, callbacks w !! id = Some r -> id < next_msg_id w) /\
  (forall wid x, watchers w !! wid = Some x ->
     wid < next_watcher w /\
     Forall (fun id => id < next_msg_id w) (message_ids x)).
Proof.
  unfold session_ok. rewrite andb_true_iff, !forallb_forall. split.
  - intros [Hcb Hws]. split.
    + intros id r Hr. apply Nat.ltb_lt.
      apply (Hcb (id, r)), list_elem_of_In. by apply elem_of_map_to_list.
    + intros wid x Hx.
      assert (In (wid, x) (map_to_list (watchers w))) as Hin
        by (apply list_elem_of_In; by apply elem_of_map_to_list).
      apply Hws in Hin. cbn in Hin. apply andb_true_iff in Hin as [Hlt Hids].
      split; [by apply Nat.ltb_lt|].
      apply Forall_forall. intros id Hid%list_elem_of_In.
      rewrite forallb_forall in Hids. by apply Nat.ltb_lt, Hids.
  - intros [Hcb Hws]. split.
    + intros [id r] Hin%list_elem_of_In%elem_of_map_to_list. cbn.
      apply Nat.ltb_lt. by eapply Hcb.
    + intros [wid x] Hin%list_elem_of_In%elem_of_map_to_list. cbn.
      destruct (Hws wid x Hin) as [Hlt Hids].
      apply andb_true_iff. split; [by apply Nat.ltb_lt|].
      apply forallb_forall. intros id Hid%list_elem_of_In.
      rewrite Forall_forall in Hids. by apply Nat.ltb_lt, Hids.
Qed.

(** ** SceneEventWatcher, exactly *)

Lemma watcher_eta (x : Watcher) :
  mkWatcher (message_ids x) (cb_fn x) (scene_events x) (run_once x) = x.
Proof. by destruct x. Qed.

(** The loop over the scene events hands out consecutive ids, one per
    accepted event, and touches nothing else. *)
Lemma subscribe_loop_exact (h : Host) (wid : nat) (evs : list EventKind)
    (w : World) (r : result unit) (w' : World) (x : Watcher) :
  for_each evs (subscribe_scene_event h wid) w = (r, w') ->
  watchers w !! wid = Some x ->
  exists k,
    next_msg_id w' = next_msg_id w + k /\
    next_watcher w' = next_watcher w /\
    watchers w' !! wid
    = Some (mkWatcher (message_ids x ++ seq (next_msg_id w) k) (cb_fn x)
                      (scene_events x) (run_once x)) /\
    (forall wid', wid' <> wid -> watchers w' !! wid' = watchers w !! wid') /\
    (forall id, id < next_msg_id w \/ next_msg_id w + k <= id ->
                callbacks w' !! id = callbacks w !! id) /\
    (forall id, next_msg_id w <= id < next_msg_id w + k ->
       exists ev, ev ∈ evs /\
         callbacks w' !! id = Some (mkRegistration ev scene_event_cb wid)) /\
    k <= count_accepted h evs /\
    (r = Ok tt -> k = count_accepted h evs) /\
    (refusals_are_exceptions h evs = true -> r = Ok tt).
Proof.
  revert w x. induction evs as [|ev evs IH]; intros w x Hrun Hx.
  - cbn in Hrun. injection Hrun as <- <-. exists 0.
    rewrite Nat.add_0_r, app_nil_r, watcher_eta.
    split_and!; try done. intros id Hid. lia.
  - cbn [for_each] in Hrun. unfold bind in Hrun.
    rewrite (subscribe_scene_event_spec h wid ev w x Hx) in Hrun.
    unfold count_accepted, accepted, refusals_are_exceptions in *.
    cbn [List.filter forallb].
    destruct (addCallback_result h ev) as [e|] eqn:Hres; cbn [is_Some_bool negb].
    + destruct (isinstance_Exception e).
      * destruct (IH w x Hrun Hx) as (k & ? & ? & ? & ? & ? & Hreg & ? & ? & ?).
        exists k. split_and!; try done.
        intros id Hid. destruct (Hreg id Hid) as (ev' & ? & ?).
        exists ev'. split; [apply elem_of_cons; by right | done].
      * injection Hrun as <- <-. exists 0.
        rewrite Nat.add_0_r, app_nil_r, watcher_eta.
        split_and!; try done; try lia.
    + assert (watchers (after_subscribe ev scene_event_cb wid x w) !! wid
              = Some (mkWatcher (message_ids x ++ [next_msg_id w]) (cb_fn x)
                                (scene_events x) (run_once x))) as Hx'
        by (cbn; apply lookup_insert_eq).
      destruct (IH _ _ Hrun Hx')
        as (k & Hn & Hnw & Hw & Hother & Hout & Hreg & Hle & Hok & Hret).
      cbn in Hn, Hnw, Hw, Hother, Hout, Hreg.
      exists (S k). split_and!.
      * lia.
      * done.
      * rewrite Hw. do 2 f_equal. rewrite <- app_assoc. by cbn.
      * intros wid' Hne. rewrite (Hother wid' Hne).
        by rewrite lookup_insert_ne.
      * intros id Hid. rewrite Hout by lia. rewrite lookup_insert_ne; [done|lia].
      * intros id Hid. destruct (decide (id = next_msg_id w)) as [->|Hne].
        -- exists ev. split; [apply elem_of_cons; by left|].
           rewrite Hout by lia. apply lookup_insert_eq.
        -- destruct (Hreg id) as (ev' & ? & ?); [lia|].
           exists ev'. split; [apply elem_of_cons; by right | done].
      * cbn. lia.
      * intros Hr. cbn. by rewrite (Hok Hr).
      * done.
Qed.

(** The loop stops early only on an error that is not an [Exception]. *)
Lemma subscribe_loop_raises (h : Host) (wid : nat) (evs : list EventKind)
    (w : World) (r : result unit) (w' : World) :
  for_each evs (subscribe_scene_event h wid) w = (r, w') ->
  forall e, r = Raise e ->
    exists ev, ev ∈ evs /\ addCallback_result h ev = Some e /\
               isinstance_Exception e = false.
Proof.
  revert w. induction evs as [|ev evs IH]; intros w Hrun e ->.
  - discriminate Hrun.
  - cbn [for_each] in Hrun. unfold bind in Hrun.
    destruct (subscribe_scene_event h wid ev w) as [[[]|e'] w1] eqn:Hstep.
    + destruct (IH w1 Hrun e eq_refl) as (ev' & ? & ? & ?).
      exists ev'. split; [apply elem_of_cons; by right | done].
    + injection Hrun as <- <-. exists ev. split; [apply elem_of_cons; by left|].
      unfold subscribe_scene_event, try_except, addCallback in Hstep.
      destruct (addCallback_result h ev) as [e0|]; [|discriminate Hstep].
      destruct (isinstance_Exception e0) eqn:Hcls; [discriminate Hstep|].
      by injection Hstep as <- <-.
Qed.

(** [start_watching], exactly: the ids held before are removed from Maya's
    table, and the watcher then holds the consecutive ids handed out for
    the accepted scene events and for the exit callback. *)
Lemma start_watching_exact (h : Host) (wid : nat) (w : World)
    (r : result unit) (w' : World) (x : Watcher) :
  start_watching h wid w = (r, w') ->
  watchers w !! wid = Some x ->
  exists k,
    next_msg_id w' = next_msg_id w + k /\
    next_watcher w' = next_watcher w /\
    (scene_name w' = scene_name w /\ current_engine w' = current_engine w /\
     menus w' = menus w /\
     trace w' = trace w ++ map ORemoveCallback (message_ids x)) /\
    watchers w' !! wid
    = Some (mkWatcher (seq (next_msg_id w) k) (cb_fn x) (scene_events x)
                      (run_once x)) /\
    (forall wid', wid' <> wid -> watchers w' !! wid' = watchers w !! wid') /\
    (forall id, id < next_msg_id w \/ next_msg_id w + k <= id ->
       callbacks w' !! id
       = if bool_decide (id ∈ message_ids x) then None else callbacks w !! id) /\
    (forall id, next_msg_id w <= id < next_msg_id w + k ->
       exists r0, callbacks w' !! id = Some r0 /\ reg_watcher r0 = wid) /\
    match r with
    | Ok _ =>
        k = count_accepted h (scene_events x) + 1 /\
        addCallback_result h kMayaExiting = None /\
        callbacks w' !! (next_msg_id w + count_accepted h (scene_events x))
        = Some (mkRegistration kMayaExiting maya_exiting_cb wid)
    | Raise e =>
        k <= count_accepted h (scene_events x) /\
        (refusals_are_exceptions h (scene_events x) = true ->
         addCallback_result h kMayaExiting = Some e /\
         k = count_accepted h (scene_events x)) /\
        (addCallback_result h kMayaExiting = Some e \/
         isinstance_Exception e = false)
    end.
Proof.
  intros Hrun Hx. unfold start_watching in Hrun. unfold bind at 1 in Hrun.
  rewrite (stop_watching_spec wid w x Hx) in Hrun.
  unfold bind at 1 in Hrun. unfold get_watcher at 1 in Hrun.
  cbn [watchers] in Hrun. rewrite lookup_insert_eq in Hrun.
  unfold bind at 1 in Hrun. cbn [scene_events] in Hrun.
  match type of Hrun with
  | context [for_each _ _ ?w1] => set (w1' := w1) in Hrun
  end.
  destruct (for_each (scene_events x) (subscribe_scene_event h wid) w1')
    as [r1 w2] eqn:Hloop.
  assert (watchers w1' !! wid
          = Some (mkWatcher [] (cb_fn x) (scene_events x) (run_once x)))
    as Hx1 by (cbn; apply lookup_insert_eq).
  destruct (subscribe_loop_exact h wid _ w1' r1 w2 _ Hloop Hx1)
    as (k & Hn & Hnw & Hw & Hother & Hout & Hreg & Hle & Hok & Hret).
  pose proof (subscribe_loop_raises h wid _ w1' r1 w2 Hloop) as Hraise.
  destruct (subscribe_loop h wid _ w1' r1 w2 _ Hloop Hx1)
    as (Hs & He & Hm & Ht & _); [unfold ids_below; rewrite Hx1; constructor|].
  cbn in Hn, Hnw, Hw, Hother, Hout, Hreg, Hs, He, Hm, Ht.
  assert (forall id, id < next_msg_id w \/ next_msg_id w + k <= id ->
            callbacks w2 !! id
            = if bool_decide (id ∈ message_ids x) then None
              else callbacks w !! id) as Hout'.
  { intros id Hid. rewrite (Hout id Hid). apply remove_all_lookup. }
  assert (forall wid', wid' <> wid -> watchers w2 !! wid' = watchers w !! wid')
    as Hother'.
  { intros wid' Hne. rewrite (Hother wid' Hne). by rewrite lookup_insert_ne. }
  assert (forall id, next_msg_id w <= id < next_msg_id w + k ->
            exists r0, callbacks w2 !! id = Some r0 /\ reg_watcher r0 = wid)
    as Hreg'.
  { intros id Hid. destruct (Hreg id Hid) as (ev & _ & ->). by eexists. }
  destruct r1 as [[]|e].
  - specialize (Hok eq_refl). unfold bind, addCallback in Hrun.
    destruct (addCallback_result h kMayaExiting) as [e|] eqn:Hexit.
    + injection Hrun as <- <-. exists k.
      split_and!; try done. by left.
    + unfold set_message_ids, set_watchers in Hrun. cbn in Hrun.
      rewrite Hw in Hrun. cbn in Hrun. injection Hrun as <- <-. cbn.
      exists (S k). split_and!; try done.
      * lia.
      * rewrite lookup_insert_eq. do 2 f_equal.
        rewrite Hn. replace (S k) with (k + 1) by lia.
        by rewrite seq_app.
      * intros wid' Hne. rewrite lookup_insert_ne by done. by apply Hother'.
      * intros id Hid. rewrite lookup_insert_ne by lia. apply Hout'. lia.
      * intros id Hid. destruct (decide (id = next_msg_id w2)) as [->|Hne].
        -- rewrite lookup_insert_eq. by eexists.
        -- rewrite lookup_insert_ne by done. apply Hreg'. lia.
      * lia.
      * rewrite <- Hok, <- Hn. apply lookup_insert_eq.
  - injection Hrun as <- <-. exists k. split_and!; try done.
    + intros Hsafe. by specialize (Hret Hsafe).
    + right. by destruct (Hraise e eq_refl) as (_ & _ & _ & ?).
Qed.

(** ** What no operation of the module does to a session *)

Lemma evolves_refl (w : World) : evolves w w.
Proof.
  unfold evolves. split_and!; try done.
  - exists []. by rewrite app_nil_r.
  - intros wid x _ Hx. exists x. split_and!; try done. by left.
Qed.

Lemma evolves_trans (w1 w2 w3 : World) :
  evolves w1 w2 -> evolves w2 w3 -> evolves w1 w3.
Proof.
  intros (Hs1 & [t1 Ht1] & Hn1 & Hnw1 & Hok1 & Hcb1 & Hw1)
         (Hs2 & [t2 Ht2] & Hn2 & Hnw2 & Hok2 & Hcb2 & Hw2).
  unfold evolves. split_and!.
  - congruence.
  - exists (t1 ++ t2). by rewrite Ht2, Ht1, app_assoc.
  - lia.
  - lia.
  - auto.
  - intros id r Hid Hr. apply Hcb1; [done|]. apply Hcb2; [lia|done].
  - intros wid x Hlt Hx.
    destruct (Hw1 wid x Hlt Hx) as (x' & Hx' & Hcb' & Hon' & Hev' & Hids').
    destruct (Hw2 wid x') as (x'' & Hx'' & Hcb'' & Hon'' & Hev'' & Hids'');
      [lia|done|].
    exists x''. split_and!; try congruence.
    destruct Hids'' as [->| ->]; [done | by right].
Qed.

(** A step that leaves the callbacks, the watchers and the counters alone. *)
Lemma evolves_frame (w w' : World) (t : list Obs) :
  scene_name w' = scene_name w -> trace w' = trace w ++ t ->
  callbacks w' = callbacks w -> watchers w' = watchers w ->
  next_msg_id w' = next_msg_id w -> next_watcher w' = next_watcher w ->
  evolves w w'.
Proof.
  intros Hs Ht Hc Hw Hn Hnw. unfold evolves. split_and!; try done; try lia.
  - by exists t.
  - unfold session_ok. by rewrite Hc, Hw, Hn, Hnw.
  - intros id r _. by rewrite Hc.
  - intros wid x _ Hx. exists x. rewrite Hw. split_and!; try done. by left.
Qed.

Lemma keeps_ret {A} (a : A) : keeps (ret a).
Proof. intros w r w' [= <- <-]. apply evolves_refl. Qed.

Lemma keeps_raise {A} (e : exn) : keeps (@raise A e).
Proof. intros w r w' [= <- <-]. apply evolves_refl. Qed.

Lemma keeps_bind {A B} (m : M A) (k : A -> M B) :
  keeps m -> (forall a, keeps (k a)) -> keeps (bind m k).
Proof.
  intros Hm Hk w r w'. unfold bind.
  destruct (m w) as [[a|e] w1] eqn:Hrun; intros Hrest.
  - eapply evolves_trans; [by eapply Hm | by eapply Hk].
  - injection Hrest as <- <-. by eapply Hm.
Qed.

Lemma keeps_try_except {A B} (m : M A) (cls : exn -> bool)
    (handler : exn -> M B) (k : A -> M B) :
  keeps m -> (forall e, keeps (handler e)) -> (forall a, keeps (k a)) ->
  keeps (try_except m cls handler k).
Proof.
  intros Hm Hh Hk w r w'. unfold try_except.
  destruct (m w) as [[a|e] w1] eqn:Hrun; intros Hrest.
  - eapply evolves_trans; [by eapply Hm | by eapply Hk].
  - destruct (cls e).
    + eapply evolves_trans; [by eapply Hm | by eapply Hh].
    + injection Hrest as <- <-. by eapply Hm.
Qed.

Lemma keeps_for_each {A} (l : list A) (body : A -> M unit) :
  (forall a, keeps (body a)) -> keeps (for_each l body).
Proof.
  intros Hbody. induction l as [|a l IH]; cbn [for_each].
  - apply keeps_ret.
  - by apply keeps_bind.
Qed.

Lemma keeps_observe (o : Obs) : keeps (observe o).
Proof. intros w r w' [= <- <-]. by eapply evolves_frame. Qed.

Lemma keeps_set_current_engine (e : option Engine) :
  keeps (set_current_engine e).
Proof.
  intros w r w' [= <- <-]. apply (evolves_frame _ _ []); try done.
  cbn. by rewrite app_nil_r.
Qed.

Lemma keeps_set_menus (f : gset string -> gset string) : keeps (set_menus f).
Proof.
  intros w r w' [= <- <-]. apply (evolves_frame _ _ []); try done.
  cbn. by rewrite app_nil_r.
Qed.

Lemma keeps_get_current_engine : keeps get_current_engine.
Proof. intros w r w' [= <- <-]. apply evolves_refl. Qed.

Lemma keeps_sceneName : keeps sceneName.
Proof. intros w r w' [= <- <-]. apply evolves_refl. Qed.

Lemma keeps_menu_exists (name : string) : keeps (menu_exists name).
Proof. intros w r w' [= <- <-]. apply evolves_refl. Qed.

Lemma keeps_log_debug (b : bool) (m : LogMsg) : keeps (log_debug b m).
Proof. destruct b; [apply keeps_observe | apply keeps_ret]. Qed.

Create HintDb keeps.
#[local] Hint Resolve keeps_ret keeps_raise keeps_observe
  keeps_set_current_engine keeps_set_menus keeps_get_current_engine
  keeps_sceneName keeps_menu_exists keeps_log_debug : keeps.

(** Takes a computation apart along its binds, handlers and branches. *)
Ltac keeps_step :=
  first
    [ solve [auto with keeps]
    | match goal with
      | |- keeps (bind _ _) => apply keeps_bind; [|intros ?]
      | |- keeps (try_except _ _ _ _) =>
          apply keeps_try_except; [|intros ?|intros ?]
      | |- keeps (for_each _ _) => apply keeps_for_each; intros ?
      | |- keeps (if ?b then _ else _) => destruct b
      | |- keeps (match ?o with _ => _ end) => destruct o
      end ].

Ltac keeps_auto := repeat keeps_step.

(** The constructor of a watcher, exactly. *)
Lemma SceneEventWatcher_exact (h : Host) (cb : CbFn) (evs : list EventKind)
    (once : bool) (w : World) (r : result nat) (w' : World) :
  SceneEventWatcher h cb evs once w = (r, w') ->
  exists k,
    next_msg_id w' = next_msg_id w + k /\
    next_watcher w' = S (next_watcher w) /\
    watchers w' !! next_watcher w
    = Some (mkWatcher (seq (next_msg_id w) k) cb evs once) /\
    (forall wid', wid' <> next_watcher w ->
                  watchers w' !! wid' = watchers w !! wid') /\
    (forall id, id < next_msg_id w \/ next_msg_id w + k <= id ->
                callbacks w' !! id = callbacks w !! id) /\
    (forall id, next_msg_id w <= id < next_msg_id w + k ->
       exists r0, callbacks w' !! id = Some r0 /\
                  reg_watcher r0 = next_watcher w) /\
    match r with
    | Ok wid => wid = next_watcher w /\ k = count_accepted h evs + 1
    | Raise e => k <= count_accepted h evs
    end.
Proof.
  unfold SceneEventWatcher. set (wid := next_watcher w).
  set (w1 := mkWorld _ _ _ _ _ _ _ _). unfold bind.
  destruct (start_watching h wid w1) as [r1 w2] eqn:Hstart.
  assert (watchers w1 !! wid = Some (mkWatcher [] cb evs once)) as Hx
    by (cbn; apply lookup_insert_eq).
  destruct (start_watching_exact h wid w1 r1 w2 _ Hstart Hx)
    as (k & Hn & Hnw & _ & Hw & Hother & Hout & Hreg & Hr).
  cbn in Hn, Hnw, Hw, Hother, Hout, Hreg, Hr.
  assert (forall id, id < next_msg_id w \/ next_msg_id w + k <= id ->
                     callbacks w2 !! id = callbacks w !! id) as Hout'.
  { intros id Hid. rewrite (Hout id Hid).
    rewrite bool_decide_eq_false_2; [done|]. by intros ?%elem_of_nil. }
  assert (forall wid', wid' <> wid -> watchers w2 !! wid' = watchers w !! wid')
    as Hother'.
  { intros wid' Hne. rewrite (Hother wid' Hne). by rewrite lookup_insert_ne. }
  destruct r1 as [[]|e]; intros [= <- <-]; exists k; split_and!; try done.
  - by destruct Hr.
  - by destruct Hr.
Qed.

Lemma keeps_SceneEventWatcher (h : Host) (cb : CbFn) (evs : list EventKind)
    (once : bool) :
  keeps (SceneEventWatcher h cb evs once).
Proof.
  intros w r w' Hrun.
  pose proof (SceneEventWatcher_spec _ _ _ _ _ _ _ Hrun) as (Hs & _ & _ & Ht & _).
  destruct (SceneEventWatcher_exact _ _ _ _ _ _ _ Hrun)
    as (k & Hn & Hnw & Hw & Hother & Hout & Hreg & _).
  unfold evolves. split_and!; try done; try lia.
  - exists []. by rewrite app_nil_r.
  - rewrite !session_ok_spec. intros [Hcb Hws]. split.
    + intros id r0 Hr0.
      destruct (decide (id < next_msg_id w \/ next_msg_id w + k <= id))
        as [Hid|Hid]; [|lia].
      rewrite (Hout id Hid) in Hr0. apply Hcb in Hr0. lia.
    + intros wid x Hx. destruct (decide (wid = next_watcher w)) as [->|Hne].
      * rewrite Hw in Hx. injection Hx as <-. split; [lia|]. cbn.
        apply Forall_forall. intros id Hid%list_elem_of_In%in_seq. lia.
      * rewrite (Hother wid Hne) in Hx. destruct (Hws wid x Hx) as [? Hids].
        split; [lia|]. eapply Forall_impl; [exact Hids|]. cbn. lia.
  - intros id r0 Hid. rewrite Hout; [done | by left].
  - intros wid x Hlt Hx. exists x. rewrite Hother by lia.
    split_and!; try done. by left.
Qed.

Lemma keeps_stop_watching (wid : nat) : keeps (stop_watching wid).
Proof.
  intros w r w' Hrun.
  destruct (watchers w !! wid) as [x|] eqn:Hx.
  2:{ unfold stop_watching, bind, get_watcher in Hrun. rewrite Hx in Hrun.
      injection Hrun as <- <-. apply evolves_refl. }
  rewrite (stop_watching_spec wid w x Hx) in Hrun. injection Hrun as <- <-.
  unfold evolves. cbn. split_and!; try done.
  - by eexists.
  - rewrite !session_ok_spec. cbn. intros [Hcb Hws]. split.
    + intros id r0. rewrite remove_all_lookup. case_bool_decide; [done|].
      apply Hcb.
    + intros wid' x'. destruct (decide (wid' = wid)) as [->|Hne].
      * rewrite lookup_insert_eq. intros [= <-]. cbn.
        split; [by eapply Hws | constructor].
      * rewrite lookup_insert_ne by done. apply Hws.
  - intros id r0 _. rewrite remove_all_lookup. by case_bool_decide.
  - intros wid' x' _ Hx'. destruct (decide (wid' = wid)) as [->|Hne].
    + rewrite lookup_insert_eq. eexists. split; [done|].
      assert (x' = x) as -> by congruence. cbn. split_and!; try done. by right.
    + rewrite lookup_insert_ne by done. exists x'.
      split_and!; try done. by left.
Qed.

#[local] Hint Resolve keeps_SceneEventWatcher keeps_stop_watching : keeps.

Lemma keeps_deleteUI (name : string) : keeps (deleteUI name).
Proof. apply keeps_set_menus. Qed.

Lemma keeps_create_menu (name : string) : keeps (create_menu name).
Proof. apply keeps_set_menus. Qed.

#[local] Hint Resolve keeps_deleteUI keeps_create_menu : keeps.

Lemma keeps_create_tank_disabled_menu : keeps create_tank_disabled_menu.
Proof. unfold create_tank_disabled_menu. keeps_auto. Qed.

Lemma keeps_reset_disabled_menu : keeps reset_disabled_menu.
Proof. unfold reset_disabled_menu. keeps_auto. Qed.

Lemma keeps_init_engine (h : Host) (n : string) (c : Context) :
  keeps (init_engine h n c).
Proof. unfold init_engine. keeps_auto. Qed.

Lemma keeps_post_app_init (h : Host) : keeps (post_app_init h).
Proof. unfold post_app_init. keeps_auto. Qed.

Lemma keeps_destroy_engine (e : Engine) : keeps (destroy_engine e).
Proof. unfold destroy_engine. keeps_auto. Qed.

#[local] Hint Resolve keeps_create_tank_disabled_menu
  keeps_reset_disabled_menu keeps_init_engine keeps_post_app_init
  keeps_destroy_engine : keeps.

Lemma keeps_start_engine (h : Host) (n : string) (tk : Tk) (c : Context) :
  keeps (start_engine h n tk c).
Proof. unfold start_engine. keeps_auto. Qed.

Lemma keeps_destroy (h : Host) (e : Engine) : keeps (destroy h e).
Proof. unfold destroy. keeps_auto. Qed.

Lemma keeps_call_tank_from_path (h : Host) (p : string) :
  keeps (call_tank_from_path h p).
Proof. unfold call_tank_from_path. keeps_auto. Qed.

Lemma keeps_call_context_from_path (h : Host) (tk : Tk) (p : string)
    (pc : option Context) :
  keeps (call_context_from_path h tk p pc).
Proof. unfold call_context_from_path. keeps_auto. Qed.

#[local] Hint Resolve keeps_start_engine keeps_destroy
  keeps_call_tank_from_path keeps_call_context_from_path : keeps.

Lemma keeps_create_new_engine (h : Host) (en : string) (tk : Tk)
    (ctx : Context) :
  keeps (create_new_engine h en tk ctx).
Proof. unfold create_new_engine, displayInfo. keeps_auto. Qed.

Lemma keeps_tear_down_existing (h : Host) (pc : option Context)
    (cur : option Engine) (ctx : Context) :
  keeps (tear_down_existing h pc cur ctx).
Proof. unfold tear_down_existing. keeps_auto. Qed.

#[local] Hint Resolve keeps_create_new_engine keeps_tear_down_existing : keeps.

Lemma keeps_refresh_engine (h : Host) (en : string) (pc : option Context) :
  keeps (refresh_engine h en pc).
Proof. unfold refresh_engine, switch_engine, displayInfo. keeps_auto. Qed.

#[local] Hint Resolve keeps_refresh_engine : keeps.

Lemma keeps_on_scene_event_callback (h : Host) (en : string)
    (pc : option Context) :
  keeps (on_scene_event_callback h en pc).
Proof. unfold on_scene_event_callback, displayError. keeps_auto. Qed.

(** ** SceneEventWatcher: restart, refusal, round trip *)

(** X1: [start_watching] on a watcher that is already watching, in a
    well-formed session where Maya takes the exit callback and refuses
    scene events only with an [Exception]: it returns, every id the watcher
    held is gone from Maya's table, and the watcher now holds one new id
    per accepted scene event plus one, all distinct, none of them an old
    one, each registered for this watcher; callback and [run_once] are as
    before. *)
Theorem start_watching_replaces_subscriptions (h : Host) (wid : nat)
    (w : World) (x : Watcher) :
  session_ok w = true ->
  watchers w !! wid = Some x ->
  accepted h kMayaExiting = true ->
  refusals_are_exceptions h (scene_events x) = true ->
  exists w' x',
    start_watching h wid w = (Ok tt, w') /\
    watchers w' !! wid = Some x' /\
    cb_fn x' = cb_fn x /\ run_once x' = run_once x /\
    length (message_ids x') = count_accepted h (scene_events x) + 1 /\
    NoDup (message_ids x') /\
    (forall id, id ∈ message_ids x -> callbacks w' !! id = None) /\
    (forall id, id ∈ message_ids x' ->
       (id ∉ message_ids x) /\
       exists r0, callbacks w' !! id = Some r0 /\ reg_watcher r0 = wid).
Proof.
  intros Hok Hx Hexit Hsafe.
  apply session_ok_spec in Hok as [_ Hws].
  destruct (Hws wid x Hx) as [_ Hbelow]. rewrite Forall_forall in Hbelow.
  destruct (start_watching h wid w) as [r w'] eqn:Hrun.
  destruct (start_watching_exact h wid w r w' x Hrun Hx)
    as (k & Hn & Hnw & _ & Hw & _ & Hout & Hreg & Hr).
  destruct r as [[]|e].
  2:{ destruct Hr as (_ & Hraise & _). destruct (Hraise Hsafe) as [Habs _].
      unfold accepted in Hexit. by rewrite Habs in Hexit. }
  destruct Hr as (Hk & _ & _).
  eexists w', _. split_and!; try done; cbn.
  - rewrite length_seq. lia.
  - apply NoDup_ListNoDup, seq_NoDup.
  - intros id Hid. rewrite Hout by (left; by apply Hbelow).
    by rewrite bool_decide_eq_true_2.
  - intros id Hid%list_elem_of_In%in_seq. split.
    + intros Hold%Hbelow. lia.
    + apply Hreg. lia.
Qed.

(** X2: the exit callback is subscribed outside the guarded loop: when
    Maya refuses it (and refuses scene events only with an [Exception]),
    [start_watching] raises that error, and the subscriptions made for the
    accepted scene events stay in Maya's table, held by the watcher. *)
Theorem start_watching_exit_refused (h : Host) (wid : nat) (w : World)
    (x : Watcher) (e : exn) :
  watchers w !! wid = Some x ->
  addCallback_result h kMayaExiting = Some e ->
  refusals_are_exceptions h (scene_events x) = true ->
  exists w' x',
    start_watching h wid w = (Raise e, w') /\
    watchers w' !! wid = Some x' /\
    length (message_ids x') = count_accepted h (scene_events x) /\
    (forall id, id ∈ message_ids x' ->
       exists r0, callbacks w' !! id = Some r0 /\ reg_watcher r0 = wid).
Proof.
  intros Hx Hexit Hsafe.
  destruct (start_watching h wid w) as [r w'] eqn:Hrun.
  destruct (start_watching_exact h wid w r w' x Hrun Hx)
    as (k & Hn & Hnw & _ & Hw & _ & Hout & Hreg & Hr).
  destruct r as [[]|e'].
  { destruct Hr as (_ & Habs & _). congruence. }
  destruct Hr as (_ & Hraise & _). destruct (Hraise Hsafe) as [He Hk].
  assert (e' = e) as -> by congruence.
  eexists w', _. split_and!; try done; cbn.
  - rewrite length_seq. lia.
  - intros id Hid%list_elem_of_In%in_seq. apply Hreg. lia.
Qed.

(** X3: in a well-formed session, constructing a watcher and then stopping
    it leaves Maya's callback table exactly as it was before the
    construction, and the watcher holds no id. *)
Theorem watcher_round_trip (h : Host) (cb : CbFn) (evs : list EventKind)
    (once : bool) (w : World) (wid : nat) (w1 : World) :
  session_ok w = true ->
  SceneEventWatcher h cb evs once w = (Ok wid, w1) ->
  exists w2,
    stop_watching wid w1 = (Ok tt, w2) /\
    callbacks w2 = callbacks w /\
    (message_ids <$> watchers w2 !! wid) = Some [].
Proof.
  intros Hok Hrun. apply session_ok_spec in Hok as [Hcb _].
  destruct (SceneEventWatcher_exact _ _ _ _ _ _ _ Hrun)
    as (k & Hn & Hnw & Hw & _ & Hout & _ & -> & _).
  eexists. split; [by apply stop_watching_spec|]. cbn. split.
  - apply map_eq. intros id. rewrite remove_all_lookup. cbn.
    case_bool_decide as Hin.
    + apply list_elem_of_In, in_seq in Hin.
      destruct (callbacks w !! id) as [r0|] eqn:Hr0; [|done].
      apply Hcb in Hr0. lia.
    + apply Hout. rewrite list_elem_of_In, in_seq in Hin. lia.
  - by rewrite lookup_insert_eq.
Qed.

(** ** What Maya's events do to a session *)

Lemma keeps_scene_event_callback (h : Host) (wid : nat) :
  keeps (scene_event_callback h wid).
Proof.
  unfold scene_event_callback, get_watcher.
  apply keeps_bind; [|intros x; apply keeps_bind; [|intros _]].
  - intros w r w'. destruct (watchers w !! wid); intros [= <- <-];
      apply evolves_refl.
  - destruct (run_once x); auto with keeps.
  - apply keeps_on_scene_event_callback.
Qed.

(** X4: whatever a scene event does through one of the module's watchers
    (and whatever the exit event does), the session evolves: a well-formed
    session stays well-formed, the scene name is not changed, the trace
    is only added to, no id handed out earlier gets a callback again, and
    the watchers that existed keep their callback, events and [run_once]
    and hold the ids they held or none. *)
Theorem maya_events_keep_session (h : Host) (wid : nat) (w : World)
    (r : result unit) (w' : World) :
  scene_event_callback h wid w = (r, w') \/
  maya_exiting_callback wid w = (r, w') ->
  evolves w w'.
Proof.
  intros [Hrun|Hrun].
  - by eapply keeps_scene_event_callback.
  - by eapply keeps_stop_watching.
Qed.

(** X5: a one-shot watcher fires once: after Maya has called its callback
    in a well-formed session, whatever the outcome, none of the ids it
    held is in Maya's table and the watcher holds no id. *)
Theorem one_shot_fires_once (h : Host) (wid : nat) (x : Watcher) (w : World)
    (r : result unit) (w' : World) :
  session_ok w = true ->
  watchers w !! wid = Some x ->
  run_once x = true ->
  scene_event_callback h wid w = (r, w') ->
  (forall id, id ∈ message_ids x -> callbacks w' !! id = None) /\
  (message_ids <$> watchers w' !! wid) = Some [].
Proof.
  intros Hok Hx Hon Hrun.
  pose proof Hok as [_ Hws]%session_ok_spec.
  destruct (Hws wid x Hx) as [Hlt Hbelow]. rewrite Forall_forall in Hbelow.
  rewrite (one_shot_fires h wid x w Hx Hon) in Hrun. unfold bind in Hrun.
  rewrite (stop_watching_spec wid w x Hx) in Hrun.
  match type of Hrun with
  | context [on_scene_event_callback _ _ _ ?w1] => set (w1' := w1) in Hrun
  end.
  destruct (keeps_on_scene_event_callback _ _ _ _ _ _ Hrun)
    as (_ & _ & _ & _ & _ & Hcb & Hw).
  split.
  - intros id Hid. destruct (callbacks w' !! id) as [r0|] eqn:Hr0; [|done].
    apply Hcb in Hr0; [|by apply Hbelow]. cbn in Hr0.
    rewrite remove_all_lookup in Hr0. by rewrite bool_decide_eq_true_2 in Hr0.
  - destruct (Hw wid (mkWatcher [] (cb_fn x) (scene_events x) (run_once x)))
      as (x' & -> & _ & _ & _ & Hids); [done | cbn; apply lookup_insert_eq |].
    cbn in *. by destruct Hids as [->| ->].
Qed.

(** X6: what leaves [on_scene_event_callback]: an error comes out of the
    callback only if it does not derive from [Exception], or if it is the
    error with which Maya refused the exit callback of the one-shot
    watcher. *)
Theorem what_escapes_the_callback (h : Host) (en : string)
    (pc : option Context) (w : World) (e : exn) (w' : World) :
  on_scene_event_callback h en pc w = (Raise e, w') ->
  isinstance_Exception e = false \/
  addCallback_result h kMayaExiting = Some e.
Proof.
  unfold on_scene_event_callback. unfold bind at 1. unfold try_except.
  assert (forall w1 r w2,
            (SceneEventWatcher h (en, pc) default_scene_events true >> ret tt) w1
            = (r, w2) -> r = Raise e ->
            isinstance_Exception e = false \/
            addCallback_result h kMayaExiting = Some e) as Hsew.
  { intros w1 r0 w2. unfold bind. unfold SceneEventWatcher at 1.
    set (w0 := mkWorld _ _ _ _ _ _ _ _). unfold bind.
    destruct (start_watching h (next_watcher w1) w0) as [[[]|e'] w3] eqn:Hstart;
      intros [= <- <-]; [done|]. intros [= ->].
    destruct (start_watching_exact h _ w0 _ _
                (mkWatcher [] (en, pc) default_scene_events true) Hstart)
      as (k & _ & _ & _ & _ & _ & _ & _ & _ & _ & [?|?]);
      [cbn; apply lookup_insert_eq | by right | by left]. }
  destruct (refresh_engine h en pc w) as [[[eng|]|x] w1]; cbn [ret].
  - discriminate.
  - intros Hrun. by eapply Hsew.
  - destruct (isinstance_Exception x) eqn:Hcls.
    + unfold bind at 1. cbn [displayError observe ret]. intros Hrun.
      by eapply Hsew.
    + intros [= <- <-]. by left.
Qed.

(** ** MayaEngine: the hooks on their own *)

(** A debug message changes nothing but the trace. *)
Ltac step_log_debug b m w Hrun w1 :=
  let Hc := fresh "Hc" in
  let Hw := fresh "Hw" in
  let Hnw := fresh "Hnw" in
  let Hn := fresh "Hn" in
  let Hm := fresh "Hm" in
  unfold bind at 1 in Hrun;
  destruct (log_debug_spec b m w)
    as (w1 & Hlog & _ & Hm & Hc & Hw & Hnw & Hn & _);
  rewrite Hlog in Hrun; clear Hlog.

(** X7: [init_engine] refuses to start on an operating system other than
    mac, win64 and linux64, in a Maya whose version does not begin with
    2012 or 2013, and for a context without a project: it raises a
    [TankError] before any watcher is created, so the callbacks and the
    watchers are as they were. *)
Theorem init_engine_refuses (h : Host) (n : string) (c : Context) (w : World) :
  supported_os (operating_system h) = false \/
  supported_maya (maya_version h) = false \/
  project c = None ->
  exists msg w',
    init_engine h n c w = (Raise (TankError msg), w') /\
    callbacks w' = callbacks w /\ watchers w' = watchers w /\
    next_watcher w' = next_watcher w /\ menus w' = menus w.
Proof.
  intros Hbad.
  destruct (init_engine h n c w) as [r w'] eqn:Hrun.
  unfold init_engine in Hrun.
  step_log_debug (setting_debug_logging h n) Initializing w Hrun w1.
  unfold bind at 1 in Hrun.
  destruct (supported_os (operating_system h)) eqn:Hos; cbn [ret raise] in Hrun.
  2:{ injection Hrun as <- <-. eexists _, _. by split_and!. }
  unfold bind at 1 in Hrun.
  destruct (supported_maya (maya_version h)) eqn:Hmaya; cbn [raise] in Hrun.
  2:{ injection Hrun as <- <-. eexists _, _. by split_and!. }
  destruct (log_debug_spec (setting_debug_logging h n)
              (RunningMayaVersion (maya_version h)) w1)
    as (w2 & Hlog & _ & Hm2 & Hc2 & Hw2 & Hnw2 & _).
  rewrite Hlog in Hrun. clear Hlog. unfold bind at 1 in Hrun.
  destruct (project c) eqn:Hproject; cbn [raise] in Hrun.
  { by destruct Hbad as [?|[?|?]]. }
  injection Hrun as <- <-. eexists _, _. split_and!; [done|congruence..].
Qed.

(** [init_engine], exactly, when it returns. *)
Lemma init_engine_exact (h : Host) (n : string) (c : Context) (w : World)
    (wid : nat) (w' : World) :
  init_engine h n c w = (Ok wid, w') ->
  exists k,
    wid = next_watcher w /\
    next_msg_id w' = next_msg_id w + k /\
    next_watcher w' = S (next_watcher w) /\
    watchers w' !! wid
    = Some (mkWatcher (seq (next_msg_id w) k) (n, Some c)
                      default_scene_events false) /\
    (forall wid', wid' <> wid -> watchers w' !! wid' = watchers w !! wid') /\
    (forall id, id < next_msg_id w \/ next_msg_id w + k <= id ->
                callbacks w' !! id = callbacks w !! id) /\
    k = count_accepted h default_scene_events + 1.
Proof.
  intros Hrun. unfold init_engine in Hrun.
  step_log_debug (setting_debug_logging h n) Initializing w Hrun w1.
  unfold bind at 1 in Hrun.
  destruct (supported_os (operating_system h)); cbn [ret raise] in Hrun;
    [|discriminate Hrun].
  unfold bind at 1 in Hrun.
  destruct (supported_maya (maya_version h)); cbn [raise] in Hrun;
    [|discriminate Hrun].
  destruct (log_debug_spec (setting_debug_logging h n)
              (RunningMayaVersion (maya_version h)) w1)
    as (w2 & Hlog & _ & _ & Hc2 & Hw2 & Hnw2 & Hn2 & _).
  rewrite Hlog in Hrun. clear Hlog. unfold bind at 1 in Hrun.
  destruct (project c); cbn [ret raise] in Hrun; [|discriminate Hrun].
  unfold bind at 1 in Hrun.
  destruct (set_project_result h c); cbn [ret raise] in Hrun;
    [discriminate Hrun|].
  unfold bind at 1 in Hrun.
  destruct (SceneEventWatcher h (n, Some c) default_scene_events false w2)
    as [[wid'|e] w3] eqn:Hsew; [|discriminate Hrun].
  destruct (SceneEventWatcher_exact _ _ _ _ _ _ _ Hsew)
    as (k & Hn3 & Hnw3 & Hw3 & Hother & Hout & _ & -> & Hk).
  unfold bind in Hrun.
  destruct (log_debug_spec (setting_debug_logging h n) RegisteredCallbacks w3)
    as (w4 & Hlog & _ & _ & Hc4 & Hw4 & Hnw4 & Hn4 & _).
  rewrite Hlog in Hrun. cbn in Hrun. injection Hrun as <- <-.
  exists k. rewrite Hw4, Hc4, Hnw4, Hn4, Hnw3, Hn3.
  rewrite Hnw2, Hnw, Hn2, Hn, Hw2, Hw, Hc2, Hc in *.
  by split_and!.
Qed.

(** [destroy_engine], exactly, up to the menu. *)
Lemma destroy_engine_exact (eng : Engine) (w : World) (r : result unit)
    (w' : World) (x : Watcher) :
  watchers w !! engine_watcher eng = Some x ->
  destroy_engine eng w = (r, w') ->
  callbacks w' = remove_all (message_ids x) (callbacks w) /\
  watchers w'
  = <[engine_watcher eng := mkWatcher [] (cb_fn x) (scene_events x)
                                      (run_once x)]> (watchers w) /\
  next_msg_id w' = next_msg_id w /\ next_watcher w' = next_watcher w /\
  match menu_handle eng with
  | Some m => r = Ok tt /\ menus w' = menus w ∖ {[m]}
  | None => r = Raise (PyException "AttributeError: _menu_handle") /\
            menus w' = menus w
  end.
Proof.
  intros Hx Hrun. unfold destroy_engine in Hrun.
  step_log_debug (debug_logging eng) Destroying w Hrun w1.
  unfold bind at 1 in Hrun.
  rewrite (stop_watching_spec _ w1 x) in Hrun by (by rewrite Hw).
  destruct (menu_handle eng) as [m|].
  - unfold bind, menu_exists in Hrun. cbn in Hrun.
    case_bool_decide as Hin; cbn in Hrun; injection Hrun as <- <-; cbn;
      rewrite Hc, Hw, Hm; split_and!; try done.
    rewrite Hm in Hin.
    symmetry. apply difference_disjoint_L. by apply disjoint_singleton_r.
  - injection Hrun as <- <-. cbn. rewrite Hc, Hw, Hm. by split_and!.
Qed.

(** X8: in a well-formed session, what [init_engine] subscribes,
    [destroy_engine] unsubscribes: after the two, whether or not the
    removal of the menu succeeds, Maya's callback table is exactly as
    before [init_engine], and the engine's watcher holds no id. *)
Theorem engine_hooks_round_trip (h : Host) (n : string) (c : Context)
    (w : World) (wid : nat) (w1 : World) (eng : Engine) (r : result unit)
    (w2 : World) :
  session_ok w = true ->
  init_engine h n c w = (Ok wid, w1) ->
  engine_watcher eng = wid ->
  destroy_engine eng w1 = (r, w2) ->
  callbacks w2 = callbacks w /\
  (message_ids <$> watchers w2 !! wid) = Some [].
Proof.
  intros Hok Hinit <- Hdestroy. apply session_ok_spec in Hok as [Hcb _].
  destruct (init_engine_exact _ _ _ _ _ _ Hinit)
    as (k & _ & Hn & _ & Hx & _ & Hout & _).
  destruct (destroy_engine_exact eng w1 r w2 _ Hx Hdestroy)
    as (Hc2 & Hw2 & _).
  split.
  - rewrite Hc2. apply map_eq. intros id. rewrite remove_all_lookup. cbn.
    case_bool_decide as Hin.
    + apply list_elem_of_In, in_seq in Hin.
      destruct (callbacks w !! id) as [r0|] eqn:Hr0; [|done].
      apply Hcb in Hr0. lia.
    + apply Hout. rewrite list_elem_of_In, in_seq in Hin. lia.
  - rewrite Hw2. by rewrite lookup_insert_eq.
Qed.

(** X9: an engine whose [post_app_init] ran without a user interface has
    no [_menu_handle]; [destroy_engine] on it stops the watcher (the ids
    it held are gone from Maya's table, and it holds none) and then
    raises, leaving the menus as they were. *)
Theorem destroy_engine_without_menu (eng : Engine) (w : World) (x : Watcher) :
  menu_handle eng = None ->
  watchers w !! engine_watcher eng = Some x ->
  exists w',
    destroy_engine eng w
    = (Raise (PyException "AttributeError: _menu_handle"), w') /\
    (forall id, id ∈ message_ids x -> callbacks w' !! id = None) /\
    (message_ids <$> watchers w' !! engine_watcher eng) = Some [] /\
    menus w' = menus w.
Proof.
  intros Hmenu Hx. destruct (destroy_engine eng w) as [r w'] eqn:Hrun.
  destruct (destroy_engine_exact eng w r w' x Hx Hrun)
    as (Hc & Hw & _ & _ & Hr).
  rewrite Hmenu in Hr. destruct Hr as [-> Hm].
  exists w'. split_and!; try done.
  - intros id Hid. rewrite Hc, remove_all_lookup.
    by rewrite bool_decide_eq_true_2.
  - rewrite Hw. by rewrite lookup_insert_eq.
Qed.

(** ** refresh_engine: more of its paths *)

(** X10: the no-rebuild shortcut: with an engine running and a scene that
    resolves to the previous context, the callback returns with the same
    engine current; it has made the two calls to the Tank API and nothing
    else is observed; the callbacks and the watchers are untouched, and
    the only menu that can have gone is the disabled one. *)
Theorem unchanged_context_keeps_engine (h : Host) (en : string)
    (ctx : Context) (w : World) (eng : Engine) (tk : Tk) :
  current_engine w = Some eng ->
  scene_name w <> "" ->
  tank_from_path h (abspath h (scene_name w)) = Ok tk ->
  context_from_path h tk (abspath h (scene_name w)) (Some ctx) = Ok ctx ->
  let p := abspath h (scene_name w) in
  exists w',
    on_scene_event_callback h en (Some ctx) w = (Ok tt, w') /\
    current_engine w' = Some eng /\
    callbacks w' = callbacks w /\ watchers w' = watchers w /\
    menus w' = menus w ∖ {["TankMenuDisabled"]} /\
    new_events w w' = [OTankFromPath p; OContextFromPath tk p (Some ctx)].
Proof.
  intros Hcur Hname Htank Hctx p.
  destruct (refresh_engine_resolved h en (Some ctx) w tk Hname Htank)
    as (w1 & (Hs1 & He1 & Hc1 & Hw1 & Hnw1 & Hm1 & Hshown1 & Ht1) & Heq).
  rewrite Hctx, Hcur in Heq. cbn [is_Some_bool andb] in Heq.
  rewrite bool_decide_eq_true_2 in Heq by done.
  exists w1. split_and!; try done; try congruence.
  - unfold on_scene_event_callback, bind, try_except. by rewrite Heq.
  - by apply new_events_extends.
Qed.

Lemma refresh_engine_unresolvable_menus (h : Host) (en : string)
    (pc : option Context) (w : World) (e : exn) :
  scene_name w <> "" ->
  tank_from_path h (abspath h (scene_name w)) = Raise e ->
  isinstance_TankError e = true ->
  exists w1,
    refresh_engine h en pc w = (Ok (current_engine w), w1) /\
    current_engine w1 = current_engine w /\
    menus w1 = {["TankMenuDisabled"]}
               ∪ ((menus w ∖ {["TankMenuDisabled"]}) ∖ {["TankMenu"]}).
Proof.
  intros Hname Htank Hcls. refresh_prelude w w1.
  rewrite bool_decide_eq_false_2 by done.
  unfold try_except, call_tank_from_path. unfold bind at 1. cbn [observe].
  rewrite Htank. cbn [raise]. rewrite Hcls.
  unfold bind at 1. cbn [displayInfo observe]. unfold bind.
  match goal with |- context [create_tank_disabled_menu ?w0] =>
    destruct (create_tank_disabled_menu_spec w0)
      as (w2 & -> & _ & He2 & _ & _ & _ & _ & _ & Hm2 & _)
  end.
  cbn in *. exists w2. split_and!; [done|congruence|]. by rewrite Hm2, Hm1.
Qed.

(** X11: the Tank menu is lost on a detour: an engine is running, the user
    opens a scene outside every project and then a scene of the engine's
    own context; both callbacks return, the engine is still current, and
    the session shows neither the Tank menu nor the disabled menu. *)
Theorem tank_menu_lost_after_detour (h : Host) (en : string) (ctx : Context)
    (w : World) (eng : Engine) (e : exn) (name2 : string) (tk : Tk) :
  current_engine w = Some eng ->
  scene_name w <> "" ->
  tank_from_path h (abspath h (scene_name w)) = Raise e ->
  isinstance_TankError e = true ->
  name2 <> "" ->
  tank_from_path h (abspath h name2) = Ok tk ->
  context_from_path h tk (abspath h name2) (Some ctx) = Ok ctx ->
  exists w1 w2,
    on_scene_event_callback h en (Some ctx) w = (Ok tt, w1) /\
    on_scene_event_callback h en (Some ctx) (open_scene name2 w1)
    = (Ok tt, w2) /\
    current_engine w2 = Some eng /\
    ("TankMenu" ∉ menus w2) /\ ("TankMenuDisabled" ∉ menus w2).
Proof.
  intros Hcur Hname Htank Hcls Hname2 Htank2 Hctx2.
  destruct (refresh_engine_unresolvable_menus h en (Some ctx) w e
              Hname Htank Hcls) as (w1 & Hrun1 & He1 & Hm1).
  destruct (refresh_engine_resolved h en (Some ctx) (open_scene name2 w1) tk)
    as (w2 & (_ & He2 & _ & _ & _ & Hm2 & _) & Heq); [done..|].
  cbn [scene_name open_scene current_engine menus] in Heq, He2, Hm2.
  rewrite Hctx2, He1, Hcur in Heq. cbn [is_Some_bool andb] in Heq.
  rewrite bool_decide_eq_true_2 in Heq by done.
  exists w1, w2. split_and!.
  - unfold on_scene_event_callback, bind, try_except.
    by rewrite Hrun1, Hcur.
  - unfold on_scene_event_callback, bind, try_except. by rewrite Heq.
  - congruence.
  - rewrite Hm2, Hm1. intros [[Hin|Hin]%elem_of_union _]%elem_of_difference.
    + by apply elem_of_singleton in Hin.
    + apply elem_of_difference in Hin as [_ Hne]. apply Hne.
      by apply elem_of_singleton.
  - rewrite Hm2. intros [_ Hne]%elem_of_difference. apply Hne.
    by apply elem_of_singleton.
Qed.

Lemma destroy_exact (h : Host) (eng : Engine) (w w' : World) :
  destroy h eng w = (Ok tt, w') ->
  exists x,
    watchers w !! engine_watcher eng = Some x /\
    callbacks w' = remove_all (message_ids x) (callbacks w) /\
    watchers w'
    = <[engine_watcher eng := mkWatcher [] (cb_fn x) (scene_events x)
                                        (run_once x)]> (watchers w) /\
    next_msg_id w' = next_msg_id w /\ next_watcher w' = next_watcher w.
Proof.
  unfold destroy. unfold bind at 1. cbn [observe]. unfold bind at 1.
  destruct (destroy_core h eng); cbn [ret raise]; [discriminate|].
  unfold bind at 1.
  match goal with |- context [destroy_engine eng ?w0] => set (w0' := w0) end.
  destruct (destroy_engine eng w0') as [[[]|e] w1] eqn:Hde; [|discriminate].
  destruct (watchers w !! engine_watcher eng) as [x|] eqn:Hx.
  - destruct (destroy_engine_exact eng w0' _ w1 x Hx Hde)
      as (Hc & Hw & Hn & Hnw & _).
    cbn. intros [= <-]. cbn. exists x. by split_and!.
  - exfalso. unfold destroy_engine in Hde. unfold bind at 1 in Hde.
    destruct (log_debug_spec (debug_logging eng) Destroying w0')
      as (w2 & Hlog & _ & _ & _ & Hw2 & _).
    rewrite Hlog in Hde. unfold bind at 1 in Hde.
    unfold stop_watching, bind, get_watcher in Hde.
    rewrite Hw2 in Hde. cbn in Hde. by rewrite Hx in Hde.
Qed.

Lemma tear_down_existing_exact (h : Host) (pc : option Context)
    (eng : Engine) (ctx : Context) (w w' : World) :
  tear_down_existing h pc (Some eng) ctx w = (Ok tt, w') ->
  exists x,
    watchers w !! engine_watcher eng = Some x /\
    callbacks w' = remove_all (message_ids x) (callbacks w) /\
    watchers w'
    = <[engine_watcher eng := mkWatcher [] (cb_fn x) (scene_events x)
                                        (run_once x)]> (watchers w) /\
    next_msg_id w' = next_msg_id w /\ next_watcher w' = next_watcher w.
Proof.
  intros Hrun. unfold tear_down_existing in Hrun.
  step_log_debug (debug_logging eng) ReadyToSwitch w Hrun w1.
  unfold bind at 1 in Hrun.
  destruct (log_debug_spec (debug_logging eng) (PrevContext pc) w1)
    as (w2 & Hlog & _ & _ & Hc2 & Hw2 & Hnw2 & Hn2 & _).
  rewrite Hlog in Hrun. clear Hlog. unfold bind at 1 in Hrun.
  destruct (log_debug_spec (debug_logging eng) (NewContext ctx) w2)
    as (w3 & Hlog & _ & _ & Hc3 & Hw3 & Hnw3 & Hn3 & _).
  rewrite Hlog in Hrun. clear Hlog.
  destruct (destroy_exact h eng w3 w' Hrun) as (x & Hx & ? & ? & ? & ?).
  exists x. rewrite Hw3, Hw2, Hw, Hc3, Hc2, Hc, Hn3, Hn2, Hn, Hnw3, Hnw2, Hnw in *.
  by split_and!.
Qed.

Lemma start_engine_watcher (h : Host) (n : string) (tk : Tk) (c : Context)
    (w : World) (e : Engine) (w' : World) :
  start_engine h n tk c w = (Ok e, w') ->
  engine_watcher e = next_watcher w.
Proof.
  unfold start_engine. unfold bind at 1. cbn [observe]. unfold bind at 1.
  destruct (start_engine_core h n tk c); cbn [ret raise]; [discriminate|].
  unfold bind at 1.
  match goal with |- context [init_engine h n c ?w0] => set (w0' := w0) end.
  destruct (init_engine h n c w0') as [[wid|x] w1] eqn:Hinit; [|discriminate].
  destruct (init_engine_exact _ _ _ _ _ _ Hinit) as (k & -> & _).
  unfold post_app_init. destruct (batch h); cbn; by intros [= <- <-].
Qed.

(** [refresh_engine_resolved], with the counter of message ids. *)
Lemma refresh_engine_resolved_ids (h : Host) (en : string)
    (pc : option Context) (w : World) (tk : Tk) :
  scene_name w <> "" ->
  tank_from_path h (abspath h (scene_name w)) = Ok tk ->
  let p := abspath h (scene_name w) in
  exists w1,
    (current_engine w1 = current_engine w /\
     callbacks w1 = callbacks w /\ watchers w1 = watchers w /\
     next_watcher w1 = next_watcher w /\ next_msg_id w1 = next_msg_id w /\
     menus w1 = menus w ∖ {["TankMenuDisabled"]} /\
     trace w1 = trace w ++ [OTankFromPath p; OContextFromPath tk p pc]) /\
    refresh_engine h en pc w =
    match context_from_path h tk p pc with
    | Raise e => (Raise e, w1)
    | Ok ctx =>
        if is_Some_bool (current_engine w) && bool_decide (Some ctx = pc)
        then (Ok (current_engine w), w1)
        else switch_engine h en pc (current_engine w) tk ctx w1
    end.
Proof.
  intros Hname Htank p. refresh_prelude w w0.
  rewrite bool_decide_eq_false_2 by done.
  unfold try_except, call_tank_from_path. unfold bind at 1. cbn [observe].
  rewrite Htank. cbn [ret]. unfold bind at 1.
  unfold call_context_from_path. unfold bind at 1. cbn [observe].
  eexists. split;
    [|destruct (context_from_path h tk _ pc); cbn;
      [destruct (_ && _)|]; reflexivity].
  cbn. split_and!; try done.
  rewrite Ht1. by rewrite <- app_assoc.
Qed.

(** X12: a successful switch: in a well-formed session with an engine
    running, when the scene resolves to another context and
    [refresh_engine] returns a new engine, that engine is current, has the
    new context and the engine name, and its own, armed watcher, which is
    not the old engine's; none of the ids the old engine's watcher held is
    in Maya's table, and that watcher holds no id. *)
Theorem switch_unsubscribes_old_engine (h : Host) (en : string)
    (pc : option Context) (w : World) (eng : Engine) (x : Watcher) (tk : Tk)
    (ctx : Context) (e' : Engine) (w' : World) :
  session_ok w = true ->
  current_engine w = Some eng ->
  watchers w !! engine_watcher eng = Some x ->
  scene_name w <> "" ->
  tank_from_path h (abspath h (scene_name w)) = Ok tk ->
  context_from_path h tk (abspath h (scene_name w)) pc = Ok ctx ->
  Some ctx <> pc ->
  refresh_engine h en pc w = (Ok (Some e'), w') ->
  current_engine w' = Some e' /\ context e' = ctx /\ instance_name e' = en /\
  engine_watcher e' <> engine_watcher eng /\
  armed h w' (engine_watcher e') = true /\
  (forall id, id ∈ message_ids x -> callbacks w' !! id = None) /\
  (message_ids <$> watchers w' !! engine_watcher eng) = Some [].
Proof.
  intros Hok Hcur Hx Hname Htank Hctx Hchanged Hrun.
  pose proof Hok as [_ Hws]%session_ok_spec.
  destruct (Hws _ x Hx) as [Hlt Hbelow]. rewrite Forall_forall in Hbelow.
  destruct (refresh_engine_resolved_ids h en pc w tk Hname Htank)
    as (w1 & (He1 & Hc1 & Hw1 & Hnw1 & Hn1 & Hm1 & Ht1) & Heq).
  rewrite Hctx, Hcur in Heq.
  rewrite (bool_decide_eq_false_2 _ Hchanged), andb_false_r in Heq.
  rewrite Heq in Hrun. unfold switch_engine, bind in Hrun.
  destruct (tear_down_existing h pc (Some eng) ctx w1) as [[[]|e0] w2] eqn:Htear;
    [|discriminate Hrun].
  destruct (tear_down_existing_exact _ _ _ _ _ _ Htear)
    as (x1 & Hx1 & Hc2 & Hw2 & Hn2 & Hnw2).
  rewrite Hw1, Hx in Hx1. injection Hx1 as <-.
  pose proof (keeps_tear_down_existing _ _ _ _ _ _ _ Htear)
    as (_ & _ & _ & _ & _ & _ & _).
  pose proof (keeps_create_new_engine _ _ _ _ _ _ _ Hrun)
    as (_ & _ & _ & _ & _ & Hcb & Hwk).
  pose proof (create_new_engine_inv _ _ _ _ _ _ _ Hrun)
    as (t2 & _ & _ & He' & Hn' & Hc' & _ & _ & Harmed).
  assert (engine_watcher e' = next_watcher w2) as Hwid.
  { unfold create_new_engine, try_except in Hrun.
    destruct (start_engine h en tk ctx w2) as [[e1|x1] w3] eqn:Hstart.
    - pose proof (start_engine_watcher _ _ _ _ _ _ _ Hstart) as Hew.
      unfold bind in Hrun.
      destruct (log_debug_spec (debug_logging e1) LaunchedNewEngine w3)
        as (w4 & Hlog & _).
      rewrite Hlog in Hrun. cbn in Hrun. by injection Hrun as <- <-.
    - destruct (isinstance_TankEngineInitError x1); [|discriminate Hrun].
      unfold bind at 1 in Hrun. cbn [displayInfo observe] in Hrun.
      unfold bind in Hrun.
      match type of Hrun with context [create_tank_disabled_menu ?w0] =>
        destruct (create_tank_disabled_menu_spec w0) as (w4 & Hmenu & _)
      end.
      rewrite Hmenu in Hrun. discriminate Hrun. }
  split_and!; try done.
  - rewrite Hwid, Hnw2, Hnw1. lia.
  - intros id Hid. destruct (callbacks w' !! id) as [r0|] eqn:Hr0; [|done].
    apply Hcb in Hr0; [|rewrite Hn2, Hn1; by apply Hbelow].
    rewrite Hc2, remove_all_lookup in Hr0.
    by rewrite bool_decide_eq_true_2 in Hr0.
  - destruct (Hwk (engine_watcher eng)
                (mkWatcher [] (cb_fn x) (scene_events x) (run_once x)))
      as (x' & -> & _ & _ & _ & Hids).
    + rewrite Hnw2, Hnw1. lia.
    + rewrite Hw2. apply lookup_insert_eq.
    + cbn in *. by destruct Hids as [->| ->].
Qed.

(** X13: an unexpected error while an engine is running leaves two
    watchers on the same event: in a well-formed session where the
    engine's watcher is subscribed to a scene event, when
    [context_from_path] raises an [Exception], the callback returns with
    the engine still current and its watcher still subscribed, and with a
    second, one-shot watcher subscribed to the same event. *)
Theorem unexpected_error_arms_second_watcher (h : Host) (en : string)
    (pc : option Context) (w : World) (eng : Engine) (tk : Tk) (e : exn)
    (ev : EventKind) :
  session_ok w = true ->
  current_engine w = Some eng ->
  subscribed w (engine_watcher eng) ev scene_event_cb = true ->
  scene_name w <> "" ->
  tank_from_path h (abspath h (scene_name w)) = Ok tk ->
  context_from_path h tk (abspath h (scene_name w)) pc = Raise e ->
  isinstance_Exception e = true ->
  subscriptions_safe h = true ->
  In ev default_scene_events ->
  accepted h ev = true ->
  exists w' wid x',
    on_scene_event_callback h en pc w = (Ok tt, w') /\
    current_engine w' = Some eng /\
    wid <> engine_watcher eng /\
    watchers w' !! wid = Some x' /\ run_once x' = true /\
    cb_fn x' = (en, pc) /\
    subscribed w' (engine_watcher eng) ev scene_event_cb = true /\
    subscribed w' wid ev scene_event_cb = true.
Proof.
  intros Hok Hcur Hsub Hname Htank Hctx Hcls Hsafe Hev Hacc.
  pose proof Hok as [_ Hws]%session_ok_spec.
  apply subscribed_true in Hsub as (x0 & id & Hx0 & Hid & Hreg).
  destruct (Hws _ x0 Hx0) as [Hlt Hbelow]. rewrite Forall_forall in Hbelow.
  destruct (refresh_engine_resolved_ids h en pc w tk Hname Htank)
    as (w1 & (He1 & Hc1 & Hw1 & Hnw1 & Hn1 & Hm1 & Ht1) & Heq).
  rewrite Hctx in Heq.
  unfold on_scene_event_callback. unfold bind at 1. unfold try_except.
  rewrite Heq, Hcls. unfold bind at 1. cbn [displayError observe ret].
  match goal with
  | |- context [bind (SceneEventWatcher _ _ _ _) _ ?w0] => set (w1' := w0)
  end.
  destruct (SceneEventWatcher_returns h (en, pc) true w1' Hsafe) as [w' Hsew].
  pose proof (SceneEventWatcher_spec _ _ _ _ _ _ _ Hsew)
    as (_ & He' & _ & _ & Hnew).
  destruct (Hnew _ eq_refl) as (_ & (x' & Hx' & Hcb' & Hon') & _ & Hsubs).
  destruct (SceneEventWatcher_exact _ _ _ _ _ _ _ Hsew)
    as (k & _ & _ & _ & Hother & Hout & _).
  subst w1'.
  cbn [next_watcher next_msg_id watchers callbacks current_engine]
    in Hx', Hother, Hout, He'.
  exists w', (next_watcher w1), x'. split_and!; try done.
  - unfold bind. by rewrite Hsew.
  - congruence.
  - lia.
  - apply subscribed_true. exists x0, id. split_and!; [|done|].
    + rewrite Hother by lia. by rewrite Hw1.
    + rewrite Hout, Hc1; [done|]. left. rewrite Hn1. by apply Hbelow.
  - apply Hsubs; [by apply list_elem_of_In | done].
Qed.

(** ** The engine queue: progress, failures, reuse *)

Module QueueMore.
Import Queue.

Lemma qnew_app (s s' : State) (t : list QObs) :
  qtrace s' = qtrace s ++ t -> qnew s s' = t.
Proof. unfold qnew. intros ->. apply drop_app_length. Qed.

Lemma steps_of_steps (ds : list Z) : steps (map QStep ds) = ds.
Proof.
  unfold steps. induction ds as [|d ds IH]; [done|]. cbn. by rewrite IH.
Qed.

Lemma last_cons_default (p d : Z) (rest : list Z) :
  List.last (p :: rest) d = List.last rest p.
Proof.
  revert p d. induction rest as [|q rest IH]; intros p d; [done|].
  change (List.last (p :: q :: rest) d) with (List.last (q :: rest) d).
  by rewrite (IH q d), (IH q p).
Qed.

Lemma total_deltas (current : Z) (percents : list Z) :
  total (deltas current percents) = (List.last percents current - current)%Z.
Proof.
  revert current. induction percents as [|p rest IH]; intros current.
  - cbn. lia.
  - cbn [deltas total fold_right]. fold (total (deltas p rest)). rewrite IH.
    rewrite last_cons_default. lia.
Qed.

(** X14: the steps relayed to the progress bar add up: a job that is
    called, whatever progress the engine had recorded before, moves the bar
    by steps whose sum is the last percentage the job reported (nothing if
    it reported none), and the engine then records that percentage. *)
Theorem run_item_progress_adds_up (j : Job) (s : State)
    (d : gmap string Value) :
  kwargs_of (heap s) j = Some d ->
  let s' := run_item j s in
  total (steps (qnew s s')) = List.last (fst (method j d)) 0%Z /\
  current_progress s' = List.last (fst (method j d)) 0%Z.
Proof.
  intros Hd. cbn zeta. split.
  - destruct (QueueFacts.run_item_spec j s) as (_ & _ & Ht).
    rewrite (qnew_app _ _ _ Ht). unfold job_block. rewrite Hd.
    unfold steps. cbn. rewrite omap_app.
    fold (steps (map QStep (deltas 0 (fst (method j d))))).
    rewrite steps_of_steps.
    replace (omap _ _) with (@nil Z) by (by destruct (snd (method j d))).
    rewrite app_nil_r, total_deltas. lia.
  - unfold kwargs_of in Hd. unfold run_item, process, setitem, call.
    destruct (args j) as [| | |l|]; try discriminate Hd.
    destruct (heap s !! l) as [d0|] eqn:Hd0; [|discriminate Hd].
    cbn in Hd. injection Hd as <-. cbn. rewrite Hd0. cbn.
    rewrite lookup_insert_eq.
    rewrite QueueFacts.report_progress_fold. cbn.
    fold (with_progress_callback d0).
    by destruct (snd (method j (with_progress_callback d0))).
Qed.

Lemma block_counts (hp : gmap nat (gmap string Value)) (j : Job) :
  count is_begin (job_block hp j) = 1 /\
  count is_end (job_block hp j) = 1 /\
  calls (job_block hp j) = (if is_called hp j then [j] else []) /\
  logged (job_block hp j) = (if fails hp j then [j] else []).
Proof.
  unfold job_block, is_called, fails.
  destruct (kwargs_of hp j) as [d|]; [|done].
  unfold count, calls, logged. cbn.
  rewrite !List.filter_app, !length_app, !omap_app.
  rewrite !QueueFacts.filter_steps by done.
  fold (calls (map QStep (deltas 0 (fst (method j d))))).
  rewrite QueueFacts.calls_steps.
  replace (omap _ (map QStep (deltas 0 (fst (method j d))))) with (@nil Job)
    by (by induction (deltas 0 (fst (method j d)))).
  by destruct (snd (method j d)).
Qed.

Lemma blocks_counts (hp : gmap nat (gmap string Value)) (q : list Job) :
  let t := concat (map (job_block hp) q) in
  count is_begin t = length q /\ count is_end t = length q /\
  calls t = List.filter (is_called hp) q /\
  logged t = List.filter (fails hp) q.
Proof.
  induction q as [|j q IH]; [done|]. cbn zeta in *. cbn [map concat].
  destruct IH as (Hb & He & Hc & Hl).
  destruct (block_counts hp j) as (Hb1 & He1 & Hc1 & Hl1).
  unfold count, calls, logged in *.
  rewrite !List.filter_app, !length_app, !omap_app.
  rewrite Hb, He, Hc, Hl, Hb1, He1, Hc1, Hl1. cbn [List.filter length].
  split_and!; [lia | lia | |].
  - by destruct (is_called hp j).
  - by destruct (fails hp j).
Qed.

(** X15: whatever is in the queue, [execute_queue] empties it and gives
    every job its begin-progress and its end-progress, one each; the jobs
    that are called are those whose [args] is a mapping, in queue order (a
    job queued with anything else is never called), and the jobs whose
    failure is logged are exactly those that were not called or whose call
    raised. *)
Theorem execute_queue_ends_every_job (s : State) :
  let s' := execute_queue s in
  let t := qnew s s' in
  queue s' = [] /\
  count is_begin t = length (queue s) /\
  count is_end t = length (queue s) /\
  calls t = List.filter (is_called (heap s)) (queue s) /\
  logged t = List.filter (fails (heap s)) (queue s).
Proof.
  cbn zeta. destruct (QueueFacts.execute_queue_spec s) as (Hq & _ & Ht).
  rewrite (qnew_app _ _ _ Ht). split; [done|].
  destruct (blocks_counts (heap s) (queue s)) as (Hb & He & Hc & Hl).
  unfold count, calls, logged in *. cbn. by split_and!.
Qed.

(** X16: jobs are never run again: draining a second time, right after a
    drain, only repeats the deprecation warning; queue, heap and recorded
    progress are as the first drain left them. *)
Theorem execute_queue_twice (s : State) :
  let s1 := execute_queue s in
  execute_queue s1
  = mkState [] (current_progress s1) (heap s1) (qtrace s1 ++ [QDeprecated]).
Proof.
  cbn zeta. destruct (QueueFacts.execute_queue_spec s) as (Hq & _ & _).
  unfold execute_queue at 1. rewrite Hq. cbn. unfold emit. by rewrite Hq.
Qed.

Lemma call_in_block (hp : gmap nat (gmap string Value)) (j j' : Job)
    (kw : gmap string Value) :
  QCall j kw ∈ job_block hp j' -> j = j' /\ kwargs_of hp j' = Some kw.
Proof.
  unfold job_block. destruct (kwargs_of hp j') as [d|].
  - intros [?|[Heq|Hin]%elem_of_cons]%elem_of_cons; [done| |].
    + by injection Heq as -> ->.
    + apply elem_of_app in Hin as [(? & ? & _)%list_elem_of_fmap|Hin]; [done|].
      destruct (snd (method j' d));
        repeat (apply elem_of_cons in Hin as [?|Hin]; [done|]);
        by apply elem_of_nil in Hin.
  - intros Hin.
    repeat (apply elem_of_cons in Hin as [?|Hin]; [done|]).
    by apply elem_of_nil in Hin.
Qed.

(** X17: the progress callback is forced: every call a drain makes is the
    call of a queued job whose [args] is a mapping of the heap, and it
    receives that mapping's entries as they were when the drain began,
    except that [progress_callback] is bound to [report_progress],
    whatever the caller had put under that key. *)
Theorem calls_receive_report_progress (s : State) (j : Job)
    (kw : gmap string Value) :
  QCall j kw ∈ qnew s (execute_queue s) ->
  j ∈ queue s /\
  kw !! "progress_callback" = Some VReportProgress /\
  exists l d,
    args j = VDict l /\ heap s !! l = Some d /\
    forall k, k <> "progress_callback" -> kw !! k = d !! k.
Proof.
  destruct (QueueFacts.execute_queue_spec s) as (_ & _ & Ht).
  rewrite (qnew_app _ _ _ Ht).
  intros [?|Hin]%elem_of_cons; [done|].
  apply list_elem_of_In, in_concat in Hin as (b & Hb & Hin).
  apply in_map_iff in Hb as (j' & <- & Hj').
  apply list_elem_of_In, call_in_block in Hin as [-> Hkw].
  split; [by apply list_elem_of_In|].
  unfold kwargs_of in Hkw. destruct (args j') as [| | |l|]; try done.
  destruct (heap s !! l) as [d|] eqn:Hd; [|done].
  cbn in Hkw. injection Hkw as <-. split.
  - apply lookup_insert_eq.
  - exists l, d. split_and!; try done.
    intros k Hk. unfold with_progress_callback. by rewrite lookup_insert_ne.
Qed.

End QueueMore.

(** ** The PySide set-up *)

Module PySideFacts.
Import PySide.



End PySideFacts.

(** * The further properties on the sample sessions *)

Lemma start_watching_replaces_subscriptions_witness :
  exists w' x',
    start_watching good_host 0 (running_session "/proj/a.ma") = (Ok tt, w') /\
    watchers w' !! 0 = Some x' /\
    length (message_ids x') = 4 /\
    callbacks w' !! 0 = None.
Proof.
  destruct (start_watching_replaces_subscriptions good_host 0
              (running_session "/proj/a.ma") running_watcher)
    as (w' & x' & Hrun & Hx' & _ & _ & Hlen & _ & Hgone & _);
    [reflexivity | vm_compute; reflexivity | reflexivity | reflexivity |].
  exists w', x'. split; [exact Hrun|]. split; [exact Hx'|].
  split; [exact Hlen|]. apply Hgone. apply list_elem_of_In. simpl. auto.
Defined.

Lemma start_watching_exit_refused_witness :
  exists w' x',
    start_watching refusing_host 0 (running_session "/proj/a.ma")
    = (Raise (PyException "RuntimeError"), w') /\
    watchers w' !! 0 = Some x' /\
    length (message_ids x') = 3.
Proof.
  destruct (start_watching_exit_refused refusing_host 0
              (running_session "/proj/a.ma") running_watcher
              (PyException "RuntimeError"))
    as (w' & x' & Hrun & Hx' & Hlen & _);
    [vm_compute; reflexivity | reflexivity | reflexivity |].
  exists w', x'. split; [exact Hrun|]. split; [exact Hx' | exact Hlen].
Defined.

Lemma watcher_round_trip_witness :
  let w := running_session "/proj/a.ma" in
  let w1 := snd (SceneEventWatcher good_host ("tk-maya", None)
                   default_scene_events true w) in
  exists w2, stop_watching 1 w1 = (Ok tt, w2) /\ callbacks w2 = callbacks w.
Proof.
  cbn zeta.
  destruct (watcher_round_trip good_host ("tk-maya", None)
              default_scene_events true (running_session "/proj/a.ma") 1
              (snd (SceneEventWatcher good_host ("tk-maya", None)
                      default_scene_events true
                      (running_session "/proj/a.ma"))))
    as (w2 & Hstop & Hsame & _);
    [reflexivity | vm_compute; reflexivity |].
  exists w2. split; [exact Hstop | exact Hsame].
Defined.

Lemma maya_events_keep_session_witness :
  let w := running_session "/proj/b.ma" in
  evolves w (snd (scene_event_callback good_host 0 w)).
Proof.
  cbn zeta.
  apply (maya_events_keep_session good_host 0 (running_session "/proj/b.ma")
           (fst (scene_event_callback good_host 0
                   (running_session "/proj/b.ma")))).
  left. vm_compute. reflexivity.
Defined.

Lemma one_shot_fires_once_witness :
  let w := waiting_session "/proj/a.ma" in
  callbacks (snd (scene_event_callback good_host 0 w)) !! 0 = None /\
  callbacks (snd (scene_event_callback good_host 0 w)) !! 3 = None.
Proof.
  cbn zeta.
  destruct (one_shot_fires_once good_host 0
              (mkWatcher [0; 1; 2; 3] ("tk-maya", None) default_scene_events
                         true)
              (waiting_session "/proj/a.ma")
              (fst (scene_event_callback good_host 0
                      (waiting_session "/proj/a.ma")))
              (snd (scene_event_callback good_host 0
                      (waiting_session "/proj/a.ma"))))
    as [Hgone _];
    [reflexivity | vm_compute; reflexivity | reflexivity
    | vm_compute; reflexivity |].
  split; apply Hgone; apply list_elem_of_In; simpl; auto.
Defined.

Lemma what_escapes_the_callback_witness :
  isinstance_Exception (PyException "RuntimeError") = false \/
  addCallback_result refusing_host kMayaExiting
  = Some (PyException "RuntimeError").
Proof.
  apply (what_escapes_the_callback refusing_host "tk-maya" None
           disabled_session (PyException "RuntimeError")
           (snd (on_scene_event_callback refusing_host "tk-maya" None
                   disabled_session))).
  vm_compute. reflexivity.
Defined.

Lemma init_engine_refuses_witness :
  exists msg w',
    init_engine old_maya_host "tk-maya" shot_a (fresh_session "/proj/a.ma")
    = (Raise (TankError msg), w') /\
    callbacks w' = ∅.
Proof.
  destruct (init_engine_refuses old_maya_host "tk-maya" shot_a
              (fresh_session "/proj/a.ma"))
    as (msg & w' & Hrun & Hcb & _); [right; left; reflexivity|].
  exists msg, w'. split; [exact Hrun | exact Hcb].
Defined.

Lemma engine_hooks_round_trip_witness :
  let w := fresh_session "/proj/a.ma" in
  let w1 := snd (init_engine good_host "tk-maya" shot_a w) in
  callbacks (snd (destroy_engine running_engine w1)) = callbacks w.
Proof.
  cbn zeta.
  destruct (engine_hooks_round_trip good_host "tk-maya" shot_a
              (fresh_session "/proj/a.ma") 0
              (snd (init_engine good_host "tk-maya" shot_a
                      (fresh_session "/proj/a.ma")))
              running_engine
              (fst (destroy_engine running_engine
                      (snd (init_engine good_host "tk-maya" shot_a
                              (fresh_session "/proj/a.ma")))))
              (snd (destroy_engine running_engine
                      (snd (init_engine good_host "tk-maya" shot_a
                              (fresh_session "/proj/a.ma"))))))
    as [Hsame _];
    [reflexivity | vm_compute; reflexivity | reflexivity
    | vm_compute; reflexivity |].
  exact Hsame.
Defined.

Lemma destroy_engine_without_menu_witness :
  exists w',
    destroy_engine batch_engine (running_session "/proj/a.ma")
    = (Raise (PyException "AttributeError: _menu_handle"), w') /\
    (message_ids <$> watchers w' !! 0) = Some [].
Proof.
  destruct (destroy_engine_without_menu batch_engine
              (running_session "/proj/a.ma") running_watcher)
    as (w' & Hrun & _ & Hids & _); [reflexivity | vm_compute; reflexivity|].
  exists w'. split; [exact Hrun | exact Hids].
Defined.

Lemma unchanged_context_keeps_engine_witness :
  exists w',
    on_scene_event_callback good_host "tk-maya" (Some shot_a)
      (running_session "/proj/a.ma") = (Ok tt, w') /\
    current_engine w' = Some running_engine /\
    callbacks w' = callbacks (running_session "/proj/a.ma").
Proof.
  destruct (unchanged_context_keeps_engine good_host "tk-maya" shot_a
              (running_session "/proj/a.ma") running_engine "/proj")
    as (w' & Hrun & Hcur & Hcb & _);
    [vm_compute; reflexivity | discriminate | reflexivity | reflexivity |].
  exists w'. split; [exact Hrun|]. split; [exact Hcur | exact Hcb].
Defined.

Lemma tank_menu_lost_after_detour_witness :
  exists w1 w2,
    on_scene_event_callback good_host "tk-maya" (Some shot_a)
      (running_session "/elsewhere/x.ma") = (Ok tt, w1) /\
    on_scene_event_callback good_host "tk-maya" (Some shot_a)
      (open_scene "/proj/a.ma" w1) = (Ok tt, w2) /\
    current_engine w2 = Some running_engine /\
    ("TankMenu" ∉ menus w2).
Proof.
  destruct (tank_menu_lost_after_detour good_host "tk-maya" shot_a
              (running_session "/elsewhere/x.ma") running_engine
              (TankError "not in a Tank project") "/proj/a.ma" "/proj")
    as (w1 & w2 & Hrun1 & Hrun2 & Hcur & Hmenu & _);
    [vm_compute; reflexivity | discriminate | reflexivity | reflexivity
    | discriminate | reflexivity | reflexivity |].
  exists w1, w2. split; [exact Hrun1|]. split; [exact Hrun2|].
  split; [exact Hcur | exact Hmenu].
Defined.

Lemma switch_unsubscribes_old_engine_witness :
  let w' := snd (refresh_engine good_host "tk-maya" (Some shot_a)
                   (running_session "/proj/b.ma")) in
  current_engine w' = Some switched_engine /\
  (message_ids <$> watchers w' !! 0) = Some [].
Proof.
  cbn zeta.
  destruct (switch_unsubscribes_old_engine good_host "tk-maya" (Some shot_a)
              (running_session "/proj/b.ma") running_engine running_watcher
              "/proj" shot_b switched_engine
              (snd (refresh_engine good_host "tk-maya" (Some shot_a)
                      (running_session "/proj/b.ma"))))
    as (Hcur & _ & _ & _ & _ & _ & Hids);
    [reflexivity | vm_compute; reflexivity | vm_compute; reflexivity
    | discriminate | reflexivity | reflexivity | discriminate
    | vm_compute; reflexivity |].
  split; [exact Hcur | exact Hids].
Defined.

Lemma unexpected_error_arms_second_watcher_witness :
  exists w' wid,
    on_scene_event_callback broken_host "tk-maya" (Some shot_a)
      (running_session "/proj/b.ma") = (Ok tt, w') /\
    wid <> 0 /\
    subscribed w' 0 kAfterOpen scene_event_cb = true /\
    subscribed w' wid kAfterOpen scene_event_cb = true.
Proof.
  destruct (unexpected_error_arms_second_watcher broken_host "tk-maya"
              (Some shot_a) (running_session "/proj/b.ma") running_engine
              "/proj" (PyException "KeyError") kAfterOpen)
    as (w' & wid & x' & Hrun & _ & Hne & _ & _ & _ & Hold & Hnew);
    [reflexivity | vm_compute; reflexivity | reflexivity | discriminate
    | reflexivity | reflexivity | reflexivity | reflexivity
    | simpl; auto | reflexivity |].
  exists w', wid. split; [exact Hrun|]. split; [exact Hne|].
  split; [exact Hold | exact Hnew].
Defined.

Lemma run_item_progress_adds_up_witness :
  let j := Queue.mkJob "publish" (fun _ => ([25%Z; 100%Z], None))
             (Queue.VDict 0) in
  Queue.total (Queue.steps (Queue.qnew Queue.sample_state
                              (Queue.run_item j Queue.sample_state)))
  = 100%Z.
Proof.
  cbn zeta.
  destruct (QueueMore.run_item_progress_adds_up
              (Queue.mkJob "publish" (fun _ => ([25%Z; 100%Z], None))
                 (Queue.VDict 0))
              Queue.sample_state
              (Queue.with_progress_callback
                 (<["path" := Queue.VStr "/proj/a.ma"]> ∅)))
    as [Hsum _]; [vm_compute; reflexivity|].
  exact Hsum.
Defined.

Lemma calls_receive_report_progress_witness :
  let j := Queue.mkJob "publish" (fun _ => ([25%Z; 100%Z], None))
             (Queue.VDict 0) in
  let s := Queue.enqueue_all [j] Queue.sample_state in
  j ∈ Queue.queue s.
Proof.
  cbn zeta.
  destruct (QueueMore.calls_receive_report_progress
              (Queue.enqueue_all
                 [Queue.mkJob "publish" (fun _ => ([25%Z; 100%Z], None))
                    (Queue.VDict 0)] Queue.sample_state)
              (Queue.mkJob "publish" (fun _ => ([25%Z; 100%Z], None))
                 (Queue.VDict 0))
              (Queue.with_progress_callback
                 (<["path" := Queue.VStr "/proj/a.ma"]> ∅)))
    as [Hin _].
  - apply list_elem_of_In. vm_compute. right. right. left. reflexivity.
  - exact Hin.
Defined.
